(** * Beancount journal backend: identity, query and text-region mutation

    A shallow embedding of [src/backend/journal_api.py] (class
    [BeancountJournalAPI]) and proofs of its specified properties.

    Part I holds the definitions, in the order of the Python source:
    the Python primitives the code relies on, the directive model, the
    identity engine, the query engine and the mutation operations over an
    explicit file system.  Part II holds the lemmas and theorems.

    Text is modelled as [string] whose characters are Unicode code points
    below 256; file contents are the decoded text with line feeds as line
    ends. *)

From Stdlib Require Import ZArith Lia Bool Ascii String DecimalString List
  Sorting.Sorted
  Sorting.Permutation.
From stdpp Require Import gmap strings list fin_maps fin_sets.
Import ListNotations.

Local Open Scope Z_scope.

(* ===================================================================== *)
(** * Part I.  Definitions                                                *)
(* ===================================================================== *)

(** ** 1. Python primitives *)

Module Py.

(** Exceptions are values: a computation returns its result or raises. *)
Inductive outcome (A : Type) : Type :=
| Ok (a : A)
| Raised (msg : string).
Arguments Ok {A} a.
Arguments Raised {A} msg.

Definition code (c : ascii) : N := N_of_ascii c.

(** [str.isspace] on one character (code points below 256). *)
Definition isspace (c : ascii) : bool :=
  let n := code c in
  ((9 <=? n) && (n <=? 13) || (28 <=? n) && (n <=? 32)
   || (n =? 133) || (n =? 160))%N.

(** [str.lower] on one character: A-Z and the Latin-1 capitals. *)
Definition lower_char (c : ascii) : ascii :=
  let n := code c in
  if ((65 <=? n) && (n <=? 90)
      || (192 <=? n) && (n <=? 222) && negb (n =? 215))%N
  then ascii_of_N (n + 32) else c.

Fixpoint lower (s : string) : string :=
  match s with
  | EmptyString => EmptyString
  | String c s' => String (lower_char c) (lower s')
  end.

Fixpoint lstrip (s : string) : string :=
  match s with
  | EmptyString => EmptyString
  | String c s' => if isspace c then lstrip s' else s
  end.

(** [rstrip] drops the trailing run of white space. *)
Fixpoint rstrip (s : string) : string :=
  match s with
  | EmptyString => EmptyString
  | String c s' =>
      match rstrip s' with
      | EmptyString => if isspace c then EmptyString else String c EmptyString
      | r => String c r
      end
  end.

(** [s.strip()] *)
Definition strip (s : string) : string := rstrip (lstrip s).

(** [s.lstrip(chars)] for a single character [ch]. *)
Fixpoint lstrip_char (ch : ascii) (s : string) : string :=
  match s with
  | EmptyString => EmptyString
  | String c s' => if Ascii.eqb c ch then lstrip_char ch s' else s
  end.

(** [s.startswith(p)] *)
Definition startswith (s p : string) : bool := String.prefix p s.

(** [needle in hay] for strings. *)
Fixpoint contains (needle hay : string) : bool :=
  String.prefix needle hay ||
  match hay with
  | EmptyString => false
  | String _ hay' => contains needle hay'
  end.

(** Truth value of a string: empty is false. *)
Definition truthy (s : string) : bool := negb (String.eqb s EmptyString).

(** Truth value of an optional string: [None] and [''] are false. *)
Definition truthy_opt (o : option string) : bool :=
  match o with
  | Some s => truthy s
  | None => false
  end.

(** [s.split(sep)] for a non-empty separator.  [skip] counts the characters
    of a matched separator that are still to be dropped. *)
Fixpoint split_aux (sep : string) (skip : nat) (s : string) : list string :=
  match s with
  | EmptyString => [EmptyString]
  | String c s' =>
      match skip with
      | S k => split_aux sep k s'
      | O =>
          if String.prefix sep s
          then EmptyString :: split_aux sep (Nat.pred (String.length sep)) s'
          else match split_aux sep O s' with
               | h :: t => String c h :: t
               | [] => [String c EmptyString]
               end
      end
  end.

Definition split (sep s : string) : list string := split_aux sep O s.

Definition nl : string := String (ascii_of_nat 10) EmptyString.

(** [ch not in s] for one character. *)
Fixpoint lacks (ch : ascii) (s : string) : bool :=
  match s with
  | EmptyString => true
  | String c s' => negb (Ascii.eqb c ch) && lacks ch s'
  end.

(** A text without a line feed: one line. *)
Definition one_line (s : string) : bool := lacks (ascii_of_nat 10) s.

(** [glob.has_magic]: the text holds one of the pattern characters. *)
Definition has_magic (s : string) : bool :=
  negb (lacks "*" s && lacks "?" s && lacks "[" s).

(** [sep.join(ls)] *)
Definition join (sep : string) (ls : list string) : string :=
  String.concat sep ls.

(** [l[i]] with Python's negative indices; [None] is IndexError. *)
Definition getitem {A} (l : list A) (i : Z) : option A :=
  let n := Z.of_nat (List.length l) in
  let j := if i <? 0 then i + n else i in
  if (0 <=? j) && (j <? n) then nth_error l (Z.to_nat j) else None.

(** A slice bound clamped as [slice.indices] does it (step 1). *)
Definition clamp (len : nat) (i : Z) : nat :=
  let n := Z.of_nat len in
  let j := if i <? 0 then i + n else i in
  Z.to_nat (Z.min (Z.max j 0) n).

(** [l[start:stop]] *)
Definition slice {A} (l : list A) (start stop : Z) : list A :=
  let lo := clamp (List.length l) start in
  let hi := clamp (List.length l) stop in
  firstn (hi - lo)%nat (skipn lo l).

(** [l[start:]] and [l[:stop]] *)
Definition slice_from {A} (l : list A) (start : Z) : list A :=
  skipn (clamp (List.length l) start) l.
Definition slice_to {A} (l : list A) (stop : Z) : list A :=
  firstn (clamp (List.length l) stop) l.

(** [l[start:stop] = repl]; [del l[start:stop]] is the case [repl = []]. *)
Definition slice_assign {A} (l : list A) (start stop : Z) (repl : list A)
  : list A :=
  let lo := clamp (List.length l) start in
  let hi := Nat.max lo (clamp (List.length l) stop) in
  firstn lo l ++ repl ++ skipn hi l.

(** [list.sort(key=..., reverse=True)] on string keys: the stable sort,
    larger keys first, equal keys in their original order. *)
Section SortReverse.
Context {A : Type} (key : A -> string).

Fixpoint insert_desc (x : A) (l : list A) : list A :=
  match l with
  | [] => [x]
  | y :: l' =>
      if String.ltb (key x) (key y) then y :: insert_desc x l'
      else x :: l
  end.

Fixpoint sort_reverse (l : list A) : list A :=
  match l with
  | [] => []
  | x :: l' => insert_desc x (sort_reverse l')
  end.

(** [a] may stand before [b]: the key of [a] is not smaller. *)
Definition key_ge (a b : A) : Prop := String.compare (key a) (key b) <> Lt.
End SortReverse.

(** [list.sort(key=...)] on integer keys: the stable ascending sort. *)
Section SortAsc.
Context {A : Type} (key : A -> Z).

Fixpoint insert_asc (x : A) (l : list A) : list A :=
  match l with
  | [] => [x]
  | y :: l' =>
      if key y <? key x then y :: insert_asc x l'
      else x :: l
  end.

Fixpoint sort_asc (l : list A) : list A :=
  match l with
  | [] => []
  | x :: l' => insert_asc x (sort_asc l')
  end.
End SortAsc.

End Py.

(** ** 2. Directive model *)

(** [datetime.date]: year 1..9999, month 1..12, day within the month. *)
Record date : Type := mkdate { year : Z; month : Z; day : Z }.

Definition is_leap (y : Z) : bool :=
  (y mod 4 =? 0) && negb (y mod 100 =? 0) || (y mod 400 =? 0).

Definition days_in_month (y m : Z) : Z :=
  if m =? 2 then (if is_leap y then 29 else 28)
  else if (m =? 4) || (m =? 6) || (m =? 9) || (m =? 11) then 30
  else 31.

(** The class invariant of [datetime.date]. *)
Definition date_ok (d : date) : bool :=
  (1 <=? year d) && (year d <=? 9999) && (1 <=? month d) && (month d <=? 12)
  && (1 <=? day d) && (day d <=? days_in_month (year d) (month d)).

(** Comparison of dates, as of the tuples (year, month, day). *)
Definition date_compare (a b : date) : comparison :=
  match year a ?= year b with
  | Eq => match month a ?= month b with
          | Eq => day a ?= day b
          | c => c
          end
  | c => c
  end.

Definition date_ltb (a b : date) : bool :=
  match date_compare a b with Lt => true | _ => false end.
Definition date_leb (a b : date) : bool :=
  match date_compare a b with Gt => false | _ => true end.
Definition date_eqb (a b : date) : bool :=
  match date_compare a b with Eq => true | _ => false end.

Definition digit_char (n : Z) : ascii := ascii_of_N (Z.to_N (48 + n mod 10)).

(** The formats [%04d] and [%02d] on numbers that fit. *)
Definition pad4 (n : Z) : string :=
  String (digit_char (n / 1000)) (String (digit_char (n / 100))
    (String (digit_char (n / 10)) (String (digit_char n) EmptyString))).
Definition pad2 (n : Z) : string :=
  String (digit_char (n / 10)) (String (digit_char n) EmptyString).

(** [date.isoformat()] *)
Definition isoformat (d : date) : string :=
  pad4 (year d) +:+ "-" +:+ pad2 (month d) +:+ "-" +:+ pad2 (day d).

Definition is_digit (c : ascii) : bool :=
  ((48 <=? Py.code c) && (Py.code c <=? 57))%N.
Definition digit_val (c : ascii) : Z := Z.of_N (Py.code c) - 48.
Definition is_digit19 (c : ascii) : bool :=
  ((49 <=? Py.code c) && (Py.code c <=? 57))%N.

(** The month field of [strptime]: the pattern [1[0-2]|0[1-9]|[1-9]],
    followed by the dash.  Returns the month and the text after the dash. *)
Definition parse_month (s : string) : option (Z * string) :=
  match s with
  | String a (String "-"%char r) =>
      if is_digit19 a then Some (digit_val a, r) else None
  | String a (String b (String "-"%char r)) =>
      if (Ascii.eqb a "1" && is_digit b && (digit_val b <=? 2))
         || (Ascii.eqb a "0" && is_digit19 b)
      then Some (10 * digit_val a + digit_val b, r) else None
  | _ => None
  end.

(** The day field: the pattern [3[0-1]|[1-2]\d|0[1-9]|[1-9]| [1-9]], up to
    the end of the text. *)
Definition parse_day (s : string) : option Z :=
  match s with
  | String a EmptyString => if is_digit19 a then Some (digit_val a) else None
  | String a (String b EmptyString) =>
      if (Ascii.eqb a "3" && is_digit b && (digit_val b <=? 1))
         || ((Ascii.eqb a "1" || Ascii.eqb a "2") && is_digit b)
         || (Ascii.eqb a "0" && is_digit19 b)
      then Some (10 * digit_val a + digit_val b)
      else if Ascii.eqb a " " && is_digit19 b then Some (digit_val b)
      else None
  | _ => None
  end.

(** [datetime.strptime(s, '%Y-%m-%d').date()]; ValueError when the text does
    not match the format or names no calendar day. *)
Definition strptime (s : string) : Py.outcome date :=
  match s with
  | String y1 (String y2 (String y3 (String y4 (String "-"%char r)))) =>
      if is_digit y1 && is_digit y2 && is_digit y3 && is_digit y4 then
        match parse_month r with
        | Some (m, r') =>
            match parse_day r' with
            | Some d =>
                let y := 1000 * digit_val y1 + 100 * digit_val y2
                         + 10 * digit_val y3 + digit_val y4 in
                if date_ok (mkdate y m d) then Py.Ok (mkdate y m d)
                else Py.Raised "ValueError: day is out of range for month"
            | None => Py.Raised "ValueError: time data does not match format"
            end
        | None => Py.Raised "ValueError: time data does not match format"
        end
      else Py.Raised "ValueError: time data does not match format"
  | _ => Py.Raised "ValueError: time data does not match format"
  end.

(** [decimal.Decimal], kept as its text [str(d)] and its truth value (a
    Decimal is false exactly when it is zero). *)
Record Decimal : Type := mkDecimal { dec_text : string; dec_nonzero : bool }.

(** Values found in metadata dictionaries.  A float is kept as its text
    ([str] and [repr] agree) and its truth value; a value of any other type
    (a dict such as [__tolerances__], an Amount), which has no [isoformat],
    as its [str], its [repr] and its truth value. *)
Inductive meta_value : Type :=
| MStr (s : string)
| MInt (z : Z)
| MBool (b : bool)
| MNone
| MDate (d : date)
| MDecimal (d : Decimal)
| MFloat (text : string) (nonzero : bool)
| MOther (text repr : string) (truth : bool).

(** A dict with string keys, in insertion order. *)
Definition Meta : Type := list (string * meta_value).

Fixpoint dict_get {V : Type} (k : string) (d : list (string * V)) : option V :=
  match d with
  | [] => None
  | (k', v) :: d' => if String.eqb k k' then Some v else dict_get k d'
  end.

(** [k in d] *)
Definition dict_has {V : Type} (k : string) (d : list (string * V)) : bool :=
  match dict_get k d with Some _ => true | None => false end.

Record Amount : Type := mkAmount { number : Decimal; currency : string }.

Record Cost : Type := mkCost {
  cost_number : option Decimal;
  cost_currency : string;
  cost_date : option date;
  cost_label : option string
}.

Record Posting : Type := mkPosting {
  p_account : string;
  p_units : option Amount;
  p_cost : option Cost;
  p_price : option Amount;
  p_flag : option string;
  p_meta : option Meta
}.

(** The fields of a directive after [meta] and [date], per kind. *)
Inductive Body : Type :=
| Transaction (flag : string) (payee : option string) (narration : string)
    (tags links : list string) (postings : list Posting)
| Note (account comment : string) (tags links : option (list string))
| Balance (account : string) (amount : Amount) (tolerance : option Decimal)
    (diff_amount : option Amount)
| Pad (account source_account : string)
| Open (account : string) (currencies : option (list string))
    (booking : option string)
| Close (account : string)
| Commodity (cur : string)
| Price (cur : string) (amount : Amount).

(** A parsed directive.  The parser puts [filename] and [lineno] in [meta]. *)
Record Directive : Type := mkDirective {
  meta : option Meta;
  edate : date;
  body : Body
}.

Definition is_transaction (e : Directive) : bool :=
  match body e with Transaction _ _ _ _ _ _ => true | _ => false end.

(** ** 3. Identity engine *)

(** [hashlib.md5(data).hexdigest()] (RFC 1321) over bytes given as numbers
    0..255; words are 32-bit, kept in [Z] with the wrap-around written out. *)
Module MD5.

Definition wrap32 (x : Z) : Z := x mod 2 ^ 32.

Definition rotl32 (x c : Z) : Z :=
  wrap32 (Z.lor (Z.shiftl x c) (Z.shiftr x (32 - c))).

Definition not32 (x : Z) : Z := Z.lxor x 4294967295.

Definition shifts : list Z :=
  [7; 12; 17; 22; 7; 12; 17; 22; 7; 12; 17; 22; 7; 12; 17; 22;
   5; 9; 14; 20; 5; 9; 14; 20; 5; 9; 14; 20; 5; 9; 14; 20;
   4; 11; 16; 23; 4; 11; 16; 23; 4; 11; 16; 23; 4; 11; 16; 23;
   6; 10; 15; 21; 6; 10; 15; 21; 6; 10; 15; 21; 6; 10; 15; 21].

Definition sines : list Z :=
  [3614090360; 3905402710; 606105819; 3250441966; 4118548399; 1200080426;
   2821735955; 4249261313; 1770035416; 2336552879; 4294925233; 2304563134;
   1804603682; 4254626195; 2792965006; 1236535329; 4129170786; 3225465664;
   643717713; 3921069994; 3593408605; 38016083; 3634488961; 3889429448;
   568446438; 3275163606; 4107603335; 1163531501; 2850285829; 4243563512;
   1735328473; 2368359562; 4294588738; 2272392833; 1839030562; 4259657740;
   2763975236; 1272893353; 4139469664; 3200236656; 681279174; 3936430074;
   3572445317; 76029189; 3654602809; 3873151461; 530742520; 3299628645;
   4096336452; 1126891415; 2878612391; 4237533241; 1700485571; 2399980690;
   4293915773; 2240044497; 1873313359; 4264355552; 2734768916; 1309151649;
   4149444226; 3174756917; 718787259; 3951481745].

Record regs : Type := mkregs { ra : Z; rb : Z; rc : Z; rd : Z }.

Definition init : regs :=
  mkregs 1732584193 4023233417 2562383102 271733878.

(** One of the 64 operations on a block [m] of sixteen words. *)
Definition round (m : list Z) (r : regs) (i : Z) : regs :=
  let '(mkregs a b c d) := r in
  let '(f, g) :=
    if i <? 16 then (Z.lor (Z.land b c) (Z.land (not32 b) d), i)
    else if i <? 32
    then (Z.lor (Z.land d b) (Z.land (not32 d) c), (5 * i + 1) mod 16)
    else if i <? 48 then (Z.lxor b (Z.lxor c d), (3 * i + 5) mod 16)
    else (Z.lxor c (Z.lor b (not32 d)), (7 * i) mod 16) in
  let f' := wrap32 (f + a + nth (Z.to_nat i) sines 0 + nth (Z.to_nat g) m 0) in
  mkregs d (wrap32 (b + rotl32 f' (nth (Z.to_nat i) shifts 0))) b c.

Definition block (r : regs) (m : list Z) : regs :=
  let r' := fold_left (round m) (map Z.of_nat (seq 0 64)) r in
  mkregs (wrap32 (ra r + ra r')) (wrap32 (rb r + rb r'))
         (wrap32 (rc r + rc r')) (wrap32 (rd r + rd r')).

(** Little-endian bytes of a number. *)
Fixpoint le_bytes (n : nat) (x : Z) : list Z :=
  match n with
  | O => []
  | S n' => x mod 256 :: le_bytes n' (x / 256)
  end.

(** The message, the byte 128, zeros up to 56 modulo 64, the bit length. *)
Definition pad (data : list Z) : list Z :=
  let len := Z.of_nat (List.length data) in
  data ++ [128] ++ repeat 0 (Z.to_nat ((55 - len) mod 64))
       ++ le_bytes 8 (8 * len).

(** Little-endian words of a byte sequence whose length is a multiple of 4. *)
Fixpoint words (n : nat) (bytes : list Z) : list Z :=
  match n with
  | O => []
  | S n' =>
      match bytes with
      | b0 :: b1 :: b2 :: b3 :: rest =>
          (b0 + 256 * b1 + 65536 * b2 + 16777216 * b3) :: words n' rest
      | _ => []
      end
  end.

Fixpoint blocks (n : nat) (ws : list Z) (r : regs) : regs :=
  match n with
  | O => r
  | S n' => blocks n' (skipn 16 ws) (block r (firstn 16 ws))
  end.

Definition hex_digit (x : Z) : ascii :=
  ascii_of_N (Z.to_N (if x <? 10 then 48 + x else 87 + x)).

Fixpoint hex (bytes : list Z) : string :=
  match bytes with
  | [] => EmptyString
  | b :: bs =>
      String (hex_digit (b / 16)) (String (hex_digit (b mod 16)) (hex bs))
  end.

Definition hexdigest (data : list Z) : string :=
  let padded := pad data in
  let n := List.length padded in
  let r := blocks (n / 64) (words (n / 4) padded) init in
  hex (le_bytes 4 (ra r) ++ le_bytes 4 (rb r) ++ le_bytes 4 (rc r)
       ++ le_bytes 4 (rd r)).

End MD5.

(** [s.encode()]: UTF-8 of code points below 256. *)
Fixpoint utf8 (s : string) : list Z :=
  match s with
  | EmptyString => []
  | String c s' =>
      let n := Z.of_N (Py.code c) in
      if n <? 128 then n :: utf8 s'
      else (192 + n / 64) :: (128 + n mod 64) :: utf8 s'
  end.

(** [hashlib.md5(s.encode()).hexdigest()] *)
Definition md5_hexdigest (s : string) : string := MD5.hexdigest (utf8 s).
Arguments md5_hexdigest : simpl never.

(** *** Python [str] and [repr] of the values that are hashed *)

Definition squote : ascii := ascii_of_nat 39.
Definition dquote : ascii := ascii_of_nat 34.
Definition backslash : ascii := ascii_of_nat 92.
Definition str1 (c : ascii) : string := String c EmptyString.

(** [str(z)] for an int. *)
Definition str_Z (z : Z) : string := NilZero.string_of_int (Z.to_int z).

Definition hex2 (n : Z) : string :=
  String (MD5.hex_digit (n / 16)) (str1 (MD5.hex_digit (n mod 16))).

(** [str.isprintable] on one code point below 256. *)
Definition printable (n : Z) : bool :=
  negb ((n <? 32) || ((127 <=? n) && (n <=? 160)) || (n =? 173)).

Fixpoint repr_chars (quote : ascii) (s : string) : string :=
  match s with
  | EmptyString => EmptyString
  | String c s' =>
      let n := Z.of_N (Py.code c) in
      (if Ascii.eqb c quote || Ascii.eqb c backslash
       then String backslash (str1 c)
       else if n =? 9 then String backslash "t"
       else if n =? 10 then String backslash "n"
       else if n =? 13 then String backslash "r"
       else if printable n then str1 c
       else String backslash ("x" +:+ hex2 n))
      +:+ repr_chars quote s'
  end.

(** [repr(s)] for a str: double quotes only when the text holds a single
    quote and no double quote. *)
Definition repr_str (s : string) : string :=
  let quote :=
    if Py.contains (str1 squote) s && negb (Py.contains (str1 dquote) s)
    then dquote else squote in
  String quote (repr_chars quote s +:+ str1 quote).

Definition repr_date (d : date) : string :=
  "datetime.date(" +:+ str_Z (year d) +:+ ", " +:+ str_Z (month d) +:+ ", "
  +:+ str_Z (day d) +:+ ")".

Definition repr_decimal (d : Decimal) : string :=
  "Decimal('" +:+ dec_text d +:+ "')".

Definition str_bool (b : bool) : string := if b then "True" else "False".

(** [str(v)] *)
Definition str_value (v : meta_value) : string :=
  match v with
  | MStr s => s
  | MInt z => str_Z z
  | MBool b => str_bool b
  | MNone => "None"
  | MDate d => isoformat d
  | MDecimal d => dec_text d
  | MFloat text _ => text
  | MOther text _ _ => text
  end.

(** [repr(v)] *)
Definition repr_value (v : meta_value) : string :=
  match v with
  | MStr s => repr_str s
  | MDate d => repr_date d
  | MDecimal d => repr_decimal d
  | MOther _ repr _ => repr
  | _ => str_value v
  end.

Definition repr_item (kv : string * meta_value) : string :=
  repr_str (fst kv) +:+ ": " +:+ repr_value (snd kv).

(** [str(d)] for a dict. *)
Definition str_dict (d : Meta) : string :=
  "{" +:+ Py.join ", " (map repr_item d) +:+ "}".

Definition str_meta (m : option Meta) : string :=
  match m with
  | Some d => str_dict d
  | None => "None"
  end.

Definition str_opt {A : Type} (f : A -> string) (o : option A) : string :=
  match o with
  | Some a => f a
  | None => "None"
  end.

(** [str(amount)]: the number and the currency. *)
Definition str_amount (a : Amount) : string :=
  dec_text (number a) +:+ " " +:+ currency a.

(** [str(cost)]: the named tuple's repr. *)
Definition str_cost (c : Cost) : string :=
  "Cost(number=" +:+ str_opt repr_decimal (cost_number c)
  +:+ ", currency=" +:+ repr_str (cost_currency c)
  +:+ ", date=" +:+ str_opt repr_date (cost_date c)
  +:+ ", label=" +:+ str_opt repr_str (cost_label c) +:+ ")".

(** *** [beancount.core.compare.hash_entry] (library code)

    [stable_hash_namedtuple] walks the fields of a named tuple: a field that
    is a list or set contributes the digests of its elements in sorted
    order, each one as often as it occurs; any other field contributes
    [str] of its value; fields named in [ignore] are skipped.  The field
    lists are those of beancount 3, where a note has tags and links. *)

Inductive field : Type :=
| FScalar (text : string)
| FColl (subhashes : list string).

(** [sorted(subhashes)]: a list, so equal digests are all kept. *)
Fixpoint insert_sorted (h : string) (hs : list string) : list string :=
  match hs with
  | [] => [h]
  | h' :: hs' =>
      match String.compare h h' with
      | Gt => h' :: insert_sorted h hs'
      | _ => h :: hs
      end
  end.

Definition sorted_hashes (hs : list string) : list string :=
  fold_right insert_sorted [] hs.

Definition field_text (f : field) : string :=
  match f with
  | FScalar t => t
  | FColl hs => String.concat EmptyString (sorted_hashes hs)
  end.

Definition ignored (ignore : list string) (name : string) : bool :=
  existsb (String.eqb name) ignore.

(** The text fed to the digest: the kept fields, in field order. *)
Definition hash_input (ignore : list string) (fields : list (string * field))
  : string :=
  String.concat EmptyString
    (map (fun nf => field_text (snd nf))
         (List.filter (fun nf => negb (ignored ignore (fst nf))) fields)).

Definition stable_hash (ignore : list string) (fields : list (string * field))
  : string :=
  md5_hexdigest (hash_input ignore fields).

Definition posting_fields (p : Posting) : list (string * field) :=
  [ ("account", FScalar (p_account p));
    ("units", FScalar (str_opt str_amount (p_units p)));
    ("cost", FScalar (str_opt str_cost (p_cost p)));
    ("price", FScalar (str_opt str_amount (p_price p)));
    ("flag", FScalar (str_opt id (p_flag p)));
    ("meta", FScalar (str_meta (p_meta p))) ].

Definition element_hash (s : string) : string := md5_hexdigest s.

(** A field that holds a set of strings or [None]. *)
Definition optional_set (o : option (list string)) : field :=
  match o with
  | Some xs => FColl (map element_hash xs)
  | None => FScalar "None"
  end.

Definition body_fields (ignore : list string) (b : Body)
  : list (string * field) :=
  match b with
  | Transaction flag payee narration tags links postings =>
      [ ("flag", FScalar flag);
        ("payee", FScalar (str_opt id payee));
        ("narration", FScalar narration);
        ("tags", FColl (map element_hash tags));
        ("links", FColl (map element_hash links));
        ("postings",
         FColl (map (fun p => stable_hash ignore (posting_fields p))
                    postings)) ]
  | Note account comment tags links =>
      [ ("account", FScalar account); ("comment", FScalar comment);
        ("tags", optional_set tags); ("links", optional_set links) ]
  | Balance account amount tolerance diff_amount =>
      [ ("account", FScalar account);
        ("amount", FScalar (str_amount amount));
        ("tolerance", FScalar (str_opt dec_text tolerance));
        ("diff_amount", FScalar (str_opt str_amount diff_amount)) ]
  | Pad account source_account =>
      [ ("account", FScalar account);
        ("source_account", FScalar source_account) ]
  | Open account currencies booking =>
      [ ("account", FScalar account);
        ("currencies", optional_set currencies);
        ("booking", FScalar (str_opt id booking)) ]
  | Close account => [ ("account", FScalar account) ]
  | Commodity cur => [ ("currency", FScalar cur) ]
  | Price cur amount =>
      [ ("currency", FScalar cur); ("amount", FScalar (str_amount amount)) ]
  end.

Definition entry_fields (ignore : list string) (e : Directive)
  : list (string * field) :=
  ("meta", FScalar (str_meta (meta e)))
  :: ("date", FScalar (isoformat (edate e)))
  :: body_fields ignore (body e).

Definition IGNORED_FIELD_NAMES : list string := ["meta"; "diff_amount"].

Definition hash_entry (entry : Directive) (exclude_meta : bool) : string :=
  let ignore := if exclude_meta then IGNORED_FIELD_NAMES else [] in
  stable_hash ignore (entry_fields ignore entry).

(** [generate_entry_id]: the digest over every field, [meta] included. *)
Definition generate_entry_id (entry : Directive) : string :=
  hash_entry entry false.

(** ** 4. Query engine *)

(** JSON-ready values of the result dictionaries and of the payloads.  A
    float is kept as its text ([str] and [repr] agree) and its truth
    value. *)
Unset Elimination Schemes.
Inductive pyval : Type :=
| PNone
| PStr (s : string)
| PInt (z : Z)
| PBool (b : bool)
| PFloat (text : string) (nonzero : bool)
| PList (l : list pyval)
| PDict (d : list (string * pyval)).
Set Elimination Schemes.

Definition PStrOpt (o : option string) : pyval :=
  match o with
  | Some s => PStr s
  | None => PNone
  end.

(** Truth value of a payload value. *)
Definition py_truthy (v : pyval) : bool :=
  match v with
  | PNone => false
  | PStr s => Py.truthy s
  | PInt z => negb (z =? 0)
  | PBool b => b
  | PFloat _ nonzero => nonzero
  | PList l => match l with [] => false | _ => true end
  | PDict d => match d with [] => false | _ => true end
  end.

(** [repr(v)] *)
Fixpoint py_repr (v : pyval) : string :=
  match v with
  | PNone => "None"
  | PStr s => repr_str s
  | PInt z => str_Z z
  | PBool b => str_bool b
  | PFloat text _ => text
  | PList l => "[" +:+ Py.join ", " (map py_repr l) +:+ "]"
  | PDict d =>
      "{" +:+ Py.join ", "
                (map (fun kv => let '(k, x) := kv in
                                repr_str k +:+ ": " +:+ py_repr x) d)
      +:+ "}"
  end.

(** [str(v)], which is what [f'{v}'] shows. *)
Definition py_str (v : pyval) : string :=
  match v with
  | PStr s => s
  | _ => py_repr v
  end.

(** [get_entry_type] *)
Definition get_entry_type (entry : Directive) : string :=
  match body entry with
  | Transaction _ _ _ _ _ _ => "transaction"
  | Note _ _ _ _ => "note"
  | Balance _ _ _ _ => "balance"
  | Pad _ _ => "pad"
  | _ => "unknown"
  end.

(** [entry_matches_account] *)
Definition entry_matches_account (entry : Directive) (account_filter : string)
  : bool :=
  let account_lower := Py.lower account_filter in
  match body entry with
  | Transaction _ _ _ _ _ postings =>
      existsb (fun p => Py.contains account_lower (Py.lower (p_account p)))
              postings
  | Note account _ _ _ | Balance account _ _ _ | Pad account _ =>
      Py.contains account_lower (Py.lower account)
  | _ => false
  end.

(** [entry_matches_search]; [a and b] on a string [a] is false when [a] is
    empty. *)
Definition entry_matches_search (entry : Directive) (search_term : string)
  : bool :=
  let search_lower := Py.lower search_term in
  match body entry with
  | Transaction _ payee narration _ _ postings =>
      let matches_payee :=
        match payee with
        | Some p => Py.truthy p && Py.contains search_lower (Py.lower p)
        | None => false
        end in
      let matches_narration :=
        Py.truthy narration && Py.contains search_lower (Py.lower narration) in
      let matches_account :=
        existsb (fun p => Py.contains search_lower (Py.lower (p_account p)))
                postings in
      matches_payee || matches_narration || matches_account
  | Note account comment _ _ =>
      Py.contains search_lower (Py.lower account)
      || Py.contains search_lower (Py.lower comment)
  | Balance account _ _ _ | Pad account _ =>
      Py.contains search_lower (Py.lower account)
  | _ => false
  end.

(** One page entry: the keys [id], [type], [date], [metadata] and the
    kind-specific keys. *)
Record EntryDict : Type := mkEntryDict {
  ed_id : string;
  ed_type : string;
  ed_date : string;
  ed_metadata : list (string * pyval);
  ed_data : list (string * pyval)
}.

(** The metadata loop of [entry_to_dict]. *)
Definition safe_value (v : meta_value) : pyval :=
  match v with
  | MNone => PNone
  | MStr s => PStr s
  | MInt z => PInt z
  | MBool b => PBool b
  | MFloat text nonzero => PFloat text nonzero
  | MDate d => PStr (isoformat d)
  | MDecimal d => PStr (dec_text d)
  | MOther text _ _ => PStr text
  end.

Definition safe_metadata (m : option Meta) : list (string * pyval) :=
  match m with
  | Some d => map (fun kv => (fst kv, safe_value (snd kv))) d
  | None => []
  end.

(** The posting metadata loop of [transaction_to_dict_data]. *)
Definition posting_metadata (m : option Meta) : list (string * pyval) :=
  match m with
  | Some d =>
      flat_map
        (fun kv =>
           if String.eqb (fst kv) "filename" || String.eqb (fst kv) "lineno"
           then []
           else match snd kv with
                | MStr _ | MInt _ | MBool _ | MFloat _ _ =>
                    [(fst kv, PStr (str_value (snd kv)))]
                | _ => []
                end) d
  | None => []
  end.

Definition amount_dict (a : Amount) : pyval :=
  PDict [("amount", PStr (dec_text (number a)));
         ("currency", PStr (currency a))].

Definition cost_dict (c : Cost) : pyval :=
  PDict [("number",
          match cost_number c with
          | Some n => if dec_nonzero n then PStr (dec_text n) else PNone
          | None => PNone
          end);
         ("currency", PStr (cost_currency c));
         ("date", PStrOpt (option_map isoformat (cost_date c)));
         ("label", PStrOpt (cost_label c))].

Definition posting_data (p : Posting) : pyval :=
  PDict [("account", PStr (p_account p));
         ("amount", PStrOpt (option_map (fun a => dec_text (number a))
                                        (p_units p)));
         ("currency", PStrOpt (option_map currency (p_units p)));
         ("price", match p_price p with
                   | Some a => amount_dict a
                   | None => PNone
                   end);
         ("cost", match p_cost p with
                  | Some c => cost_dict c
                  | None => PNone
                  end);
         ("flag", match p_flag p with
                  | Some f => if Py.truthy f then PStr f else PNone
                  | None => PNone
                  end);
         ("comment", PNone);
         ("metadata", PDict (posting_metadata (p_meta p)))].

(** [transaction_to_dict_data], [note_to_dict_data], [balance_to_dict_data]
    and [pad_to_dict_data]; other kinds add no keys. *)
Definition body_to_dict_data (b : Body) : list (string * pyval) :=
  match b with
  | Transaction flag payee narration tags links postings =>
      [("flag", PStr flag);
       ("payee", PStrOpt payee);
       ("narration", PStr narration);
       ("tags", PList (map PStr tags));
       ("links", PList (map PStr links));
       ("postings", PList (map posting_data postings))]
  | Note account comment _ _ =>
      [("account", PStr account); ("comment", PStr comment)]
  | Balance account amount tolerance diff_amount =>
      [("account", PStr account);
       ("amount", PStr (dec_text (number amount)));
       ("currency", PStr (currency amount));
       ("tolerance",
        match tolerance with
        | Some t => if dec_nonzero t then PStr (dec_text t) else PNone
        | None => PNone
        end);
       ("diff_amount",
        PStrOpt (option_map (fun a => dec_text (number a)) diff_amount))]
  | Pad account source_account =>
      [("account", PStr account); ("source_account", PStr source_account)]
  | _ => []
  end.

(** [entry_to_dict] *)
Definition entry_to_dict (entry : Directive) : EntryDict :=
  {| ed_id := generate_entry_id entry;
     ed_type := get_entry_type entry;
     ed_date := isoformat (edate entry);
     ed_metadata := safe_metadata (meta entry);
     ed_data := body_to_dict_data (body entry) |}.

(** The arguments of [get_entries]. *)
Record Query : Type := mkQuery {
  start_date : option string;
  end_date : option string;
  account_filter : option string;
  payee_filter : option string;
  tag_filter : option string;
  search_term : option string;
  entry_types : option (list string);
  limit : Z;
  offset : Z
}.

(** What one pass of the loop body does: reach the append, [continue], or
    raise into the handler (which also continues). *)
Inductive flow (A : Type) : Type :=
| Next (a : A)
| Continue
| Raise (msg : string).
Arguments Next {A} a.
Arguments Continue {A}.
Arguments Raise {A} msg.

Definition flow_bind {A B : Type} (m : flow A) (k : A -> flow B) : flow B :=
  match m with
  | Next a => k a
  | Continue => Continue
  | Raise msg => Raise msg
  end.

Notation "x <- m ;; k" := (flow_bind m (fun x => k))
  (at level 90, m at next level, right associativity).
Notation "m ;;; k" := (flow_bind m (fun _ => k))
  (at level 90, right associativity).

(** [if c: continue] *)
Definition skip_if (c : bool) : flow unit :=
  if c then Continue else Next tt.

Definition lift {A : Type} (o : Py.outcome A) : flow A :=
  match o with
  | Py.Ok a => Next a
  | Py.Raised msg => Raise msg
  end.

(** A guarded filter block: [if f: body]. *)
Definition when_set (f : option string) (k : string -> flow unit) : flow unit :=
  match f with
  | Some s => if Py.truthy s then k s else Next tt
  | None => Next tt
  end.

(** [if not entry_types: entry_types = [...]] *)
Definition default_entry_types (entry_types : option (list string))
  : list string :=
  match entry_types with
  | None | Some [] => ["transaction"; "balance"; "pad"; "note"]
  | Some ts => ts
  end.

(** The body of the loop of [get_entries], inside its [try]. *)
Definition select_entry (q : Query) (types : list string) (entry : Directive)
  : flow EntryDict :=
  let entry_type := get_entry_type entry in
  skip_if (negb (existsb (String.eqb entry_type) types)) ;;;
  when_set (start_date q) (fun s =>
    start_dt <- lift (strptime s) ;;
    skip_if (date_ltb (edate entry) start_dt)) ;;;
  when_set (end_date q) (fun s =>
    end_dt <- lift (strptime s) ;;
    skip_if (date_ltb end_dt (edate entry))) ;;;
  when_set (account_filter q) (fun f =>
    skip_if (negb (entry_matches_account entry f))) ;;;
  when_set (payee_filter q) (fun f =>
    match body entry with
    | Transaction _ payee _ _ _ _ =>
        skip_if (negb (Py.truthy_opt payee)
                 || negb (Py.contains (Py.lower f)
                            (Py.lower (default EmptyString payee))))
    | _ => Continue
    end) ;;;
  when_set (tag_filter q) (fun f =>
    match body entry with
    | Transaction _ _ _ tags _ _ =>
        skip_if (match tags with
                 | [] => true
                 | _ => negb (existsb (String.eqb (Py.lower f))
                                (map Py.lower tags))
                 end)
    | _ => Continue
    end) ;;;
  when_set (search_term q) (fun t =>
    skip_if (negb (entry_matches_search entry t))) ;;;
  Next (entry_to_dict entry).

(** The loop: an entry is appended when its pass reaches the end. *)
Definition collect (q : Query) (types : list string) (entries : list Directive)
  : list EntryDict :=
  flat_map (fun entry =>
              match select_entry q types entry with
              | Next d => [d]
              | Continue | Raise _ => []
              end) entries.

(** Whether the pass over [entry] reaches the append. *)
Definition selects (q : Query) (types : list string) (entry : Directive)
  : bool :=
  match select_entry q types entry with
  | Next _ => true
  | Continue | Raise _ => false
  end.

(** The sort key of [get_entries] read on the directive itself. *)
Definition date_key (entry : Directive) : string := isoformat (edate entry).

(** [b] is not dated after [a]: most recent first. *)
Definition newer_first (a b : Directive) : Prop :=
  date_leb (edate b) (edate a) = true.

Definition dated (d : date) (entry : Directive) : bool :=
  date_eqb (edate entry) d.

Definition dates_ok (es : list Directive) : Prop :=
  Forall (fun e => date_ok (edate e) = true) es.

(** The result dictionary of [get_entries]. *)
Record Page : Type := mkPage {
  pg_entries : list EntryDict;
  total_count : Z;
  returned_count : Z;
  pg_offset : Z;
  pg_limit : Z;
  has_more : bool
}.

(** [get_entries] over the loaded [entries]. *)
Definition get_entries (entries : list Directive) (q : Query) : Page :=
  let types := default_entry_types (entry_types q) in
  let found := collect q types entries in
  let sorted := Py.sort_reverse ed_date found in
  let total := Z.of_nat (List.length sorted) in
  let page := Py.slice sorted (offset q) (offset q + limit q) in
  {| pg_entries := page;
     total_count := total;
     returned_count := Z.of_nat (List.length page);
     pg_offset := offset q;
     pg_limit := limit q;
     has_more := offset q + Z.of_nat (List.length page) <? total |}.

(** ** 5. Files, backups and mutations *)

(** A file: its text and its modification time.  Files are kept by path;
    a path that is absent cannot be read, copied or removed, and every path
    can be written. *)
Record File : Type := mkFile { content : string; mtime : Z }.

(** The mutable world of one API object: the loaded entries, the files by
    path, and the clock. *)
Record State : Type := mkState {
  entries : list Directive;
  fs : gmap string File;
  clock : Z
}.

(** The constructor arguments of [BeancountJournalAPI] and what the
    operations take from outside: the ledger parser, the clock formats and
    the text renderers of the edit payloads, whose output the update
    operations splice into the file as it is. *)
Record Env : Type := mkEnv {
  beancount_file : string;
  create_backups : bool;
  max_backup_files : Z;
  (** [loader.load_file(path)] on the current files; may raise. *)
  load_file : gmap string File -> string -> Py.outcome (list Directive);
  (** [datetime.now().strftime('%Y%m%d_%H%M%S')] at a clock value. *)
  strftime : Z -> string;
  (** [date.today()] at a clock value. *)
  today : Z -> date;
  (** [int(float(v))] for the values it is not written out for below. *)
  int_float_ext : meta_value -> option Z;
  generate_transaction_text : list (string * pyval) -> Py.outcome string;
  generate_balance_text : list (string * pyval) -> Py.outcome string;
  generate_note_text : list (string * pyval) -> Py.outcome string
}.

(** Stateful code that may raise; effects made before a raise persist. *)
Definition M (A : Type) : Type := State -> Py.outcome A * State.

Definition ret {A : Type} (a : A) : M A := fun st => (Py.Ok a, st).
Definition raise {A : Type} (msg : string) : M A :=
  fun st => (Py.Raised msg, st).
Definition bind {A B : Type} (m : M A) (k : A -> M B) : M B :=
  fun st =>
    match m st with
    | (Py.Ok a, st') => k a st'
    | (Py.Raised msg, st') => (Py.Raised msg, st')
    end.
(** [try: m  except Exception as e: h(e)] *)
Definition catch {A : Type} (m : M A) (h : string -> M A) : M A :=
  fun st =>
    match m st with
    | (Py.Ok a, st') => (Py.Ok a, st')
    | (Py.Raised msg, st') => h msg st'
    end.
Definition get_state : M State := fun st => (Py.Ok st, st).
Definition put_fs (f : gmap string File) : M unit :=
  fun st => (Py.Ok tt, mkState (entries st) f (clock st)).
Definition put_entries (es : list Directive) : M unit :=
  fun st => (Py.Ok tt, mkState es (fs st) (clock st)).
Definition of_outcome {A : Type} (o : Py.outcome A) : M A :=
  fun st => (o, st).
Definition of_option {A : Type} (msg : string) (o : option A) : M A :=
  match o with
  | Some a => ret a
  | None => raise msg
  end.

Notation "x <~ m ;; k" := (bind m (fun x => k))
  (at level 90, m at next level, right associativity).
Notation "m ;;~ k" := (bind m (fun _ => k))
  (at level 90, right associativity).

(** [str(e)] of the FileNotFoundError for a path. *)
Definition no_such_file (path : string) : string :=
  "[Errno 2] No such file or directory: " +:+ repr_str path.

(** [open(path, 'r').read()] *)
Definition read_text (path : string) : M string :=
  st <~ get_state ;;
  match fs st !! path with
  | Some f => ret (content f)
  | None => raise (no_such_file path)
  end.

(** [open(path, 'w').write(text)] *)
Definition write_text (path text : string) : M unit :=
  st <~ get_state ;;
  put_fs (<[path := mkFile text (clock st)]> (fs st)).

(** [open(path, 'a').write(text)] *)
Definition append_text (path text : string) : M unit :=
  st <~ get_state ;;
  let old := match fs st !! path with
             | Some f => content f
             | None => EmptyString
             end in
  put_fs (<[path := mkFile (old +:+ text) (clock st)]> (fs st)).

(** [shutil.copy2(src, dst)]: the text and the modification time. *)
Definition copy2 (src dst : string) : M unit :=
  st <~ get_state ;;
  match fs st !! src with
  | Some f => put_fs (<[dst := f]> (fs st))
  | None => raise (no_such_file src)
  end.

(** [os.remove(path)] *)
Definition remove (path : string) : M unit :=
  st <~ get_state ;;
  match fs st !! path with
  | Some _ => put_fs (delete path (fs st))
  | None => raise (no_such_file path)
  end.

(** A name matched by the pattern [target + '.backup.*'], for a target path
    free of pattern characters ([Py.has_magic target = false]): the star
    matches any run without a slash.  A target with pattern characters is
    itself read as a pattern by [glob], which is not written out here; the
    properties that count or list backups are stated for targets without
    them. *)
Definition is_backup_of (target path : string) : bool :=
  let pre := target +:+ ".backup." in
  String.prefix pre path
  && negb (Py.contains "/"
             (String.substring (String.length pre)
                (String.length path - String.length pre) path)).

(** [glob.glob(target + '.backup.*')] *)
Definition glob_backups (f : gmap string File) (target : string)
  : list string :=
  List.filter (is_backup_of target) (elements (dom f)).

(** [os.path.getmtime(path)] of a listed file. *)
Definition getmtime (f : gmap string File) (path : string) : Z :=
  match f !! path with
  | Some x => mtime x
  | None => 0
  end.

(** [target_file or self.beancount_file] *)
Definition or_default (env : Env) (target_file : option string) : string :=
  match target_file with
  | Some t => if Py.truthy t then t else beancount_file env
  | None => beancount_file env
  end.

(** The removal loop of [cleanup_old_backups]: a failed removal is logged
    and the loop goes on. *)
Fixpoint remove_all (paths : list string) : M unit :=
  match paths with
  | [] => ret tt
  | p :: ps => catch (remove p) (fun _ => ret tt) ;;~ remove_all ps
  end.

(** The files left by the removal loop. *)
Definition delete_all (paths : list string) (f : gmap string File)
  : gmap string File :=
  fold_left (fun m p => delete p m) paths f.

(** The backups that [cleanup_old_backups] picks for removal: when there
    are more than the cap, the first ones by modification time. *)
Definition files_to_remove (env : Env) (f : gmap string File)
  (file_to_check : string) : list string :=
  let backup_files := glob_backups f file_to_check in
  if max_backup_files env <? Z.of_nat (List.length backup_files) then
    let sorted := Py.sort_asc (getmtime f) backup_files in
    Py.slice_to sorted (Z.of_nat (List.length sorted) - max_backup_files env)
  else [].

(** [cleanup_old_backups] *)
Definition cleanup_old_backups (env : Env) (target_file : option string)
  : M unit :=
  let file_to_check := or_default env target_file in
  st <~ get_state ;;
  remove_all (files_to_remove env (fs st) file_to_check).

(** [create_backup_if_enabled] *)
Definition create_backup_if_enabled (env : Env) (target_file : option string)
  : M (option string) :=
  if negb (create_backups env) then ret None
  else
    let file_to_backup := or_default env target_file in
    st <~ get_state ;;
    let backup_path :=
      file_to_backup +:+ ".backup." +:+ strftime env (clock st) in
    copy2 file_to_backup backup_path ;;~
    (if 0 <? max_backup_files env
     then cleanup_old_backups env (Some file_to_backup)
     else ret tt) ;;~
    ret (Some backup_path).

(** [reload_data]: parse again; a raise of the parser propagates. *)
Definition reload_data (env : Env) : M unit :=
  st <~ get_state ;;
  es <~ of_outcome (load_file env (fs st) (beancount_file env)) ;;
  put_entries es.

(** The result dictionaries of the mutation operations. *)
Record Result : Type := mkResult {
  success : bool;
  error : option string;
  message : option string;
  backup_file : option string;
  target_file : option string
}.

Definition failure (msg : string) : Result :=
  mkResult false (Some msg) None None None.
Definition succeeded (msg : string) (backup : option string)
  (target : option string) : Result :=
  mkResult true None (Some msg) backup target.

Definition is_supported (e : Directive) : bool :=
  match body e with
  | Transaction _ _ _ _ _ _ | Note _ _ _ _ | Balance _ _ _ _ | Pad _ _ => true
  | _ => false
  end.

(** [find_entry_by_id] *)
Definition find_entry_by_id (es : list Directive) (entry_id : string)
  : option Directive :=
  List.find (fun entry => is_supported entry
                          && String.eqb (generate_entry_id entry) entry_id) es.

(** [find_transaction_by_id] *)
Definition find_transaction_by_id (es : list Directive)
  (transaction_id : string) : option Directive :=
  match find_entry_by_id es transaction_id with
  | Some entry => if is_transaction entry then Some entry else None
  | None => None
  end.

(** A metadata value used as an int in [lineno - 1]: another value raises
    a TypeError there, or (a Decimal, a float) where the result is used as
    an index; its text is shortened to the name of the class. *)
Definition as_int (v : meta_value) : Py.outcome Z :=
  match v with
  | MInt z => Py.Ok z
  | MBool b => Py.Ok (Z.b2z b)
  | _ => Py.Raised "TypeError"
  end.

Definition indented (line : string) : bool :=
  Py.startswith line " " || Py.startswith line (str1 (ascii_of_nat 9)).

(** The test of the update and delete loops for going on to the next line:
    the [break] condition negated. *)
Definition continues_entry (line : string) : bool :=
  negb (String.eqb (Py.strip line) EmptyString || negb (indented line)).

(** The loop [while end_line + 1 < len(lines): ...; end_line += 1].  Each
    pass lowers [len(lines) - 1 - end_line], the fuel it is started with. *)
Fixpoint scan_end (continues : string -> bool) (lines : list string)
  (fuel : nat) (end_line : Z) : Py.outcome Z :=
  match fuel with
  | O => Py.Ok end_line
  | S fuel' =>
      if end_line + 1 <? Z.of_nat (List.length lines) then
        match Py.getitem lines (end_line + 1) with
        | None => Py.Raised "list index out of range"
        | Some next =>
            if continues next
            then scan_end continues lines fuel' (end_line + 1)
            else Py.Ok end_line
        end
      else Py.Ok end_line
  end.

Definition find_end (continues : string -> bool) (lines : list string)
  (start_line : Z) : Py.outcome Z :=
  scan_end continues lines
    (Z.to_nat (Z.of_nat (List.length lines) - 1 - start_line)) start_line.

(** The three update methods differ in the lookup, the renderer and the
    replacement lines. *)
Inductive UpdateKind : Type := UTransaction | UBalance | UNote.

Definition kind_label (k : UpdateKind) : string :=
  match k with
  | UTransaction => "transaction"
  | UBalance => "balance entry"
  | UNote => "note entry"
  end.

Definition kind_Label (k : UpdateKind) : string :=
  match k with
  | UTransaction => "Transaction"
  | UBalance => "Balance entry"
  | UNote => "Note entry"
  end.

Definition lookup_for_update (k : UpdateKind) (es : list Directive)
  (entry_id : string) : option Directive :=
  match k with
  | UTransaction => find_transaction_by_id es entry_id
  | UBalance =>
      match find_entry_by_id es entry_id with
      | Some e => match body e with
                  | Balance _ _ _ _ => Some e
                  | _ => None
                  end
      | None => None
      end
  | UNote =>
      match find_entry_by_id es entry_id with
      | Some e => match body e with
                  | Note _ _ _ _ => Some e
                  | _ => None
                  end
      | None => None
      end
  end.

Definition render_for_update (env : Env) (k : UpdateKind)
  (updated_data : list (string * pyval)) : Py.outcome (list string) :=
  match k with
  | UTransaction =>
      match generate_transaction_text env updated_data with
      | Py.Ok text => Py.Ok (Py.split Py.nl text)
      | Py.Raised msg => Py.Raised msg
      end
  | UBalance =>
      match generate_balance_text env updated_data with
      | Py.Ok text => Py.Ok [text]
      | Py.Raised msg => Py.Raised msg
      end
  | UNote =>
      match generate_note_text env updated_data with
      | Py.Ok text => Py.Ok [text]
      | Py.Raised msg => Py.Raised msg
      end
  end.

(** [update_transaction_in_file], [update_balance_in_file] and
    [update_note_in_file]. *)
Definition update_in_file (env : Env) (k : UpdateKind) (entry_id : string)
  (updated_data : list (string * pyval)) : M Result :=
  catch
    (st <~ get_state ;;
     match lookup_for_update k (entries st) entry_id with
     | None => ret (failure (kind_Label k +:+ " not found"))
     | Some original =>
         backup_path <~ create_backup_if_enabled env None ;;
         text <~ read_text (beancount_file env) ;;
         m <~ of_option "argument of type 'NoneType' is not iterable"
                (meta original) ;;
         match dict_get "lineno" m with
         | Some lineno =>
             let lines := Py.split Py.nl text in
             new_lines <~ of_outcome (render_for_update env k updated_data) ;;
             lineno <~ of_outcome (as_int lineno) ;;
             let start_line := lineno - 1 in
             end_line <~
               of_outcome (find_end continues_entry lines start_line) ;;
             let lines :=
               Py.slice_assign lines start_line (end_line + 1) new_lines in
             write_text (beancount_file env) (Py.join Py.nl lines) ;;~
             reload_data env ;;~
             ret (succeeded (kind_Label k +:+ " updated successfully")
                    backup_path None)
         | None =>
             ret (failure ("Could not locate " +:+ kind_label k +:+ " in file"))
         end
     end)
    (fun msg => ret (failure ("Failed to update " +:+ kind_label k +:+ ": "
                              +:+ msg))).

Definition update_transaction_in_file (env : Env) :=
  update_in_file env UTransaction.
Definition update_balance_in_file (env : Env) := update_in_file env UBalance.
Definition update_note_in_file (env : Env) := update_in_file env UNote.

(** [update_entry_in_file]: dispatch on the payload's [type]. *)
Definition update_entry_in_file (env : Env) (entry_id : string)
  (updated_data : list (string * pyval)) : M Result :=
  match default (PStr "transaction") (dict_get "type" updated_data) with
  | PStr entry_type =>
      if String.eqb entry_type "transaction"
      then update_transaction_in_file env entry_id updated_data
      else if String.eqb entry_type "balance"
      then update_balance_in_file env entry_id updated_data
      else if String.eqb entry_type "note"
      then update_note_in_file env entry_id updated_data
      else ret (failure ("Unsupported entry type: " +:+ entry_type))
  | entry_type =>
      ret (failure ("Unsupported entry type: " +:+ py_str entry_type))
  end.

(** [delete_entry_from_file] *)
Definition delete_entry_from_file (env : Env) (entry_id : string) : M Result :=
  catch
    (st <~ get_state ;;
     match find_entry_by_id (entries st) entry_id with
     | None => ret (failure "Entry not found")
     | Some original =>
         backup_path <~ create_backup_if_enabled env None ;;
         text <~ read_text (beancount_file env) ;;
         m <~ of_option "argument of type 'NoneType' is not iterable"
                (meta original) ;;
         match dict_get "lineno" m with
         | Some lineno =>
             let lines := Py.split Py.nl text in
             lineno <~ of_outcome (as_int lineno) ;;
             let start_line := lineno - 1 in
             end_line <~
               of_outcome (find_end continues_entry lines start_line) ;;
             let lines := Py.slice_assign lines start_line (end_line + 1) [] in
             write_text (beancount_file env) (Py.join Py.nl lines) ;;~
             reload_data env ;;~
             ret (succeeded "Entry deleted successfully" backup_path None)
         | None => ret (failure "Could not locate entry in file")
         end
     end)
    (fun msg => ret (failure ("Failed to delete entry: " +:+ msg))).

(** [delete_transaction_from_file] *)
Definition delete_transaction_from_file := delete_entry_from_file.

(** The [metadata] argument: a dict, or anything else. *)
Inductive MetaArg : Type :=
| MetaDict (d : Meta)
| MetaOther.

(** [if not isinstance(metadata, dict): metadata = {}] *)
Definition as_dict (metadata : MetaArg) : Meta :=
  match metadata with
  | MetaDict d => d
  | MetaOther => []
  end.

(** The indented [key: value] lines of a declaration; strings are quoted. *)
Definition metadata_lines (metadata : Meta) : list string :=
  map (fun kv =>
         match snd kv with
         | MStr v => "  " +:+ fst kv +:+ ": " +:+ str1 dquote +:+ v
                     +:+ str1 dquote
         | v => "  " +:+ fst kv +:+ ": " +:+ str_value v
         end) metadata.

(** [find_first_directive_date] *)
Definition find_first_directive_date (es : list Directive) : option date :=
  fold_left (fun first entry =>
               match first with
               | None => Some (edate entry)
               | Some f => if date_ltb (edate entry) f
                           then Some (edate entry) else first
               end) es None.

(** Truth value of a metadata value. *)
Definition value_truthy (v : meta_value) : bool :=
  match v with
  | MStr s => Py.truthy s
  | MInt z => negb (z =? 0)
  | MBool b => b
  | MNone => false
  | MDate _ => true
  | MDecimal d => dec_nonzero d
  | MFloat _ nonzero => nonzero
  | MOther _ _ truth => truth
  end.

(** [meta.get('filename') or fallback], a value used later as a path: a
    true value that is no string raises once it is opened. *)
Definition filename_or (m : Meta) (fallback : Py.outcome string)
  : Py.outcome string :=
  match dict_get "filename" m with
  | Some v =>
      if value_truthy v then
        match v with
        | MStr s => Py.Ok s
        | _ => Py.Raised "TypeError"
        end
      else fallback
  | None => fallback
  end.

(** [entry.meta and 'filename' in entry.meta] *)
Definition has_filename (e : Directive) : bool :=
  match meta e with
  | Some (kv :: m) => dict_has "filename" (kv :: m)
  | _ => false
  end.

(** The target-file loop of [create_commodity_declaration]: a price of the
    symbol fixes the file and ends the loop; a transaction with a posting
    in the symbol sets it and the loop goes on. *)
Fixpoint pick_target (symbol : string) (es : list Directive)
  (target : Py.outcome string) : Py.outcome string :=
  match es with
  | [] => target
  | entry :: es' =>
      let meta_file := filename_or (default [] (meta entry)) target in
      match body entry with
      | Price cur _ =>
          if String.eqb cur symbol && has_filename entry
          then meta_file
          else pick_target symbol es' target
      | Transaction _ _ _ _ _ postings =>
          if existsb (fun p => match p_units p with
                               | Some u => String.eqb (currency u) symbol
                               | None => false
                               end) postings
             && has_filename entry
          then pick_target symbol es' meta_file
          else pick_target symbol es' target
      | _ => pick_target symbol es' target
      end
  end.

(** The text of a new declaration: the header, the metadata lines and a
    final line feed. *)
Definition declaration_text (d : date) (symbol : string) (metadata : Meta)
  : string :=
  let lines :=
    (isoformat d +:+ " commodity " +:+ symbol) :: metadata_lines metadata in
  Py.join Py.nl lines +:+ Py.nl.

(** [date_for_decl], by default the first date of the ledger or today. *)
Definition declaration_date (env : Env) (st : State)
  (date_for_decl : option date) : date :=
  match date_for_decl with
  | Some d => d
  | None => default (today env (clock st))
              (find_first_directive_date (entries st))
  end.

(** [create_commodity_declaration] *)
Definition create_commodity_declaration (env : Env) (symbol : string)
  (metadata : MetaArg) (date_for_decl : option date) : M Result :=
  catch
    (st <~ get_state ;;
     let metadata := as_dict metadata in
     let date_for_decl := declaration_date env st date_for_decl in
     let text := declaration_text date_for_decl symbol metadata in
     target <~ of_outcome
       (pick_target symbol (entries st) (Py.Ok (beancount_file env))) ;;
     backup_path <~ create_backup_if_enabled env (Some target) ;;
     append_text target (Py.nl +:+ text) ;;~
     reload_data env ;;~
     ret (succeeded ("Created commodity declaration for " +:+ symbol)
            backup_path (Some target)))
    (fun msg => ret (failure msg)).

(** [int(float(lineno))]; [None] when it raises. *)
Definition int_float (env : Env) (v : meta_value) : option Z :=
  match v with
  | MInt z => if Z.abs z <=? 2 ^ 53 then Some z else int_float_ext env v
  | MBool b => Some (Z.b2z b)
  | MDate _ => None
  | _ => int_float_ext env v
  end.

(** The line number that the in-place edit can use: [None] when [lineno]
    is absent, is [None] or cannot be made an int. *)
Definition usable_lineno (env : Env) (m : Meta) : option Z :=
  match dict_get "lineno" m with
  | None | Some MNone => None
  | Some v => int_float env v
  end.

(** The test of the commodity loop for going on to the next line. *)
Definition continues_decl (line : string) : bool := indented line.

(** What the inner [try] of [update_commodity_metadata] prepares. *)
Record Edit : Type := mkEdit {
  e_start : Z;
  e_end : Z;
  e_decl_lines : list string;
  e_new_lines : list string
}.

(** The inner [try] block: the region, the header prefix before
    [' commodity '], the declaration lines and the spliced file. *)
Definition prepare_edit (lines : list string) (lineno : Z) (symbol : string)
  (metadata : Meta) : Py.outcome Edit :=
  let start := lineno - 1 in
  match find_end continues_decl lines start with
  | Py.Raised msg => Py.Raised msg
  | Py.Ok end_ =>
      match Py.getitem lines start with
      | None => Py.Raised "list index out of range"
      | Some header =>
          let header_parts := Py.split " commodity " header in
          let header_prefix := hd header header_parts in
          let decl_lines :=
            (header_prefix +:+ " commodity " +:+ symbol)
            :: metadata_lines metadata in
          Py.Ok (mkEdit start end_ decl_lines
                   (Py.slice_to lines start ++ decl_lines
                    ++ Py.slice_from lines (end_ + 1)))
      end
  end.

(** [isinstance(entry, data.Commodity) and entry.currency == symbol] *)
Definition declares (symbol : string) (entry : Directive) : bool :=
  match body entry with
  | Commodity cur => String.eqb cur symbol
  | _ => false
  end.

(** [update_commodity_metadata] *)
Definition update_commodity_metadata (env : Env) (symbol : string)
  (metadata : MetaArg) : M Result :=
  catch
    (st <~ get_state ;;
     let metadata := MetaDict (as_dict metadata) in
     match List.find (declares symbol) (entries st) with
     | None => create_commodity_declaration env symbol metadata None
     | Some commodity_entry =>
         let entry_meta := default [] (meta commodity_entry) in
         let target_file :=
           filename_or entry_meta (Py.Ok (beancount_file env)) in
         match dict_get "lineno" entry_meta with
         | None | Some MNone =>
             create_commodity_declaration env symbol metadata None
         | Some lineno =>
             match int_float env lineno with
             | None => create_commodity_declaration env symbol metadata None
             | Some lineno =>
                 target <~ of_outcome target_file ;;
                 text <~ read_text target ;;
                 let lines := Py.split Py.nl text in
                 match prepare_edit lines lineno symbol (as_dict metadata) with
                 | Py.Raised _ =>
                     create_commodity_declaration env symbol metadata None
                 | Py.Ok edit =>
                     let backup_path :=
                       target +:+ ".backup." +:+ strftime env (clock st) in
                     copy2 target backup_path ;;~
                     write_text target (Py.join Py.nl (e_new_lines edit)) ;;~
                     reload_data env ;;~
                     ret (succeeded ("Updated metadata for " +:+ symbol)
                            (Some backup_path) (Some target))
                 end
             end
         end
     end)
    (fun msg => ret (failure msg)).

(** ** 6. A small ledger, used to run the definitions *)

Module Sample.

Definition ledger_path : string := "/ledger.beancount".

Definition q (s : string) : string := str1 dquote +:+ s +:+ str1 dquote.

(** The ledger text, eleven lines when split at line feeds. *)
Definition ledger_lines : list string :=
  [ "2024-01-15 note Assets:Cash " +:+ q "opened wallet";
    EmptyString;
    "2024-02-01 * " +:+ q "Store" +:+ " " +:+ q "Coffee";
    "  Assets:Cash  -3.50 USD";
    "  Expenses:Coffee  3.50 USD";
    EmptyString;
    "2024-02-01 balance Assets:Cash 100.00 USD";
    EmptyString;
    "2024-01-01 commodity BTC";
    "  name: " +:+ q "Bitcoin";
    EmptyString ].

Definition ledger_text : string := Py.join Py.nl ledger_lines.

Definition located (line : Z) : option Meta :=
  Some [("filename", MStr ledger_path); ("lineno", MInt line)].

Definition usd (text : string) : Amount :=
  mkAmount (mkDecimal text true) "USD".

Definition note_at (line : Z) : Directive :=
  mkDirective (located line) (mkdate 2024 1 15)
    (Note "Assets:Cash" "opened wallet" (Some []) (Some [])).

Definition coffee_postings : list Posting :=
  [ mkPosting "Assets:Cash" (Some (usd "-3.50")) None None None
      (Some [("filename", MStr ledger_path); ("lineno", MInt 4)]);
    mkPosting "Expenses:Coffee" (Some (usd "3.50")) None None None
      (Some [("filename", MStr ledger_path); ("lineno", MInt 5)]) ].

Definition coffee_with (m : option Meta) : Directive :=
  mkDirective m (mkdate 2024 2 1)
    (Transaction "*" (Some "Store") "Coffee" [] [] coffee_postings).

Definition coffee : Directive := coffee_with (located 3).

Definition cash_balance : Directive :=
  mkDirective (located 7) (mkdate 2024 2 1)
    (Balance "Assets:Cash" (usd "100.00") None None).

Definition btc_with (m : option Meta) : Directive :=
  mkDirective m (mkdate 2024 1 1) (Commodity "BTC").

Definition btc : Directive := btc_with (located 9).

(** The directives in file order, as the parser returns them. *)
Definition ledger : list Directive := [note_at 1; coffee; cash_balance; btc].

Definition new_coffee_text : string :=
  "2024-02-01 * " +:+ q "Store" +:+ " " +:+ q "Espresso" +:+ Py.nl
  +:+ "  Assets:Cash  -4.00 USD" +:+ Py.nl
  +:+ "  Expenses:Coffee  4.00 USD".

(** An environment with a parser that returns [parsed] whatever the text. *)
Definition env_with (backups : bool) (cap : Z) (parsed : list Directive)
  : Env :=
  {| beancount_file := ledger_path;
     create_backups := backups;
     max_backup_files := cap;
     load_file := fun _ _ => Py.Ok parsed;
     strftime := fun t => "20240301_" +:+ str_Z t;
     today := fun _ => mkdate 2024 3 1;
     int_float_ext := fun _ => None;
     generate_transaction_text := fun _ => Py.Ok new_coffee_text;
     generate_balance_text :=
       fun _ => Py.Ok "2024-02-01 balance Assets:Cash 96.00 USD";
     generate_note_text :=
       fun _ => Py.Ok ("2024-01-15 note Assets:Cash " +:+ q "wallet") |}.

Definition env : Env := env_with true 2 ledger.

Definition files : gmap string File :=
  {[ ledger_path := mkFile ledger_text 100 ]}.

Definition state_with (es : list Directive) : State := mkState es files 120000.

Definition state : State := state_with ledger.

Definition all_entries : Query :=
  mkQuery None None None None None None None 100 0.

(** The ledger with two older backups beside it. *)
Definition old_backup : string := "/ledger.beancount.backup.20240101_090000".
Definition mid_backup : string := "/ledger.beancount.backup.20240201_090000".
Definition new_backup : string := "/ledger.beancount.backup.20240301_120000".

Definition files_with_backups : gmap string File :=
  <[old_backup := mkFile "older text" 50]>
    (<[mid_backup := mkFile "old text" 60]> files).

Definition state_with_backups : State :=
  mkState ledger files_with_backups 120000.

(** A transaction and a commodity declaration whose metadata has no
    [lineno]. *)
Definition unlocated : option Meta := Some [("filename", MStr ledger_path)].
Definition lost_coffee : Directive := coffee_with unlocated.
Definition lost_btc : Directive := btc_with unlocated.

End Sample.

(** ** 7. The rest of the class *)

(** [filter_user_metadata] *)
Definition filter_user_metadata (meta : option Meta) : Meta :=
  match meta with
  | Some d =>
      List.filter
        (fun kv => negb (String.eqb (fst kv) "lineno"
                         || String.eqb (fst kv) "filename")) d
  | None => []
  end.

(** [get_transactions]: [get_entries] with [entry_types=['transaction']];
    the result has the key [transactions] in place of [entries]. *)
Definition get_transactions (entries : list Directive) (q : Query) : Page :=
  get_entries entries
    (mkQuery (start_date q) (end_date q) (account_filter q) (payee_filter q)
       (tag_filter q) (search_term q) (Some ["transaction"])
       (limit q) (offset q)).


(** The two tests of the target-file loop of
    [create_commodity_declaration]: a price of the symbol, or a transaction
    with a posting in the symbol. *)
Definition refers_to (symbol : string) (entry : Directive) : bool :=
  match body entry with
  | Price cur _ => String.eqb cur symbol
  | Transaction _ _ _ _ _ postings =>
      existsb (fun p => match p_units p with
                        | Some u => String.eqb (currency u) symbol
                        | None => false
                        end) postings
  | _ => false
  end.


(** ** 8. Payloads and renderers *)

(** The payload of an add or an update is the JSON body of the request: a
    [pyval].  A dict is kept in insertion order with distinct keys.  The
    text of a TypeError or an AttributeError is the name of its class; a
    KeyError shows its key. *)

(** The items that [for x in v] visits; TypeError when [v] is not
    iterable. *)
Definition py_iter (v : pyval) : Py.outcome (list pyval) :=
  match v with
  | PList l => Py.Ok l
  | PStr s => Py.Ok (map (fun c => PStr (str1 c)) (list_ascii_of_string s))
  | PDict d => Py.Ok (map (fun kv => PStr (fst kv)) d)
  | _ => Py.Raised "TypeError"
  end.

(** [d[k] = v] on a dict: the value is replaced in place, a new key goes
    last. *)
Fixpoint dict_set {V : Type} (k : string) (v : V) (d : list (string * V))
  : list (string * V) :=
  match d with
  | [] => [(k, v)]
  | (k', v') :: d' =>
      if String.eqb k k' then (k, v) :: d' else (k', v') :: dict_set k v d'
  end.

Module Render.

Definition obind {A B : Type} (o : Py.outcome A) (k : A -> Py.outcome B)
  : Py.outcome B :=
  match o with
  | Py.Ok a => k a
  | Py.Raised msg => Py.Raised msg
  end.

Notation "x <-- m ;; k" := (obind m (fun x => k))
  (at level 90, m at next level, right associativity).

(** [d[k]] on a dict *)
Definition item (d : list (string * pyval)) (k : string) : Py.outcome pyval :=
  match dict_get k d with
  | Some v => Py.Ok v
  | None => Py.Raised (repr_str k)
  end.

(** [d.get(k, dflt)] on a dict *)
Definition get (d : list (string * pyval)) (k : string) (dflt : pyval)
  : pyval :=
  default dflt (dict_get k d).

(** A value used where only a str will do: an item of [' '.join(...)], the
    right side of [str + x]. *)
Definition as_str (v : pyval) : Py.outcome string :=
  match v with
  | PStr s => Py.Ok s
  | _ => Py.Raised "TypeError"
  end.

Definition quoted (s : string) : string := str1 dquote +:+ s +:+ str1 dquote.

(** The text after the flag in the header of a transaction. *)
Definition payee_narration (payee narration : pyval) : string :=
  if py_truthy payee && py_truthy narration
  then quoted (py_str payee) +:+ " " +:+ quoted (py_str narration)
  else if py_truthy payee
  then quoted (py_str payee) +:+ " " +:+ quoted EmptyString
  else if py_truthy narration
  then quoted (py_str narration)
  else quoted EmptyString.

(** The loop over the tags: [tag.lstrip('#')], kept when not empty. *)
Fixpoint tag_parts (tags : list pyval) : Py.outcome (list string) :=
  match tags with
  | [] => Py.Ok []
  | PStr tag :: rest =>
      let clean_tag := Py.lstrip_char "#" tag in
      parts <-- tag_parts rest ;;
      Py.Ok (if Py.truthy clean_tag then ("#" +:+ clean_tag) :: parts
             else parts)
  | _ :: _ => Py.Raised "AttributeError"
  end.

(** The header line: date, flag, payee and narration, tags, links. *)
Definition header_line (transaction_data : list (string * pyval))
  : Py.outcome string :=
  date_str <-- item transaction_data "date" ;;
  let flag := get transaction_data "flag" (PStr "*") in
  let payee := get transaction_data "payee" (PStr EmptyString) in
  let narration := get transaction_data "narration" (PStr EmptyString) in
  let tags := get transaction_data "tags" (PList []) in
  let links := get transaction_data "links" (PList []) in
  tag_tokens <--
    (if py_truthy tags then ts <-- py_iter tags ;; tag_parts ts
     else Py.Ok []) ;;
  link_tokens <--
    (if py_truthy links
     then ls <-- py_iter links ;;
          Py.Ok (map (fun link => "^" +:+ py_str link) ls)
     else Py.Ok []) ;;
  date_str <-- as_str date_str ;;
  flag <-- as_str flag ;;
  Py.Ok (Py.join " " ([date_str; flag; payee_narration payee narration]
                      ++ tag_tokens ++ link_tokens)).

(** The lines of a metadata dict under an indent; the values are quoted
    whatever they are. *)
Definition meta_lines (indent : string) (metadata : pyval)
  : Py.outcome (list string) :=
  if py_truthy metadata then
    match metadata with
    | PDict d =>
        Py.Ok (map (fun kv => indent +:+ fst kv +:+ ": "
                              +:+ quoted (py_str (snd kv))) d)
    | _ => Py.Raised "AttributeError"
    end
  else Py.Ok [].

(** The cost of a posting, in braces. *)
Definition cost_text (cost : pyval) : Py.outcome string :=
  if py_truthy cost then
    match cost with
    | PDict c =>
        let cost_number := get c "number" PNone in
        let cost_currency := get c "currency" PNone in
        let cost_date := get c "date" PNone in
        let cost_label := get c "label" PNone in
        let is_total_cost := get c "isTotal" (PBool false) in
        if py_truthy cost_number && py_truthy cost_currency then
          let open_brace := if py_truthy is_total_cost then "{{" else "{" in
          let close_brace := if py_truthy is_total_cost then "}}" else "}" in
          Py.Ok (" " +:+ open_brace +:+ py_str cost_number +:+ " "
                 +:+ py_str cost_currency
                 +:+ (if py_truthy cost_date then ", " +:+ py_str cost_date
                      else EmptyString)
                 +:+ (if py_truthy cost_label
                      then ", " +:+ quoted (py_str cost_label)
                      else EmptyString)
                 +:+ close_brace)
        else if py_truthy cost_date
        then Py.Ok (" {" +:+ py_str cost_date +:+ "}")
        else if py_truthy cost_label
        then Py.Ok (" {" +:+ quoted (py_str cost_label) +:+ "}")
        else Py.Ok EmptyString
    | _ => Py.Raised "AttributeError"
    end
  else Py.Ok EmptyString.

(** The price of a posting, after [@] or [@@]. *)
Definition price_text (price : pyval) : Py.outcome string :=
  if py_truthy price then
    match price with
    | PDict p =>
        if py_truthy (get p "amount" PNone)
           && py_truthy (get p "currency" PNone)
        then
          let price_amount := get p "amount" PNone in
          let price_currency := get p "currency" PNone in
          let is_total_price := get p "isTotal" (PBool false) in
          let price_symbol := if py_truthy is_total_price then "@@" else "@" in
          Py.Ok (" " +:+ price_symbol +:+ " " +:+ py_str price_amount +:+ " "
                 +:+ py_str price_currency)
        else Py.Ok EmptyString
    | _ => Py.Raised "AttributeError"
    end
  else Py.Ok EmptyString.

(** One pass of the loop over the postings: the posting line and the lines
    of its metadata. *)
Definition posting_lines (posting : pyval) : Py.outcome (list string) :=
  match posting with
  | PDict p =>
      account <-- item p "account" ;;
      let amount := get p "amount" PNone in
      let currency := get p "currency" PNone in
      let cost := get p "cost" PNone in
      let price := get p "price" PNone in
      let posting_flag := get p "flag" PNone in
      let posting_comment := get p "comment" PNone in
      let posting_metadata := get p "metadata" (PDict []) in
      let flag_text :=
        if py_truthy posting_flag then py_str posting_flag +:+ " "
        else EmptyString in
      account <-- as_str account ;;
      units_text <--
        (if py_truthy amount && py_truthy currency then
           cost_part <-- cost_text cost ;;
           price_part <-- price_text price ;;
           Py.Ok ("  " +:+ py_str amount +:+ " " +:+ py_str currency
                  +:+ cost_part +:+ price_part)
         else Py.Ok EmptyString) ;;
      let comment_text :=
        if py_truthy posting_comment then "  ; " +:+ py_str posting_comment
        else EmptyString in
      metadata <-- meta_lines "    " posting_metadata ;;
      Py.Ok (("  " +:+ flag_text +:+ account +:+ units_text +:+ comment_text)
             :: metadata)
  | _ => Py.Raised "TypeError"
  end.

Fixpoint postings_lines (postings : list pyval) : Py.outcome (list string) :=
  match postings with
  | [] => Py.Ok []
  | posting :: rest =>
      ls <-- posting_lines posting ;;
      more <-- postings_lines rest ;;
      Py.Ok (ls ++ more)
  end.

(** The list [lines] of [generate_transaction_text]. *)
Definition transaction_lines (transaction_data : list (string * pyval))
  : Py.outcome (list string) :=
  header <-- header_line transaction_data ;;
  metadata <-- meta_lines "  " (get transaction_data "metadata" (PDict [])) ;;
  postings <-- py_iter (get transaction_data "postings" (PList [])) ;;
  posting_lines <-- postings_lines postings ;;
  Py.Ok (header :: metadata ++ posting_lines).

(** [generate_transaction_text] *)
Definition generate_transaction_text
  (transaction_data : list (string * pyval)) : Py.outcome string :=
  lines <-- transaction_lines transaction_data ;;
  Py.Ok (Py.join Py.nl lines).

(** [generate_balance_text] *)
Definition generate_balance_text (balance_data : list (string * pyval))
  : Py.outcome string :=
  date_str <-- item balance_data "date" ;;
  account <-- item balance_data "account" ;;
  amount <-- item balance_data "amount" ;;
  currency <-- item balance_data "currency" ;;
  let tolerance := get balance_data "tolerance" PNone in
  if py_truthy tolerance
  then Py.Ok (py_str date_str +:+ " balance " +:+ py_str account +:+ " "
              +:+ py_str amount +:+ " " +:+ py_str currency +:+ " ~ "
              +:+ py_str tolerance +:+ " " +:+ py_str currency)
  else Py.Ok (py_str date_str +:+ " balance " +:+ py_str account +:+ " "
              +:+ py_str amount +:+ " " +:+ py_str currency).

(** [generate_note_text] *)
Definition generate_note_text (note_data : list (string * pyval))
  : Py.outcome string :=
  date_str <-- item note_data "date" ;;
  account <-- item note_data "account" ;;
  comment <-- item note_data "comment" ;;
  Py.Ok (py_str date_str +:+ " note " +:+ py_str account +:+ " "
         +:+ quoted (py_str comment)).

(** [','.join(currencies)] *)
Fixpoint all_str (l : list pyval) : Py.outcome (list string) :=
  match l with
  | [] => Py.Ok []
  | PStr s :: rest => more <-- all_str rest ;; Py.Ok (s :: more)
  | _ :: _ => Py.Raised "TypeError"
  end.

(** [generate_open_text] *)
Definition generate_open_text (open_data : list (string * pyval))
  : Py.outcome string :=
  date_str <-- item open_data "date" ;;
  account <-- item open_data "account" ;;
  let currencies := get open_data "currencies" (PList []) in
  let booking := get open_data "booking" PNone in
  currency_part <--
    (if py_truthy currencies then
       match currencies with
       | PList _ | PStr _ | PDict _ =>
           items <-- py_iter currencies ;;
           names <-- all_str items ;;
           Py.Ok [Py.join "," names]
       | _ => Py.Raised "TypeError"
       end
     else Py.Ok []) ;;
  let booking_part :=
    if py_truthy booking then [quoted (py_str booking)] else [] in
  date_str <-- as_str date_str ;;
  account <-- as_str account ;;
  Py.Ok (Py.join " " ([date_str; "open"; account] ++ currency_part
                      ++ booking_part)).

(** [generate_close_text] *)
Definition generate_close_text (close_data : list (string * pyval))
  : Py.outcome string :=
  date_str <-- item close_data "date" ;;
  account <-- item close_data "account" ;;
  Py.Ok (py_str date_str +:+ " close " +:+ py_str account).

(** The dispatch of [add_entry_to_file] on the type: the text, and
    [entry_type.capitalize()] for the message. *)
Definition render_entry (entry_data : list (string * pyval))
  : Py.outcome (string * string) :=
  let entry_type := get entry_data "type" (PStr "transaction") in
  let unsupported :=
    Py.Raised ("Unsupported entry type: " +:+ py_str entry_type) in
  match entry_type with
  | PStr t =>
      if String.eqb t "transaction" then
        text <-- generate_transaction_text entry_data ;;
        Py.Ok ("Transaction", text)
      else if String.eqb t "balance" then
        text <-- generate_balance_text entry_data ;; Py.Ok ("Balance", text)
      else if String.eqb t "note" then
        text <-- generate_note_text entry_data ;; Py.Ok ("Note", text)
      else if String.eqb t "open" then
        text <-- generate_open_text entry_data ;; Py.Ok ("Open", text)
      else if String.eqb t "close" then
        text <-- generate_close_text entry_data ;; Py.Ok ("Close", text)
      else unsupported
  | _ => unsupported
  end.

End Render.

(** [add_entry_to_file]: the backup comes first, then the text, the append
    and the reparse. *)
Definition add_entry_to_file (env : Env) (entry_data : list (string * pyval))
  : M Result :=
  catch
    (backup_path <~ create_backup_if_enabled env None ;;
     rendered <~ of_outcome (Render.render_entry entry_data) ;;
     append_text (beancount_file env) (Py.nl +:+ snd rendered +:+ Py.nl) ;;~
     reload_data env ;;~
     ret (succeeded (fst rendered +:+ " added successfully") backup_path None))
    (fun msg =>
       ret (failure ("Failed to add "
                     +:+ py_str (Render.get entry_data "type" (PStr "entry"))
                     +:+ ": " +:+ msg))).

(** [add_transaction_to_file] *)
Definition add_transaction_to_file (env : Env)
  (transaction_data : list (string * pyval)) : M Result :=
  add_entry_to_file env (dict_set "type" (PStr "transaction") transaction_data).



(** Payloads, used to run the renderers. *)
Module Payload.

Definition posting (account amount : string) : pyval :=
  PDict [("account", PStr account); ("amount", PStr amount);
         ("currency", PStr "USD")].

Definition espresso_postings : list pyval :=
  [posting "Assets:Cash" "-4.00"; posting "Expenses:Coffee" "4.00"].

Definition espresso : list (string * pyval) :=
  [("date", PStr "2024-02-01"); ("payee", PStr "Store");
   ("narration", PStr "Espresso"); ("tags", PList [PStr "#coffee"]);
   ("postings", PList espresso_postings)].

Definition espresso_lines : list string :=
  ["2024-02-01 * " +:+ Sample.q "Store" +:+ " " +:+ Sample.q "Espresso"
   +:+ " #coffee";
   "  Assets:Cash  -4.00 USD";
   "  Expenses:Coffee  4.00 USD"].

Definition opening : list (string * pyval) :=
  [("type", PStr "open"); ("date", PStr "2024-01-01");
   ("account", PStr "Assets:Cash"); ("currencies", PList [PStr "USD"])].

End Payload.


(** ** 9. The HTTP handlers *)

(** The body of a reply: an error dict, the result dict of a mutation, or
    an entry. *)
Inductive Reply : Type :=
| ReplyError (msg : string)
| ReplyResult (r : Result)
| ReplyEntry (d : EntryDict).

(** A reply with its status code. *)
Definition Response : Type := (Z * Reply)%type.

(** [k in v] for a str [k] *)
Definition py_in (k : string) (v : pyval) : Py.outcome bool :=
  match v with
  | PDict d => Py.Ok (dict_has k d)
  | PStr s => Py.Ok (Py.contains k s)
  | PList l =>
      Py.Ok (existsb (fun x => match x with
                               | PStr s => String.eqb s k
                               | _ => false
                               end) l)
  | _ => Py.Raised "TypeError"
  end.

Module Route.

Import Render.

(** The loop over the required fields: the first one that is missing. *)
Definition missing_field (required_fields : list string)
  (json : list (string * pyval)) : option string :=
  List.find (fun field => negb (dict_has field json)) required_fields.

(** The loop over the postings, counted from one. *)
Fixpoint check_postings (i : Z) (postings : list pyval)
  : Py.outcome (option string) :=
  match postings with
  | [] => Py.Ok None
  | posting :: rest =>
      has <-- py_in "account" posting ;;
      if has then check_postings (i + 1) rest
      else Py.Ok (Some ("Posting " +:+ str_Z i +:+ " missing account"))
  end.

Definition check_required (required_fields : list string)
  (json : list (string * pyval)) : Py.outcome (option string) :=
  match missing_field required_fields json with
  | Some field => Py.Ok (Some ("Missing required field: " +:+ field))
  | None => Py.Ok None
  end.

(** The validation of the POST and PUT handlers, which differ in the
    fields that a transaction must have: the error of a 400 reply, or
    [None] when the payload passes. *)
Definition validate (transaction_fields : list string)
  (json : list (string * pyval)) : Py.outcome (option string) :=
  let entry_type := get json "type" (PStr "transaction") in
  let unsupported :=
    Py.Ok (Some ("Unsupported entry type: " +:+ py_str entry_type)) in
  match entry_type with
  | PStr t =>
      if String.eqb t "transaction" then
        match missing_field transaction_fields json with
        | Some field => Py.Ok (Some ("Missing required field: " +:+ field))
        | None =>
            postings <-- item json "postings" ;;
            match postings with
            | PList l =>
                if Z.of_nat (List.length l) <? 2
                then Py.Ok (Some "At least 2 postings are required")
                else check_postings 1 l
            | _ => Py.Ok (Some "At least 2 postings are required")
            end
        end
      else if String.eqb t "balance" then
        check_required ["date"; "account"; "amount"; "currency"] json
      else if String.eqb t "note" then
        check_required ["date"; "account"; "comment"] json
      else unsupported
  | _ => unsupported
  end.

(** The shape shared by the POST and the PUT handler. *)
Definition validated (transaction_fields : list string) (ok : Z)
  (run : list (string * pyval) -> M Result) (json : pyval) : M Response :=
  catch
    (if negb (py_truthy json)
     then ret (400, ReplyError "No JSON data provided")
     else
       match json with
       | PDict d =>
           check <~ of_outcome (validate transaction_fields d) ;;
           match check with
           | Some err => ret (400, ReplyError err)
           | None =>
               result <~ run d ;;
               ret (if success result then (ok, ReplyResult result)
                    else (400, ReplyResult result))
           end
       | _ => raise "AttributeError"
       end)
    (fun msg => ret (500, ReplyError msg)).

(** [POST /transactions] *)
Definition create_entry (env : Env) (json : pyval) : M Response :=
  validated ["date"; "narration"; "postings"] 201 (add_entry_to_file env) json.

(** [PUT /transactions/<transaction_id>] *)
Definition update_transaction (env : Env) (transaction_id : string)
  (json : pyval) : M Response :=
  validated ["date"; "postings"] 200 (update_entry_in_file env transaction_id)
    json.

(** [DELETE /transactions/<transaction_id>] *)
Definition delete_transaction (env : Env) (transaction_id : string)
  : M Response :=
  catch
    (result <~ delete_transaction_from_file env transaction_id ;;
     ret (if success result then (200, ReplyResult result)
          else (400, ReplyResult result)))
    (fun msg => ret (500, ReplyError msg)).

(** [GET /transactions/<transaction_id>] *)
Definition get_transaction_by_id (transaction_id : string) : M Response :=
  st <~ get_state ;;
  match find_transaction_by_id (entries st) transaction_id with
  | Some transaction => ret (200, ReplyEntry (entry_to_dict transaction))
  | None => ret (404, ReplyError "Transaction not found")
  end.

End Route.

(** The dict that [entry_to_dict] returns: the base keys, then the keys of
    the kind. *)
Definition entry_json (d : EntryDict) : list (string * pyval) :=
  [("id", PStr (ed_id d)); ("type", PStr (ed_type d));
   ("date", PStr (ed_date d)); ("metadata", PDict (ed_metadata d))]
  ++ ed_data d.

(* ===================================================================== *)
(** * Part II.  Properties                                                *)
(* ===================================================================== *)

(** ** Test vectors of the primitives *)

Example md5_empty :
  md5_hexdigest EmptyString = "d41d8cd98f00b204e9800998ecf8427e".
Proof. vm_compute. reflexivity. Qed.

Example md5_abc : md5_hexdigest "abc" = "900150983cd24fb0d6963f7d28e17f72".
Proof. vm_compute. reflexivity. Qed.

Example md5_two_blocks :
  md5_hexdigest
    "aaaaaaaaaaaaaaaaaaaaaaaaaaaaaaaaaaaaaaaaaaaaaaaaaaaaaaaaaaaaaaaaaaaaaa"
  = "0f5c6c4e740bfcc08c3c26ccb2673d46".
Proof. vm_compute. reflexivity. Qed.

Example str_dict_example :
  str_dict [("filename", MStr "/l'x.bean"); ("lineno", MInt 3)]
  = "{'filename': " +:+ str1 dquote +:+ "/l'x.bean" +:+ str1 dquote
    +:+ ", 'lineno': 3}".
Proof. vm_compute. reflexivity. Qed.

Example strptime_examples :
  strptime "2024-02-29" = Py.Ok (mkdate 2024 2 29)
  /\ strptime "2024-1-5" = Py.Ok (mkdate 2024 1 5)
  /\ (exists msg, strptime "2023-02-29" = Py.Raised msg)
  /\ (exists msg, strptime "01/02/2024" = Py.Raised msg).
Proof. vm_compute. repeat split; eauto. Qed.

Example split_examples :
  Py.split Py.nl ("a" +:+ Py.nl +:+ "b" +:+ Py.nl) = ["a"; "b"; EmptyString]
  /\ Py.split " commodity " "2024-01-01 commodity BTC" = ["2024-01-01"; "BTC"]
  /\ Py.split " commodity " "2024-01-01 open X" = ["2024-01-01 open X"].
Proof. vm_compute. repeat split; reflexivity. Qed.

Example slice_examples :
  Py.slice [1; 2; 3; 4; 5] 1 3 = [2; 3]
  /\ Py.slice [1; 2; 3; 4; 5] 4 9 = [5]
  /\ Py.slice [1; 2; 3; 4; 5] (-2) 9 = [4; 5]
  /\ Py.slice_assign [1; 2; 3; 4; 5] 1 3 [9] = [1; 9; 4; 5]
  /\ Py.slice_assign [1; 2; 3] 7 8 [9] = [1; 2; 3; 9].
Proof. vm_compute. repeat split; reflexivity. Qed.

(** ** Lists, slices and sorting *)

Section ListFacts.
Context {A : Type}.

Lemma clamp_nonneg (len : nat) (i : Z) :
  0 <= i -> Py.clamp len i = Nat.min (Z.to_nat i) len.
Proof.
  intros Hi. unfold Py.clamp.
  destruct (Z.ltb_spec i 0); lia.
Qed.

Lemma clamp_le (len : nat) (i : Z) : (Py.clamp len i <= len)%nat.
Proof. unfold Py.clamp. destruct (i <? 0); lia. Qed.

Lemma slice_length (l : list A) (start stop : Z) :
  0 <= start -> 0 <= stop - start ->
  Z.of_nat (List.length (Py.slice l start stop))
  = Z.min (stop - start)
          (Z.max 0 (Z.of_nat (List.length l) - start)).
Proof.
  intros Hs Hn. unfold Py.slice.
  rewrite length_firstn, length_skipn.
  rewrite !clamp_nonneg by lia. lia.
Qed.

Lemma slice_assign_in_range (l repl : list A) (lo hi : nat) :
  (lo <= hi <= List.length l)%nat ->
  Py.slice_assign l (Z.of_nat lo) (Z.of_nat hi) repl
  = firstn lo l ++ repl ++ skipn hi l.
Proof.
  intros H. unfold Py.slice_assign.
  rewrite !clamp_nonneg by lia.
  rewrite !Nat2Z.id.
  replace (Nat.min lo (List.length l)) with lo by lia.
  replace (Nat.max lo (Nat.min hi (List.length l))) with hi by lia.
  reflexivity.
Qed.
End ListFacts.

Section SortReverseFacts.
Context {A : Type} (key : A -> string).

Lemma insert_desc_perm (x : A) (l : list A) :
  Permutation (x :: l) (Py.insert_desc key x l).
Proof.
  induction l as [|y l IH]; simpl; [reflexivity|].
  destruct (String.ltb (key x) (key y)); [|reflexivity].
  rewrite perm_swap. constructor. exact IH.
Qed.

Lemma sort_reverse_perm (l : list A) :
  Permutation l (Py.sort_reverse key l).
Proof.
  induction l as [|x l IH]; simpl; [reflexivity|].
  rewrite <- insert_desc_perm. constructor. exact IH.
Qed.

Lemma sort_reverse_length (l : list A) :
  List.length (Py.sort_reverse key l) = List.length l.
Proof. symmetry. apply Permutation_length, sort_reverse_perm. Qed.
End SortReverseFacts.

(** ** The query engine *)

(** C10: an empty [entry_types] list and an unspecified one give the same
    query: in both cases the kind allow-list is transaction, balance, pad
    and note, whatever the filters and the pagination. *)
Theorem get_entries_empty_types_is_default :
  forall (es : list Directive)
         (sd ed af pf tf st : option string) (lim off : Z),
    default_entry_types (Some []) = ["transaction"; "balance"; "pad"; "note"]
    /\ default_entry_types None = ["transaction"; "balance"; "pad"; "note"]
    /\ get_entries es (mkQuery sd ed af pf tf st (Some []) lim off)
       = get_entries es (mkQuery sd ed af pf tf st None lim off).
Proof. intros. repeat split; reflexivity. Qed.

(** C4: with [N] entries left by the filters, an offset [o >= 0] and a limit
    [l >= 0], the page is the slice [o : o + l] of the filtered and sorted
    list, [returned_count = min(l, max(0, N - o))], [total_count = N] and
    [has_more = (o + returned_count < N)]. *)
Theorem get_entries_pagination :
  forall (es : list Directive) (q : Query),
    0 <= offset q -> 0 <= limit q ->
    let found := collect q (default_entry_types (entry_types q)) es in
    let N := Z.of_nat (List.length found) in
    let r := get_entries es q in
    pg_entries r
    = Py.slice (Py.sort_reverse ed_date found) (offset q) (offset q + limit q)
    /\ total_count r = N
    /\ returned_count r = Z.min (limit q) (Z.max 0 (N - offset q))
    /\ has_more r = (offset q + returned_count r <? N).
Proof.
  intros es q Ho Hl found N r.
  assert (HN : total_count r = N).
  { subst r N found. unfold get_entries. simpl.
    rewrite sort_reverse_length. reflexivity. }
  assert (HR : returned_count r = Z.min (limit q) (Z.max 0 (N - offset q))).
  { subst r. unfold get_entries. simpl.
    rewrite slice_length by lia. rewrite sort_reverse_length.
    fold found. fold N. f_equal. lia. }
  repeat split; [exact HN | exact HR |].
  subst r. unfold get_entries in *. simpl in *. rewrite HN. reflexivity.
Qed.

(** *** Order of strings and of ISO dates *)

Lemma ascii_compare_N (a b : ascii) :
  Ascii.compare a b = (N_of_ascii a ?= N_of_ascii b)%N.
Proof. reflexivity. Qed.

Lemma str_compare_refl (s : string) : String.compare s s = Eq.
Proof.
  induction s as [|c s IH]; simpl; [reflexivity|].
  rewrite ascii_compare_N, N.compare_refl. exact IH.
Qed.

Lemma str_ge_trans (a b c : string) :
  String.compare a b <> Lt -> String.compare b c <> Lt ->
  String.compare a c <> Lt.
Proof.
  revert b c. induction a as [|x a IH]; intros [|y b] [|z c]; simpl;
    try congruence.
  rewrite !ascii_compare_N.
  destruct (N.compare_spec (N_of_ascii x) (N_of_ascii y)) as [E1|L1|G1];
    destruct (N.compare_spec (N_of_ascii y) (N_of_ascii z)) as [E2|L2|G2];
    try congruence; intros H1 H2.
  - rewrite E1, E2, N.compare_refl. eapply IH; eassumption.
  - rewrite E1. apply N.compare_gt_iff in G2. rewrite G2. discriminate.
  - rewrite <- E2. apply N.compare_gt_iff in G1. rewrite G1. discriminate.
  - assert (G : (N_of_ascii z < N_of_ascii x)%N) by lia.
    apply N.compare_gt_iff in G. rewrite G. discriminate.
Qed.

Lemma str_ltb_irrefl (s : string) : String.ltb s s = false.
Proof. unfold String.ltb. rewrite str_compare_refl. reflexivity. Qed.

Lemma digit_char_code (n : Z) :
  N_of_ascii (digit_char n) = Z.to_N (48 + n mod 10).
Proof.
  unfold digit_char. apply N_ascii_embedding.
  assert (0 <= n mod 10 < 10) by (apply Z.mod_pos_bound; lia). lia.
Qed.

Lemma digit_char_compare (n m : Z) :
  Ascii.compare (digit_char n) (digit_char m) = (n mod 10 ?= m mod 10).
Proof.
  rewrite ascii_compare_N, !digit_char_code.
  assert (0 <= n mod 10 < 10) by (apply Z.mod_pos_bound; lia).
  assert (0 <= m mod 10 < 10) by (apply Z.mod_pos_bound; lia).
  rewrite Z2N.inj_compare by lia.
  destruct (Z.compare_spec (48 + n mod 10) (48 + m mod 10));
    destruct (Z.compare_spec (n mod 10) (m mod 10)); try reflexivity;
    exfalso; lia.
Qed.

(** Zero-padded numbers of equal width compare as the numbers do. *)
Lemma pad4_compare (n m : Z) (s t : string) :
  0 <= n < 10000 -> 0 <= m < 10000 ->
  String.compare (pad4 n +:+ s) (pad4 m +:+ t)
  = match n ?= m with
    | Eq => String.compare s t
    | c => c
    end.
Proof.
  intros Hn Hm. unfold pad4. simpl. rewrite !digit_char_compare.
  destruct (Z.compare_spec ((n / 1000) mod 10) ((m / 1000) mod 10));
    destruct (Z.compare_spec ((n / 100) mod 10) ((m / 100) mod 10));
    destruct (Z.compare_spec ((n / 10) mod 10) ((m / 10) mod 10));
    destruct (Z.compare_spec (n mod 10) (m mod 10));
    destruct (Z.compare_spec n m); try reflexivity; exfalso;
    Z.div_mod_to_equations; lia.
Qed.

Lemma pad2_compare (n m : Z) (s t : string) :
  0 <= n < 100 -> 0 <= m < 100 ->
  String.compare (pad2 n +:+ s) (pad2 m +:+ t)
  = match n ?= m with
    | Eq => String.compare s t
    | c => c
    end.
Proof.
  intros Hn Hm. unfold pad2. simpl. rewrite !digit_char_compare.
  destruct (Z.compare_spec ((n / 10) mod 10) ((m / 10) mod 10));
    destruct (Z.compare_spec (n mod 10) (m mod 10));
    destruct (Z.compare_spec n m); try reflexivity; exfalso;
    Z.div_mod_to_equations; lia.
Qed.

Lemma date_ok_bounds (d : date) :
  date_ok d = true ->
  0 <= year d < 10000 /\ 0 <= month d < 100 /\ 0 <= day d < 100.
Proof.
  unfold date_ok, days_in_month. intros H.
  repeat (apply andb_prop in H; destruct H as [H ?]).
  repeat match goal with
         | H : (_ <=? _) = true |- _ => apply Z.leb_le in H
         end.
  repeat match goal with
         | H : context [if ?c then _ else _] |- _ => destruct c
         end; lia.
Qed.

(** The ISO text of valid dates orders as the dates do. *)
Lemma isoformat_compare (a b : date) :
  date_ok a = true -> date_ok b = true ->
  String.compare (isoformat a) (isoformat b) = date_compare a b.
Proof.
  intros Ha Hb.
  destruct (date_ok_bounds a Ha) as (Ya & Ma & Da).
  destruct (date_ok_bounds b Hb) as (Yb & Mb & Db).
  unfold isoformat, date_compare.
  rewrite pad4_compare by assumption.
  destruct (year a ?= year b); try reflexivity.
  change (String.compare ("-" +:+ ?x) ("-" +:+ ?y)) with (String.compare x y).
  rewrite pad2_compare by assumption.
  destruct (month a ?= month b); try reflexivity.
  change (String.compare ("-" +:+ ?x) ("-" +:+ ?y)) with (String.compare x y).
  replace (pad2 (day a)) with (pad2 (day a) +:+ EmptyString)
    by (unfold pad2; reflexivity).
  replace (pad2 (day b)) with (pad2 (day b) +:+ EmptyString)
    by (unfold pad2; reflexivity).
  rewrite pad2_compare by assumption.
  destruct (day a ?= day b); reflexivity.
Qed.

(** *** The stable descending sort *)

Section SortReverseOrder.
Context {A : Type} (key : A -> string).

Lemma ltb_false_ge (a b : A) :
  String.ltb (key a) (key b) = false -> Py.key_ge key a b.
Proof.
  unfold String.ltb, Py.key_ge.
  destruct (String.compare (key a) (key b)); congruence.
Qed.

Lemma ltb_true_ge (a b : A) :
  String.ltb (key a) (key b) = true -> Py.key_ge key b a.
Proof.
  unfold String.ltb, Py.key_ge.
  rewrite (String.compare_antisym (key b) (key a)).
  destruct (String.compare (key a) (key b)); simpl; congruence.
Qed.

Lemma insert_desc_sorted (x : A) (l : list A) :
  StronglySorted (Py.key_ge key) l ->
  StronglySorted (Py.key_ge key) (Py.insert_desc key x l).
Proof.
  induction l as [|y l IH]; intros Hs; simpl.
  - constructor; constructor.
  - inversion Hs as [|? ? Hl Hy]; subst.
    destruct (String.ltb (key x) (key y)) eqn:E.
    + constructor; [apply IH; exact Hl|].
      rewrite <- (insert_desc_perm key x l).
      constructor; [apply ltb_true_ge; exact E | exact Hy].
    + constructor; [exact Hs|].
      apply ltb_false_ge in E.
      constructor; [exact E|].
      apply Forall_forall. intros z Hz.
      rewrite Forall_forall in Hy.
      unfold Py.key_ge in *. eapply str_ge_trans; [exact E | apply Hy, Hz].
Qed.

Lemma sort_reverse_sorted (l : list A) :
  StronglySorted (Py.key_ge key) (Py.sort_reverse key l).
Proof.
  induction l as [|x l IH]; simpl; [constructor|].
  apply insert_desc_sorted, IH.
Qed.

(** Stability: the entries of one key keep their order. *)
Lemma insert_desc_stable (k : string) (x : A) (l : list A) :
  List.filter (fun e => String.eqb (key e) k) (Py.insert_desc key x l)
  = List.filter (fun e => String.eqb (key e) k) (x :: l).
Proof.
  induction l as [|y l IH]; [reflexivity|].
  simpl Py.insert_desc.
  destruct (String.ltb (key x) (key y)) eqn:E; [|reflexivity].
  change (List.filter ?f (y :: ?r))
    with (if f y then y :: List.filter f r else List.filter f r).
  rewrite IH. simpl.
  destruct (String.eqb_spec (key x) k) as [Hx|Hx];
    destruct (String.eqb_spec (key y) k) as [Hy|Hy]; try reflexivity.
  exfalso. rewrite Hx, Hy, str_ltb_irrefl in E. discriminate.
Qed.

Lemma sort_reverse_stable (k : string) (l : list A) :
  List.filter (fun e => String.eqb (key e) k) (Py.sort_reverse key l)
  = List.filter (fun e => String.eqb (key e) k) l.
Proof.
  induction l as [|x l IH]; [reflexivity|].
  simpl Py.sort_reverse. rewrite insert_desc_stable.
  simpl. rewrite IH. reflexivity.
Qed.
End SortReverseOrder.

Lemma insert_desc_map {A B : Type} (f : A -> B) (key : B -> string)
  (x : A) (l : list A) :
  Py.insert_desc key (f x) (map f l)
  = map f (Py.insert_desc (fun a => key (f a)) x l).
Proof.
  induction l as [|y l IH]; [reflexivity|]. simpl.
  destruct (String.ltb (key (f x)) (key (f y))); [|reflexivity].
  simpl. rewrite IH. reflexivity.
Qed.

Lemma sort_reverse_map {A B : Type} (f : A -> B) (key : B -> string)
  (l : list A) :
  Py.sort_reverse key (map f l)
  = map f (Py.sort_reverse (fun a => key (f a)) l).
Proof.
  induction l as [|x l IH]; [reflexivity|]. simpl.
  rewrite IH. apply insert_desc_map.
Qed.

Lemma slice_map {A B : Type} (f : A -> B) (l : list A) (start stop : Z) :
  Py.slice (map f l) start stop = map f (Py.slice l start stop).
Proof.
  unfold Py.slice. rewrite length_map.
  rewrite <- firstn_map, <- skipn_map. reflexivity.
Qed.

Lemma StronglySorted_app_inv_r {A : Type} (R : A -> A -> Prop)
  (l1 l2 : list A) :
  StronglySorted R (l1 ++ l2) -> StronglySorted R l2.
Proof.
  induction l1 as [|x l1 IH]; simpl; [auto|].
  intros H. inversion H; subst. auto.
Qed.

Lemma StronglySorted_app_inv_l {A : Type} (R : A -> A -> Prop)
  (l1 l2 : list A) :
  StronglySorted R (l1 ++ l2) -> StronglySorted R l1.
Proof.
  induction l1 as [|x l1 IH]; simpl; intros H; [constructor|].
  inversion H as [|? ? Hs Hf]; subst. constructor; [auto|].
  apply Forall_app in Hf. tauto.
Qed.

Lemma slice_sorted {A : Type} (R : A -> A -> Prop) (l : list A)
  (start stop : Z) :
  StronglySorted R l -> StronglySorted R (Py.slice l start stop).
Proof.
  intros H. unfold Py.slice.
  set (lo := Py.clamp (List.length l) start).
  set (n := (Py.clamp (List.length l) stop - lo)%nat).
  rewrite <- (firstn_skipn lo l) in H.
  apply StronglySorted_app_inv_r in H.
  rewrite <- (firstn_skipn n (skipn lo l)) in H.
  apply StronglySorted_app_inv_l in H. exact H.
Qed.

(** *** What the loop of [get_entries] keeps *)

Lemma select_entry_value (q : Query) (types : list string) (e : Directive)
  (d : EntryDict) :
  select_entry q types e = Next d -> d = entry_to_dict e.
Proof.
  unfold select_entry, flow_bind.
  repeat match goal with
         | |- context [match ?x with
                       | Next _ => _ | Continue => _ | Raise _ => _
                       end] =>
             destruct x; try discriminate
         end.
  congruence.
Qed.

Lemma collect_filter (q : Query) (types : list string) (es : list Directive) :
  collect q types es = map entry_to_dict (List.filter (selects q types) es).
Proof.
  unfold collect, selects.
  induction es as [|e es IH]; [reflexivity|]. simpl.
  destruct (select_entry q types e) eqn:E; simpl; rewrite IH; try reflexivity.
  apply select_entry_value in E. subst. reflexivity.
Qed.

Lemma date_compare_antisym (a b : date) :
  date_compare b a = CompOpp (date_compare a b).
Proof.
  unfold date_compare.
  rewrite (Z.compare_antisym (year a)), (Z.compare_antisym (month a)),
    (Z.compare_antisym (day a)).
  destruct (year a ?= year b), (month a ?= month b), (day a ?= day b);
    reflexivity.
Qed.

Lemma key_ge_newer_first (a b : Directive) :
  date_ok (edate a) = true -> date_ok (edate b) = true ->
  Py.key_ge date_key a b -> newer_first a b.
Proof.
  intros Ha Hb. unfold Py.key_ge, date_key, newer_first, date_leb.
  rewrite isoformat_compare by assumption.
  rewrite (date_compare_antisym (edate a) (edate b)).
  destruct (date_compare (edate a) (edate b)); simpl; congruence.
Qed.

Lemma date_key_eqb (a : Directive) (d : date) :
  date_ok (edate a) = true -> date_ok d = true ->
  String.eqb (date_key a) (isoformat d) = dated d a.
Proof.
  intros Ha Hd. unfold dated, date_eqb, date_key.
  rewrite <- isoformat_compare by assumption.
  destruct (String.eqb_spec (isoformat (edate a)) (isoformat d)) as [E|E].
  - rewrite E, str_compare_refl. reflexivity.
  - destruct (String.compare (isoformat (edate a)) (isoformat d)) eqn:C;
      try reflexivity.
    apply String.compare_eq_iff in C. contradiction.
Qed.

Lemma StronglySorted_impl_in {A : Type} (R R' : A -> A -> Prop) (l : list A) :
  (forall a b, In a l -> In b l -> R a b -> R' a b) ->
  StronglySorted R l -> StronglySorted R' l.
Proof.
  induction l as [|x l IH]; intros Himp Hs; [constructor|].
  inversion Hs as [|? ? Hl Hx]; subst. constructor.
  - apply IH; [|exact Hl]. intros a b Ha Hb. apply Himp; right; assumption.
  - rewrite List.Forall_forall in *. intros y Hy.
    apply Himp; [left; reflexivity | right; exact Hy | apply Hx, Hy].
Qed.

(** C7: the result list is the page of the selected directives sorted by
    date, most recent first, and directives of one date keep the order they
    have in the loaded snapshot. *)
Theorem get_entries_sorted_stable :
  forall (es : list Directive) (q : Query),
    dates_ok es ->
    let selected :=
      List.filter (selects q (default_entry_types (entry_types q))) es in
    let ranked := Py.sort_reverse date_key selected in
    let page := Py.slice ranked (offset q) (offset q + limit q) in
    pg_entries (get_entries es q) = map entry_to_dict page
    /\ StronglySorted newer_first ranked
    /\ StronglySorted newer_first page
    /\ Permutation selected ranked
    /\ (forall d : date, date_ok d = true ->
          List.filter (dated d) ranked = List.filter (dated d) selected).
Proof.
  intros es q Hok selected ranked page.
  assert (Hsel : forall e, In e selected -> date_ok (edate e) = true).
  { intros e He. subst selected. apply filter_In in He. destruct He as [He _].
    unfold dates_ok in Hok. rewrite List.Forall_forall in Hok. auto. }
  assert (Hperm : Permutation selected ranked)
    by apply sort_reverse_perm.
  assert (Hrk : forall e, In e ranked -> date_ok (edate e) = true).
  { intros e He. apply Hsel. eapply Permutation_in; [|exact He].
    symmetry. exact Hperm. }
  assert (Hsorted : StronglySorted newer_first ranked).
  { apply (StronglySorted_impl_in (Py.key_ge date_key)).
    - intros a b Ha Hb. apply key_ge_newer_first; auto.
    - apply sort_reverse_sorted. }
  split; [|split; [|split; [|split]]].
  - unfold get_entries. simpl. rewrite collect_filter.
    rewrite (sort_reverse_map entry_to_dict ed_date).
    rewrite slice_map. reflexivity.
  - exact Hsorted.
  - apply slice_sorted. exact Hsorted.
  - exact Hperm.
  - intros d Hd.
    rewrite <- (filter_ext_in (fun e => String.eqb (date_key e) (isoformat d)))
      by (intros a Ha; apply date_key_eqb; auto).
    rewrite <- (filter_ext_in (fun e => String.eqb (date_key e) (isoformat d))
                  (dated d) selected)
      by (intros a Ha; apply date_key_eqb; auto).
    apply sort_reverse_stable.
Qed.

(** Witness of C4 on the sample ledger: second page of size two. *)
Lemma get_entries_pagination_witness :
  let q := mkQuery None None None None None None None 2 2 in
  let found := collect q (default_entry_types (entry_types q)) Sample.ledger in
  let N := Z.of_nat (List.length found) in
  let r := get_entries Sample.ledger q in
  pg_entries r
  = Py.slice (Py.sort_reverse ed_date found) (offset q) (offset q + limit q)
  /\ total_count r = N
  /\ returned_count r = Z.min (limit q) (Z.max 0 (N - offset q))
  /\ has_more r = (offset q + returned_count r <? N).
Proof.
  apply (get_entries_pagination Sample.ledger
           (mkQuery None None None None None None None 2 2));
    simpl; lia.
Defined.

(** Witness of C7 on the sample ledger. *)
Lemma get_entries_sorted_stable_witness :
  let es := Sample.ledger in
  let q := Sample.all_entries in
  let selected :=
    List.filter (selects q (default_entry_types (entry_types q))) es in
  let ranked := Py.sort_reverse date_key selected in
  let page := Py.slice ranked (offset q) (offset q + limit q) in
  pg_entries (get_entries es q) = map entry_to_dict page
  /\ StronglySorted newer_first ranked
  /\ StronglySorted newer_first page
  /\ Permutation selected ranked
  /\ (forall d : date, date_ok d = true ->
        List.filter (dated d) ranked = List.filter (dated d) selected).
Proof.
  apply (get_entries_sorted_stable Sample.ledger Sample.all_entries).
  repeat constructor.
Defined.

Example sample_query_order :
  map (fun d => (ed_type d, ed_date d))
      (pg_entries (get_entries Sample.ledger Sample.all_entries))
  = [("transaction", "2024-02-01"); ("balance", "2024-02-01");
     ("note", "2024-01-15")].
Proof. vm_compute. reflexivity. Qed.

(** *** Date bounds that do not parse *)

Lemma truthy_nonempty (s : string) : s <> EmptyString -> Py.truthy s = true.
Proof.
  intros H. unfold Py.truthy.
  destruct (String.eqb_spec s EmptyString); [contradiction | reflexivity].
Qed.

Lemma when_set_raises (s : string) (k : date -> flow unit) :
  s <> EmptyString -> (exists msg, strptime s = Py.Raised msg) ->
  exists msg,
    when_set (Some s) (fun s' => d <- lift (strptime s') ;; k d) = Raise msg.
Proof.
  intros Hs [msg Hm]. exists msg. unfold when_set.
  rewrite truthy_nonempty by assumption. rewrite Hm. reflexivity.
Qed.

(** With a bound that is set and does not parse, no pass reaches the
    append: it leaves by [continue] or through the handler. *)
Lemma select_entry_bad_date (q : Query) (types : list string) (e : Directive)
  (s : string) :
  start_date q = Some s \/ end_date q = Some s ->
  s <> EmptyString -> (exists msg, strptime s = Py.Raised msg) ->
  selects q types e = false.
Proof.
  intros Hq Hs Hbad. unfold selects, select_entry.
  destruct (skip_if _) as [[]| |]; cbn [flow_bind]; try reflexivity.
  destruct Hq as [Hq|Hq]; rewrite Hq.
  - destruct (when_set_raises s
                (fun d => skip_if (date_ltb (edate e) d)) Hs Hbad) as [m Hm].
    rewrite Hm. reflexivity.
  - destruct (when_set (start_date q) _) as [[]| |]; cbn [flow_bind];
      try reflexivity.
    destruct (when_set_raises s
                (fun d => skip_if (date_ltb d (edate e))) Hs Hbad) as [m Hm].
    rewrite Hm. reflexivity.
Qed.

(** C9, the claim as stated fails: the empty string is not a date in the
    format, yet a query with [start_date = ''] skips the date filter and
    returns the entries of the ledger. *)
Lemma get_entries_empty_start_date_counterexample :
  let q := mkQuery (Some EmptyString) None None None None None None 100 0 in
  (exists msg, strptime EmptyString = Py.Raised msg)
  /\ total_count (get_entries Sample.ledger q) = 3
  /\ pg_entries (get_entries Sample.ledger q) <> [].
Proof.
  vm_compute. repeat split; [eauto | discriminate].
Qed.

(** C9, amended: when [start_date] or [end_date] is a non-empty string that
    [strptime] rejects, [get_entries] returns normally with no entry:
    every pass of the loop ends in [continue] or in the handler, so the
    entry list is empty and [total_count] and [returned_count] are 0. *)
Theorem get_entries_unparsable_date_empty :
  forall (es : list Directive) (q : Query) (s : string),
    start_date q = Some s \/ end_date q = Some s ->
    s <> EmptyString ->
    (exists msg, strptime s = Py.Raised msg) ->
    (forall e, selects q (default_entry_types (entry_types q)) e = false)
    /\ pg_entries (get_entries es q) = []
    /\ total_count (get_entries es q) = 0
    /\ returned_count (get_entries es q) = 0.
Proof.
  intros es q s Hq Hs Hbad.
  assert (Hnone : forall e,
             selects q (default_entry_types (entry_types q)) e = false)
    by (intros e; eapply select_entry_bad_date; eassumption).
  assert (Hcol : collect q (default_entry_types (entry_types q)) es = []).
  { rewrite collect_filter.
    replace (List.filter _ es) with (@nil Directive); [reflexivity|].
    symmetry. induction es as [|e es IH]; [reflexivity|].
    simpl. rewrite Hnone. exact IH. }
  split; [exact Hnone|].
  unfold get_entries. rewrite Hcol. simpl.
  assert (Hslice : forall a b, Py.slice (@nil EntryDict) a b = [])
    by (intros a b; unfold Py.slice; rewrite skipn_nil; apply firstn_nil).
  rewrite Hslice. repeat split; reflexivity.
Qed.

(** Witness of C9 amended: an end date in another format. *)
Lemma get_entries_unparsable_date_empty_witness :
  let q := mkQuery None (Some "01/02/2024") None None None None None 100 0 in
  (forall e, selects q (default_entry_types (entry_types q)) e = false)
  /\ pg_entries (get_entries Sample.ledger q) = []
  /\ total_count (get_entries Sample.ledger q) = 0
  /\ returned_count (get_entries Sample.ledger q) = 0.
Proof.
  apply (get_entries_unparsable_date_empty Sample.ledger
           (mkQuery None (Some "01/02/2024") None None None None None 100 0)
           "01/02/2024").
  - right. reflexivity.
  - discriminate.
  - vm_compute. eauto.
Defined.

(** ** The identity engine *)

(** C1, the claim as stated fails: two notes with the same date, account
    and comment, hence the same digest of their semantic fields, get
    different identities when only [lineno] differs (line 1 and line 3). *)
Lemma generate_entry_id_lineno_counterexample :
  let e1 := Sample.note_at 1 in
  let e2 := Sample.note_at 3 in
  edate e1 = edate e2
  /\ body e1 = body e2
  /\ hash_entry e1 true = hash_entry e2 true
  /\ generate_entry_id e1 = "8529d992cc99ee4469b404030a69f1be"
  /\ generate_entry_id e2 = "2cd34561f5ea32b79ffe5ab3a41d3968"
  /\ generate_entry_id e1 <> generate_entry_id e2.
Proof.
  vm_compute. repeat split; try reflexivity; discriminate.
Qed.

Lemma concat_empty_cons (x : string) (l : list string) :
  String.concat EmptyString (x :: l) = x +:+ String.concat EmptyString l.
Proof.
  destruct l as [|y l]; simpl; [|reflexivity].
  induction x as [|c x IH]; [reflexivity|].
  change (String c x = String c (x +:+ EmptyString)). f_equal. exact IH.
Qed.

(** The digest input of [generate_entry_id]: the text of [meta], then the
    text of the fields that the semantic hash keeps. *)
Lemma generate_entry_id_input (e : Directive) :
  generate_entry_id e
  = md5_hexdigest (str_meta (meta e)
                   +:+ hash_input ["meta"] (entry_fields [] e)).
Proof.
  unfold generate_entry_id, hash_entry, stable_hash. f_equal.
  unfold hash_input, entry_fields.
  cbn [List.filter ignored existsb negb fst snd map].
  rewrite concat_empty_cons. f_equal.
  destruct e as [m d b]; destruct b; reflexivity.
Qed.

(** Repeated elements count: a transaction that holds the same posting
    twice, or an account opened with the same currency twice, does not
    share the identity of the directive that holds it once. *)
Example repeated_elements_are_hashed :
  let p := firstn 1 Sample.coffee_postings in
  let txn ps :=
    mkDirective (Sample.located 3) (mkdate 2024 2 1)
      (Transaction "*" (Some "Store") "Coffee" [] [] ps) in
  let opened cs :=
    mkDirective (Sample.located 3) (mkdate 2024 2 1)
      (Open "Assets:Cash" (Some cs) None) in
  generate_entry_id (txn (p ++ p)) = "fb2ca9d08f9b4d4057d27839e095a196"
  /\ generate_entry_id (txn p) = "d1e568ebff74479c12e20578dfe895fe"
  /\ generate_entry_id (opened ["USD"; "USD"])
     = "db55211d6d33f076fca0fe5651578259"
  /\ generate_entry_id (opened ["USD"; "USD"])
     <> generate_entry_id (opened ["USD"]).
Proof.
  vm_compute. repeat split; try reflexivity; discriminate.
Qed.

(** C1, amended: the identity is a pure function of the directive with its
    metadata: it is the digest of the text of [meta] (file name and line
    number included) followed by the date and the content fields.  Hence
    two loads of the same unmodified files give every directive the same
    identity, and directives that agree on the metadata text, the date and
    the content fields share their identity. *)
Theorem generate_entry_id_pure_with_meta :
  forall (env : Env) (files : gmap string File) (path : string)
         (es es' : list Directive),
    load_file env files path = Py.Ok es ->
    load_file env files path = Py.Ok es' ->
    map generate_entry_id es = map generate_entry_id es'
    /\ (forall e, generate_entry_id e
                  = md5_hexdigest (str_meta (meta e)
                                   +:+ hash_input ["meta"] (entry_fields [] e)))
    /\ (forall e e',
          str_meta (meta e) = str_meta (meta e') ->
          edate e = edate e' -> body e = body e' ->
          generate_entry_id e = generate_entry_id e').
Proof.
  intros env files path es es' H1 H2.
  split; [congruence|]. split; [exact generate_entry_id_input|].
  intros e e' Hm Hd Hb. rewrite !generate_entry_id_input.
  unfold hash_input, entry_fields. simpl. rewrite Hm, Hd, Hb. reflexivity.
Qed.

(** Witness of C1 amended: two loads of the sample ledger. *)
Lemma generate_entry_id_pure_with_meta_witness :
  map generate_entry_id Sample.ledger = map generate_entry_id Sample.ledger
  /\ (forall e, generate_entry_id e
                = md5_hexdigest (str_meta (meta e)
                                 +:+ hash_input ["meta"] (entry_fields [] e)))
  /\ (forall e e',
        str_meta (meta e) = str_meta (meta e') ->
        edate e = edate e' -> body e = body e' ->
        generate_entry_id e = generate_entry_id e').
Proof.
  apply (generate_entry_id_pure_with_meta Sample.env Sample.files
           Sample.ledger_path Sample.ledger Sample.ledger);
    reflexivity.
Defined.

(** ** The region of a directive *)

Lemma getitem_in_range {A : Type} (l : list A) (i : Z) :
  0 <= i < Z.of_nat (List.length l) ->
  exists x, Py.getitem l i = Some x /\ nth_error l (Z.to_nat i) = Some x.
Proof.
  intros Hi. unfold Py.getitem.
  destruct (Z.ltb_spec i 0); [lia|].
  destruct (Z.leb_spec 0 i); [|lia].
  destruct (Z.ltb_spec i (Z.of_nat (List.length l))); [|lia]. simpl.
  destruct (nth_error l (Z.to_nat i)) as [x|] eqn:E; [eauto|].
  apply nth_error_None in E. lia.
Qed.

(** The loop ends by its own test: with the fuel it is started with it
    returns the last line of the run of lines that pass [continues]. *)
Lemma scan_end_spec (continues : string -> bool) (lines : list string) :
  forall (fuel : nat) (e0 : Z),
    0 <= e0 < Z.of_nat (List.length lines) ->
    (Z.to_nat (Z.of_nat (List.length lines) - 1 - e0) <= fuel)%nat ->
    exists e,
      scan_end continues lines fuel e0 = Py.Ok e
      /\ e0 <= e < Z.of_nat (List.length lines)
      /\ (forall i, e0 < i <= e ->
            exists ln, Py.getitem lines i = Some ln /\ continues ln = true)
      /\ (e + 1 < Z.of_nat (List.length lines) ->
            exists ln, Py.getitem lines (e + 1) = Some ln
                       /\ continues ln = false).
Proof.
  induction fuel as [|fuel IH]; intros e0 Hr Hf; simpl.
  - exists e0. split; [reflexivity|]. split; [lia|].
    split; intros; lia.
  - destruct (Z.ltb_spec (e0 + 1) (Z.of_nat (List.length lines))) as [Hlt|Hge].
    + destruct (getitem_in_range lines (e0 + 1)) as (next & Hget & _);
        [lia|].
      rewrite Hget. destruct (continues next) eqn:Hc.
      * destruct (IH (e0 + 1)) as (e & He & Hre & Hall & Hstop); [lia|lia|].
        exists e. split; [exact He|]. split; [lia|]. split; [|exact Hstop].
        intros i Hi. destruct (Z.eq_dec i (e0 + 1)) as [->|Hne].
        -- exists next. split; assumption.
        -- apply Hall. lia.
      * exists e0. split; [reflexivity|]. split; [lia|].
        split; [intros; lia|].
        intros _. exists next. split; assumption.
    + exists e0. split; [reflexivity|]. split; [lia|].
      split; intros; lia.
Qed.

Lemma continues_entry_iff (ln : string) :
  continues_entry ln = true
  <-> indented ln = true /\ Py.strip ln <> EmptyString.
Proof.
  unfold continues_entry.
  destruct (String.eqb_spec (Py.strip ln) EmptyString) as [E|E];
    destruct (indented ln); simpl; split; intros H;
    try discriminate; try reflexivity; try tauto;
    destruct H; discriminate.
Qed.

(** The lines after the header that belong to a region ending at [e], and
    the line that ends it. *)
Lemma region_end_unique (lines : list string) (s e e' : Z) :
  (forall i, s < i <= e ->
     exists ln, Py.getitem lines i = Some ln /\ continues_entry ln = true) ->
  (e + 1 < Z.of_nat (List.length lines) ->
     exists ln, Py.getitem lines (e + 1) = Some ln
                /\ continues_entry ln = false) ->
  (forall i, s < i <= e' ->
     exists ln, Py.getitem lines i = Some ln /\ continues_entry ln = true) ->
  (e' + 1 < Z.of_nat (List.length lines) ->
     exists ln, Py.getitem lines (e' + 1) = Some ln
                /\ continues_entry ln = false) ->
  s <= e < Z.of_nat (List.length lines) ->
  s <= e' < Z.of_nat (List.length lines) ->
  e' = e.
Proof.
  intros Hall Hstop Hall' Hstop' Hr Hr'.
  destruct (Z.lt_trichotomy e' e) as [Hlt|[Heq|Hgt]]; [|exact Heq|].
  - destruct (Hall (e' + 1)) as (ln & Hg & Hc); [lia|].
    destruct Hstop' as (ln' & Hg' & Hc'); [lia|]. congruence.
  - destruct (Hall' (e + 1)) as (ln & Hg & Hc); [lia|].
    destruct Hstop as (ln' & Hg' & Hc'); [lia|]. congruence.
Qed.

(** C3: for a directive at the 1-based line [L] of a file, the region that
    update and delete locate runs from line [L] to the last line of the
    run of following lines that are indented and not blank: every line
    after the header inside the region is indented and non-blank, the line
    after the region, if any, is not indented or is blank, no other end has
    these two properties, and the splice replaces exactly these lines. *)
Theorem region_is_header_and_continuations :
  forall (lines : list string) (L : Z),
    1 <= L <= Z.of_nat (List.length lines) ->
    exists e : Z,
      find_end continues_entry lines (L - 1) = Py.Ok e
      /\ L - 1 <= e < Z.of_nat (List.length lines)
      /\ (forall i, L - 1 < i <= e ->
            exists ln, Py.getitem lines i = Some ln
                       /\ indented ln = true /\ Py.strip ln <> EmptyString)
      /\ (e + 1 < Z.of_nat (List.length lines) ->
            exists ln, Py.getitem lines (e + 1) = Some ln
                       /\ (indented ln = false \/ Py.strip ln = EmptyString))
      /\ (forall e' : Z,
            L - 1 <= e' < Z.of_nat (List.length lines) ->
            (forall i, L - 1 < i <= e' ->
               exists ln, Py.getitem lines i = Some ln
                          /\ indented ln = true
                          /\ Py.strip ln <> EmptyString) ->
            (e' + 1 < Z.of_nat (List.length lines) ->
               exists ln, Py.getitem lines (e' + 1) = Some ln
                          /\ (indented ln = false
                              \/ Py.strip ln = EmptyString)) ->
            e' = e)
      /\ (forall repl : list string,
            Py.slice_assign lines (L - 1) (e + 1) repl
            = firstn (Z.to_nat (L - 1)) lines ++ repl
              ++ skipn (Z.to_nat (e + 1)) lines).
Proof.
  intros lines L HL.
  destruct (scan_end_spec continues_entry lines
              (Z.to_nat (Z.of_nat (List.length lines) - 1 - (L - 1))) (L - 1))
    as (e & He & Hr & Hall & Hstop); [lia|lia|].
  assert (Hno : forall ln,
             indented ln = false \/ Py.strip ln = EmptyString ->
             continues_entry ln = false).
  { intros ln H. destruct (continues_entry ln) eqn:Hc; [|reflexivity].
    apply continues_entry_iff in Hc. destruct Hc as [Hi Hs].
    destruct H as [H|H]; congruence. }
  exists e. split; [exact He|]. split; [exact Hr|].
  split; [|split; [|split]].
  - intros i Hi. destruct (Hall i Hi) as (ln & Hg & Hc).
    apply continues_entry_iff in Hc. exists ln. tauto.
  - intros Hlt. destruct (Hstop Hlt) as (ln & Hg & Hc).
    exists ln. split; [exact Hg|].
    destruct (indented ln) eqn:Hi; [right|left; reflexivity].
    destruct (String.eqb_spec (Py.strip ln) EmptyString) as [E|E];
      [exact E|].
    assert (continues_entry ln = true)
      by (apply continues_entry_iff; split; assumption).
    congruence.
  - intros e' Hr' Hall' Hstop'.
    apply (region_end_unique lines (L - 1) e e'); try assumption.
    + intros i Hi. destruct (Hall' i Hi) as (ln & Hg & Hc).
      exists ln. split; [exact Hg|]. apply continues_entry_iff. exact Hc.
    + intros Hlt. destruct (Hstop' Hlt) as (ln & Hg & Hc).
      exists ln. split; [exact Hg|]. apply Hno. exact Hc.
  - intros repl.
    rewrite <- (Z2Nat.id (L - 1)) at 1 by lia.
    rewrite <- (Z2Nat.id (e + 1)) at 1 by lia.
    apply slice_assign_in_range. lia.
Qed.

(** Witness of C3: the transaction at line 3 of the sample ledger owns the
    lines 3 to 5. *)
Lemma region_is_header_and_continuations_witness :
  exists e : Z,
    find_end continues_entry Sample.ledger_lines (3 - 1) = Py.Ok e
    /\ 3 - 1 <= e < Z.of_nat (List.length Sample.ledger_lines)
    /\ (forall repl : list string,
          Py.slice_assign Sample.ledger_lines (3 - 1) (e + 1) repl
          = firstn (Z.to_nat (3 - 1)) Sample.ledger_lines ++ repl
            ++ skipn (Z.to_nat (e + 1)) Sample.ledger_lines).
Proof.
  destruct (region_is_header_and_continuations Sample.ledger_lines 3)
    as (e & He & Hr & _ & _ & _ & Hs).
  - simpl. lia.
  - exists e. auto.
Defined.

Example sample_region :
  find_end continues_entry Sample.ledger_lines 2 = Py.Ok 4
  /\ find_end continues_entry Sample.ledger_lines 0 = Py.Ok 0
  /\ find_end continues_decl Sample.ledger_lines 8 = Py.Ok 9.
Proof. vm_compute. repeat split; reflexivity. Qed.

(** ** Mutations: lookup misses *)

Lemma lookup_for_update_none (k : UpdateKind) (es : list Directive)
  (entry_id : string) :
  find_entry_by_id es entry_id = None ->
  lookup_for_update k es entry_id = None.
Proof.
  intros H. destruct k; unfold lookup_for_update, find_transaction_by_id;
    rewrite H; reflexivity.
Qed.

Lemma update_in_file_not_found (env : Env) (k : UpdateKind)
  (entry_id : string) (data : list (string * pyval)) (st : State) :
  lookup_for_update k (entries st) entry_id = None ->
  update_in_file env k entry_id data st
  = (Py.Ok (failure (kind_Label k +:+ " not found")), st).
Proof.
  intros H. unfold update_in_file, catch, bind, get_state.
  rewrite H. reflexivity.
Qed.

(** C5: when the identity lookup finds no directive, every update and the
    delete return a failure result and leave the whole state as it was:
    the files are unchanged, so no backup was made and nothing written. *)
Theorem not_found_changes_nothing :
  forall (env : Env) (st : State) (entry_id : string)
         (data : list (string * pyval)),
    find_entry_by_id (entries st) entry_id = None ->
    (forall k, update_in_file env k entry_id data st
               = (Py.Ok (failure (kind_Label k +:+ " not found")), st))
    /\ (exists r, update_entry_in_file env entry_id data st = (Py.Ok r, st)
                  /\ success r = false)
    /\ delete_entry_from_file env entry_id st
       = (Py.Ok (failure "Entry not found"), st).
Proof.
  intros env st entry_id data H.
  assert (Hup : forall k, update_in_file env k entry_id data st
                          = (Py.Ok (failure (kind_Label k +:+ " not found")),
                             st))
    by (intros k; apply update_in_file_not_found, lookup_for_update_none, H).
  split; [exact Hup|]. split.
  - unfold update_entry_in_file, update_transaction_in_file,
      update_balance_in_file, update_note_in_file.
    destruct (default _ _);
      try (eexists; split; [reflexivity|reflexivity]).
    repeat match goal with
           | |- context [if ?c then _ else _] => destruct c
           end;
      try rewrite Hup; eexists; split; reflexivity.
  - unfold delete_entry_from_file, catch, bind, get_state.
    rewrite H. reflexivity.
Qed.

(** Witness of C5: an identity that no directive of the sample has. *)
Lemma not_found_changes_nothing_witness :
  (forall k, update_in_file Sample.env k "no-such-id" [] Sample.state
             = (Py.Ok (failure (kind_Label k +:+ " not found")), Sample.state))
  /\ (exists r, update_entry_in_file Sample.env "no-such-id" [] Sample.state
                = (Py.Ok r, Sample.state)
                /\ success r = false)
  /\ delete_entry_from_file Sample.env "no-such-id" Sample.state
     = (Py.Ok (failure "Entry not found"), Sample.state).
Proof.
  apply (not_found_changes_nothing Sample.env Sample.state "no-such-id" []).
  vm_compute. reflexivity.
Defined.

(** ** Backups *)

Section SortAscFacts.
Context {A : Type} (key : A -> Z).

Lemma insert_asc_perm (x : A) (l : list A) :
  Permutation (x :: l) (Py.insert_asc key x l).
Proof.
  induction l as [|y l IH]; simpl; [reflexivity|].
  destruct (key y <? key x); [|reflexivity].
  rewrite perm_swap. constructor. exact IH.
Qed.

Lemma sort_asc_perm (l : list A) : Permutation l (Py.sort_asc key l).
Proof.
  induction l as [|x l IH]; simpl; [reflexivity|].
  rewrite <- insert_asc_perm. constructor. exact IH.
Qed.

Lemma insert_asc_sorted (x : A) (l : list A) :
  StronglySorted (fun a b => key a <= key b) l ->
  StronglySorted (fun a b => key a <= key b) (Py.insert_asc key x l).
Proof.
  induction l as [|y l IH]; intros Hs; simpl.
  - constructor; constructor.
  - inversion Hs as [|? ? Hl Hy]; subst.
    destruct (Z.ltb_spec (key y) (key x)) as [Hlt|Hge].
    + constructor; [apply IH; exact Hl|].
      rewrite <- (insert_asc_perm x l). constructor; [lia | exact Hy].
    + constructor; [exact Hs|]. constructor; [exact Hge|].
      rewrite List.Forall_forall in *. intros z Hz.
      specialize (Hy z Hz). lia.
Qed.

Lemma sort_asc_sorted (l : list A) :
  StronglySorted (fun a b => key a <= key b) (Py.sort_asc key l).
Proof.
  induction l as [|x l IH]; simpl; [constructor|].
  apply insert_asc_sorted, IH.
Qed.
End SortAscFacts.

Lemma StronglySorted_app_cross {A : Type} (R : A -> A -> Prop)
  (l1 l2 : list A) (x y : A) :
  StronglySorted R (l1 ++ l2) -> In x l1 -> In y l2 -> R x y.
Proof.
  induction l1 as [|a l1 IH]; simpl; intros Hs Hx Hy; [contradiction|].
  inversion Hs as [|? ? Hl Ha]; subst.
  destruct Hx as [->|Hx]; [|apply IH; assumption].
  rewrite List.Forall_forall in Ha. apply Ha, in_or_app. right. exact Hy.
Qed.

Lemma remove_catch (p : string) (st : State) :
  catch (remove p) (fun _ => ret tt) st
  = (Py.Ok tt, mkState (entries st) (delete p (fs st)) (clock st)).
Proof.
  unfold catch, remove, bind, get_state, put_fs, raise, ret.
  destruct (fs st !! p) eqn:E; simpl; [reflexivity|].
  rewrite delete_id by exact E. destruct st; reflexivity.
Qed.

Lemma remove_all_spec (paths : list string) (st : State) :
  remove_all paths st
  = (Py.Ok tt, mkState (entries st) (delete_all paths (fs st)) (clock st)).
Proof.
  revert st. induction paths as [|p ps IH]; intros st; simpl.
  - destruct st; reflexivity.
  - unfold bind. rewrite remove_catch. rewrite IH. reflexivity.
Qed.

Lemma lookup_delete_all_notin (paths : list string) (f : gmap string File)
  (p : string) :
  ~ In p paths -> delete_all paths f !! p = f !! p.
Proof.
  revert f. induction paths as [|x xs IH]; intros f Hnin; simpl in *;
    [reflexivity|].
  rewrite IH by tauto. apply lookup_delete_ne. intros ->. tauto.
Qed.

Lemma lookup_delete_all_in (paths : list string) (f : gmap string File)
  (p : string) :
  In p paths -> delete_all paths f !! p = None.
Proof.
  revert f. induction paths as [|x xs IH]; intros f Hin; simpl in *;
    [contradiction|].
  destruct (List.in_dec string_dec p xs) as [Hxs|Hxs]; [apply IH, Hxs|].
  destruct Hin as [->|Hin]; [|contradiction].
  rewrite lookup_delete_all_notin by exact Hxs. apply lookup_delete_eq.
Qed.

Lemma glob_backups_In (f : gmap string File) (target p : string) :
  In p (glob_backups f target)
  <-> is_Some (f !! p) /\ is_backup_of target p = true.
Proof.
  unfold glob_backups. rewrite filter_In, <- list_elem_of_In,
    elem_of_elements, elem_of_dom. reflexivity.
Qed.

Lemma glob_backups_NoDup (f : gmap string File) (target : string) :
  List.NoDup (glob_backups f target).
Proof. apply List.NoDup_filter, NoDup_ListNoDup, NoDup_elements. Qed.

Lemma or_default_idem (env : Env) (target : option string) :
  or_default env (Some (or_default env target)) = or_default env target.
Proof.
  unfold or_default.
  destruct target as [t|]; [destruct (Py.truthy t) eqn:Ht|];
    try (rewrite Ht; reflexivity);
    destruct (Py.truthy (beancount_file env)); reflexivity.
Qed.

(** The removal list is a prefix of the backups sorted by age, and what it
    leaves is no more than the cap. *)
Lemma files_to_remove_split (env : Env) (f : gmap string File)
  (file : string) :
  0 <= max_backup_files env ->
  exists rest,
    Permutation (glob_backups f file) (files_to_remove env f file ++ rest)
    /\ StronglySorted (fun a b => getmtime f a <= getmtime f b)
         (files_to_remove env f file ++ rest)
    /\ Z.of_nat (List.length rest) <= max_backup_files env.
Proof.
  intros Hcap. unfold files_to_remove.
  set (B := glob_backups f file).
  set (sorted := Py.sort_asc (getmtime f) B).
  assert (Hlen : List.length sorted = List.length B)
    by (symmetry; apply Permutation_length, sort_asc_perm).
  destruct (Z.ltb_spec (max_backup_files env) (Z.of_nat (List.length B)))
    as [Hlt|Hge].
  - set (k := Z.to_nat (Z.of_nat (List.length sorted) - max_backup_files env)).
    assert (Hslice : Py.slice_to sorted
                       (Z.of_nat (List.length sorted) - max_backup_files env)
                     = firstn k sorted).
    { unfold Py.slice_to. rewrite clamp_nonneg by lia.
      fold k. f_equal. lia. }
    rewrite Hslice. exists (skipn k sorted).
    rewrite firstn_skipn. split; [apply sort_asc_perm|].
    split; [apply sort_asc_sorted|].
    rewrite length_skipn. lia.
  - exists sorted. simpl. split; [apply sort_asc_perm|].
    split; [apply sort_asc_sorted|]. lia.
Qed.

Lemma in_firstn {A : Type} (n : nat) (l : list A) (x : A) :
  In x (firstn n l) -> In x l.
Proof.
  intros H. rewrite <- (firstn_skipn n l). apply in_or_app. left. exact H.
Qed.

Lemma files_to_remove_backups (env : Env) (f : gmap string File)
  (file p : string) :
  In p (files_to_remove env f file) -> In p (glob_backups f file).
Proof.
  unfold files_to_remove.
  destruct (max_backup_files env <? _); [|intros []].
  unfold Py.slice_to. intros H. apply in_firstn in H.
  eapply Permutation_in; [symmetry; apply sort_asc_perm | exact H].
Qed.

(** What [create_backup_if_enabled] does when backups are on and the
    target exists. *)
Lemma create_backup_run (env : Env) (target : option string) (st : State)
  (f : File) :
  create_backups env = true ->
  fs st !! or_default env target = Some f ->
  let file := or_default env target in
  let path := file +:+ ".backup." +:+ strftime env (clock st) in
  let copied := <[path := f]> (fs st) in
  create_backup_if_enabled env target st
  = (Py.Ok (Some path),
     mkState (entries st)
       (if 0 <? max_backup_files env
        then delete_all (files_to_remove env copied file) copied
        else copied)
       (clock st)).
Proof.
  intros Hen Hf file path copied.
  unfold create_backup_if_enabled. rewrite Hen. cbn [negb].
  unfold bind, get_state, copy2, bind, get_state. rewrite Hf.
  unfold put_fs. cbn [entries fs clock].
  destruct (0 <? max_backup_files env).
  - unfold cleanup_old_backups, bind, get_state. cbn [entries fs clock].
    rewrite or_default_idem, remove_all_spec. reflexivity.
  - reflexivity.
Qed.

(** Retention by [create_backup_if_enabled]: under a positive cap the call
    leaves at most [max_backup_files] backups of the target; every backup
    it removed is no younger (by modification time) than every backup it
    kept, and no other file is touched.  With a cap of zero (or below) the
    files after the call are the files before plus the new backup: no
    backup is deleted. *)
Lemma backup_retention :
  forall (env : Env) (target : option string) (st : State) (f : File),
    create_backups env = true ->
    fs st !! or_default env target = Some f ->
    let file := or_default env target in
    let path := file +:+ ".backup." +:+ strftime env (clock st) in
    let copied := <[path := f]> (fs st) in
    exists st',
      create_backup_if_enabled env target st = (Py.Ok (Some path), st')
      /\ entries st' = entries st
      /\ (0 < max_backup_files env ->
            Z.of_nat (List.length (glob_backups (fs st') file))
            <= max_backup_files env
            /\ (forall p q,
                  In p (glob_backups copied file) -> fs st' !! p = None ->
                  In q (glob_backups (fs st') file) ->
                  getmtime copied p <= getmtime copied q)
            /\ (forall p, is_backup_of file p = false ->
                          fs st' !! p = copied !! p))
      /\ (max_backup_files env <= 0 ->
            fs st' = copied
            /\ forall p, is_Some (fs st !! p) -> is_Some (fs st' !! p)).
Proof.
  intros env target st f Hen Hf file path copied.
  rewrite (create_backup_run env target st f Hen Hf).
  fold file. fold path. fold copied.
  eexists. split; [reflexivity|]. split; [reflexivity|]. cbn [fs].
  destruct (Z.ltb_spec 0 (max_backup_files env)) as [Hpos|Hle].
  - set (R := files_to_remove env copied file).
    destruct (files_to_remove_split env copied file) as (rest & Hp & Hs & Hl);
      [lia|]. fold R in Hp, Hs.
    assert (Hkept : forall q, In q (glob_backups (delete_all R copied) file) ->
                              In q rest).
    { intros q Hq. apply glob_backups_In in Hq. destruct Hq as [Hq1 Hq2].
      destruct (List.in_dec string_dec q R) as [HR|HR].
      - rewrite lookup_delete_all_in in Hq1 by exact HR.
        destruct Hq1 as [? Hq1]. discriminate.
      - rewrite lookup_delete_all_notin in Hq1 by exact HR.
        assert (Hin : In q (R ++ rest)).
        { eapply Permutation_in; [exact Hp|].
          apply glob_backups_In. split; assumption. }
        apply in_app_or in Hin. tauto. }
    split; [|intros; lia].
    intros _. split; [|split].
    + pose proof (NoDup_incl_length
                    (glob_backups_NoDup (delete_all R copied) file) Hkept).
      lia.
    + intros p q Hp' Hgone Hq.
      assert (HpR : In p R).
      { destruct (List.in_dec string_dec p R) as [HR|HR]; [exact HR|].
        rewrite lookup_delete_all_notin in Hgone by exact HR.
        apply glob_backups_In in Hp'. destruct Hp' as [[x Hx] _].
        congruence. }
      exact (StronglySorted_app_cross _ R rest p q Hs HpR (Hkept q Hq)).
    + intros p Hp'. apply lookup_delete_all_notin. intros HR.
      apply files_to_remove_backups, glob_backups_In in HR.
      destruct HR as [_ HR]. congruence.
  - split; [intros; lia|]. intros _. split; [reflexivity|].
    intros p Hp. unfold copied.
    destruct (decide (path = p)) as [->|Hne].
    + rewrite lookup_insert_eq. eauto.
    + rewrite lookup_insert_ne by exact Hne. exact Hp.
Qed.

(** A run of the retention: a third backup under a cap of two. *)
Lemma backup_retention_run :
  exists st',
    create_backup_if_enabled Sample.env None Sample.state_with_backups
    = (Py.Ok (Some Sample.new_backup), st')
    /\ Z.of_nat (List.length (glob_backups (fs st') Sample.ledger_path)) <= 2.
Proof.
  destruct (backup_retention Sample.env None Sample.state_with_backups
              (mkFile Sample.ledger_text 100) eq_refl eq_refl)
    as (st' & Hrun & _ & Hcap & _).
  exists st'. split; [exact Hrun|]. apply Hcap. reflexivity.
Qed.

Example sample_backup_rotation :
  let st' := snd (create_backup_if_enabled Sample.env None
                    Sample.state_with_backups) in
  fs st' !! Sample.old_backup = None
  /\ is_Some (fs st' !! Sample.mid_backup)
  /\ is_Some (fs st' !! Sample.new_backup)
  /\ fs st' !! Sample.ledger_path = Some (mkFile Sample.ledger_text 100).
Proof. vm_compute. repeat split; eauto. Qed.

(** ** Mutations: directives without a line number *)

Lemma app_cons (c : ascii) (a b : string) :
  String c a +:+ b = String c (a +:+ b).
Proof. reflexivity. Qed.

Lemma app_nil_l (b : string) : EmptyString +:+ b = b.
Proof. reflexivity. Qed.

Lemma app_length (a b : string) :
  String.length (a +:+ b) = (String.length a + String.length b)%nat.
Proof.
  induction a as [|c a IH]; [reflexivity|].
  rewrite app_cons. simpl. rewrite IH. reflexivity.
Qed.

Lemma prefix_length (a b : string) :
  String.prefix a b = true -> (String.length a <= String.length b)%nat.
Proof.
  revert b. induction a as [|c a IH]; intros [|d b]; simpl; intros H;
    try lia; try discriminate.
  destruct (ascii_dec c d); [|discriminate]. apply IH in H. lia.
Qed.

(** A file is no backup of itself, and is not its own backup path. *)
Lemma not_backup_of_self (file : string) : is_backup_of file file = false.
Proof.
  unfold is_backup_of.
  destruct (String.prefix (file +:+ ".backup.") file) eqn:E; [|reflexivity].
  apply prefix_length in E. rewrite app_length in E. simpl in E. lia.
Qed.

Lemma backup_path_fresh (file ts : string) :
  file +:+ ".backup." +:+ ts <> file.
Proof.
  intros H. apply (f_equal String.length) in H.
  rewrite !app_length in H. simpl in H. lia.
Qed.

(** Whatever [create_backup_if_enabled] does, it keeps the entries, the
    clock and the target file itself; it raises only when the target is
    missing. *)
Lemma create_backup_keeps_target (env : Env) (target : option string)
  (st : State) :
  exists o st',
    create_backup_if_enabled env target st = (o, st')
    /\ entries st' = entries st
    /\ clock st' = clock st
    /\ fs st' !! or_default env target = fs st !! or_default env target
    /\ (create_backups env = false \/ is_Some (fs st !! or_default env target)
        -> exists b, o = Py.Ok b).
Proof.
  destruct (create_backups env) eqn:Hen.
  - destruct (fs st !! or_default env target) as [f|] eqn:Hf.
    + rewrite (create_backup_run env target st f Hen Hf).
      eexists _, _. split; [reflexivity|]. cbn [entries fs clock].
      split; [reflexivity|]. split; [reflexivity|]. split; [|eauto].
      assert (Hc : <[or_default env target +:+ ".backup."
                     +:+ strftime env (clock st) := f]> (fs st)
                   !! or_default env target = Some f).
      { rewrite lookup_insert_ne by apply backup_path_fresh. exact Hf. }
      destruct (0 <? max_backup_files env); [|exact Hc].
      rewrite lookup_delete_all_notin; [exact Hc|].
      intros HR. apply files_to_remove_backups, glob_backups_In in HR.
      destruct HR as [_ HR]. rewrite not_backup_of_self in HR. discriminate.
    + unfold create_backup_if_enabled. rewrite Hen. cbn [negb].
      unfold bind, get_state, copy2, bind, get_state. rewrite Hf.
      eexists _, _. split; [reflexivity|].
      repeat split; try reflexivity; try assumption.
      intros [H|[x H]]; discriminate.
  - unfold create_backup_if_enabled. rewrite Hen. cbn [negb].
    eexists _, _. split; [reflexivity|]. repeat split; eauto.
Qed.

(** An update of a directive that is found but has no [lineno] fails with
    "Could not locate", or with the error of the backup or the read; the
    ledger file and the loaded entries stay as they were. *)
Lemma update_in_file_unlocated (env : Env) (k : UpdateKind) (entry_id : string)
  (data : list (string * pyval)) (st : State) (e : Directive) (m : Meta) :
  lookup_for_update k (entries st) entry_id = Some e ->
  meta e = Some m -> dict_get "lineno" m = None ->
  exists r st',
    update_in_file env k entry_id data st = (Py.Ok r, st')
    /\ success r = false
    /\ entries st' = entries st
    /\ fs st' !! beancount_file env = fs st !! beancount_file env
    /\ (create_backups env = false \/ is_Some (fs st !! beancount_file env) ->
        is_Some (fs st !! beancount_file env) ->
        r = failure ("Could not locate " +:+ kind_label k +:+ " in file")).
Proof.
  intros Hfind Hm Hl.
  destruct (create_backup_keeps_target env None st)
    as (o & st1 & Hrun & He & Hc & Hfile & Hok).
  change (or_default env None) with (beancount_file env) in *.
  unfold update_in_file, catch.
  unfold bind at 1. unfold get_state at 1. rewrite Hfind.
  unfold bind at 1. rewrite Hrun.
  destruct o as [b|msg].
  - unfold bind at 1. unfold read_text, bind at 1, get_state at 1.
    destruct (fs st1 !! beancount_file env) as [f|] eqn:Hf1.
    + unfold ret at 1. unfold bind at 1. rewrite Hm. simpl of_option.
      unfold ret at 1. rewrite Hl. unfold ret.
      eexists _, _. split; [reflexivity|]. repeat split; auto; congruence.
    + unfold raise, ret. eexists _, _. split; [reflexivity|].
      repeat split; auto; try congruence.
      intros _ [x Hx]. congruence.
  - unfold ret. eexists _, _. split; [reflexivity|].
    repeat split; auto. intros H. destruct (Hok H) as [b Hb]. discriminate.
Qed.

Lemma create_commodity_as_dict (env : Env) (symbol : string) (md : MetaArg)
  (d : option date) :
  create_commodity_declaration env symbol (MetaDict (as_dict md)) d
  = create_commodity_declaration env symbol md d.
Proof. destruct md; reflexivity. Qed.

Lemma create_commodity_returns (env : Env) (symbol : string) (md : MetaArg)
  (d : option date) (st : State) :
  exists r st',
    create_commodity_declaration env symbol md d st = (Py.Ok r, st').
Proof.
  unfold create_commodity_declaration, catch.
  match goal with
  | |- context [match ?m st with _ => _ end] =>
      destruct (m st) as [[r|msg] st']
  end; unfold ret; eauto.
Qed.

(** A commodity declaration that is found without a usable line number is
    handled by [create_commodity_declaration]. *)
Lemma update_commodity_falls_back (env : Env) (symbol : string) (md : MetaArg)
  (st : State) (c : Directive) :
  List.find (declares symbol) (entries st) = Some c ->
  usable_lineno env (default [] (meta c)) = None ->
  update_commodity_metadata env symbol md st
  = create_commodity_declaration env symbol md None st.
Proof.
  intros Hfind Hno.
  destruct (create_commodity_returns env symbol md None st) as (r & st' & Hr).
  unfold update_commodity_metadata, catch.
  unfold bind at 1. unfold get_state at 1. rewrite Hfind.
  unfold usable_lineno in Hno. rewrite create_commodity_as_dict.
  destruct (dict_get "lineno" (default [] (meta c))) as [v|];
    [|rewrite Hr; reflexivity].
  destruct v; try rewrite Hno; rewrite Hr; reflexivity.
Qed.

(** The create path: with the target file present and a parser that
    accepts the result, the declaration is appended and success reported. *)
Lemma create_commodity_appends (env : Env) (symbol : string) (md : MetaArg)
  (d : option date) (st : State) (t : string) (f : File) :
  pick_target symbol (entries st) (Py.Ok (beancount_file env)) = Py.Ok t ->
  Py.truthy t = true ->
  fs st !! t = Some f ->
  (forall files,
      exists es, load_file env files (beancount_file env) = Py.Ok es) ->
  exists r st',
    create_commodity_declaration env symbol md d st = (Py.Ok r, st')
    /\ success r = true
    /\ target_file r = Some t
    /\ fs st' !! t
       = Some (mkFile (content f +:+ Py.nl
                       +:+ declaration_text (declaration_date env st d) symbol
                             (as_dict md))
                      (clock st)).
Proof.
  intros Hpick Ht Hf Hparse.
  destruct (create_backup_keeps_target env (Some t) st)
    as (o & st1 & Hrun & He & Hc & Hfile & Hok).
  assert (Hdef : or_default env (Some t) = t)
    by (unfold or_default; rewrite Ht; reflexivity).
  rewrite Hdef in *. rewrite Hf in Hfile.
  destruct Hok as [b ->]; [right; eauto|].
  set (text := declaration_text (declaration_date env st d) symbol
                 (as_dict md)).
  set (files2 := <[t := mkFile (content f +:+ Py.nl +:+ text) (clock st1)]>
                   (fs st1)).
  destruct (Hparse files2) as [es Hes].
  unfold create_commodity_declaration, catch.
  unfold bind at 1. unfold get_state at 1.
  unfold bind at 1. rewrite Hpick. unfold of_outcome at 1.
  unfold bind at 1. rewrite Hrun.
  unfold bind at 1. unfold append_text, bind at 1, get_state at 1.
  rewrite Hfile. unfold put_fs at 1.
  unfold bind at 1. unfold reload_data, bind at 1, get_state at 1.
  cbn [fs entries clock]. fold text. fold files2.
  unfold bind at 1. rewrite Hes. unfold of_outcome at 1.
  unfold put_entries, ret. cbn [fs entries clock].
  eexists _, _. split; [reflexivity|]. cbn [success target_file succeeded fs].
  split; [reflexivity|]. split; [reflexivity|].
  unfold files2. rewrite lookup_insert_eq, Hc. reflexivity.
Qed.

(** What [create_commodity_declaration] does once the target is fixed and
    present: the backup, the append, then the reparse, whose failure is
    reported with the text already appended. *)
Lemma create_commodity_run (env : Env) (symbol : string) (md : MetaArg)
  (d : option date) (st : State) (t : string) (f : File) :
  pick_target symbol (entries st) (Py.Ok (beancount_file env)) = Py.Ok t ->
  Py.truthy t = true ->
  fs st !! t = Some f ->
  exists bk st1,
    create_backup_if_enabled env (Some t) st = (Py.Ok bk, st1)
    /\ let text := declaration_text (declaration_date env st d) symbol
                     (as_dict md) in
       let written :=
         <[t := mkFile (content f +:+ Py.nl +:+ text) (clock st)]> (fs st1) in
       create_commodity_declaration env symbol md d st
       = match load_file env written (beancount_file env) with
         | Py.Ok es =>
             (Py.Ok (succeeded ("Created commodity declaration for "
                                +:+ symbol) bk (Some t)),
              mkState es written (clock st))
         | Py.Raised msg =>
             (Py.Ok (failure msg), mkState (entries st) written (clock st))
         end.
Proof.
  intros Hpick Ht Hf.
  destruct (create_backup_keeps_target env (Some t) st)
    as (o & st1 & Hrun & He & Hc & Hfile & Hok).
  assert (Hdef : or_default env (Some t) = t)
    by (unfold or_default; rewrite Ht; reflexivity).
  rewrite Hdef in *. rewrite Hf in Hfile.
  destruct Hok as [b ->]; [right; eauto|].
  exists b, st1. split; [exact Hrun|]. cbv zeta.
  unfold create_commodity_declaration, catch.
  unfold bind at 1. unfold get_state at 1.
  unfold bind at 1. rewrite Hpick. unfold of_outcome at 1.
  unfold bind at 1. rewrite Hrun.
  unfold bind at 1. unfold append_text, bind at 1, get_state at 1.
  rewrite Hfile. unfold put_fs at 1.
  unfold bind at 1. unfold reload_data, bind at 1, get_state at 1.
  cbn [fs entries clock]. rewrite Hc, He.
  unfold bind at 1.
  destruct (load_file env _ (beancount_file env)) as [es|msg];
    unfold of_outcome, put_entries, ret; cbn [fs entries clock];
    reflexivity.
Qed.

(** C2, the claim as stated fails: a transaction found by its identity
    whose metadata has no [lineno] is not appended; the update returns the
    failure "Could not locate transaction in file" and the ledger text is
    unchanged. *)
Lemma update_without_lineno_counterexample :
  let st := Sample.state_with [Sample.lost_coffee] in
  let id := generate_entry_id Sample.lost_coffee in
  let run := update_entry_in_file Sample.env id [] st in
  find_transaction_by_id (entries st) id = Some Sample.lost_coffee
  /\ dict_get "lineno" (default [] (meta Sample.lost_coffee)) = None
  /\ fst run = Py.Ok (failure "Could not locate transaction in file")
  /\ fs (snd run) !! Sample.ledger_path
     = Some (mkFile Sample.ledger_text 100).
Proof. vm_compute. repeat split; reflexivity. Qed.

(** C2, amended: the fallback to a create belongs to
    [update_commodity_metadata] only.  A commodity declaration found without
    a usable line number is handled by [create_commodity_declaration]: the
    new declaration is appended to the target file when that file exists,
    and success is reported when the parser accepts the file so written.
    An update of a transaction, balance or note that is found without
    [lineno] returns a failure result; the ledger file and the loaded
    entries are unchanged.  Each half holds in every state, on its own
    hypotheses. *)
Theorem missing_lineno_policy :
  forall (env : Env) (st : State),
    (forall (symbol : string) (md : MetaArg) (c : Directive) (t : string)
            (f : File),
        List.find (declares symbol) (entries st) = Some c ->
        usable_lineno env (default [] (meta c)) = None ->
        pick_target symbol (entries st) (Py.Ok (beancount_file env))
        = Py.Ok t ->
        Py.truthy t = true ->
        fs st !! t = Some f ->
        update_commodity_metadata env symbol md st
        = create_commodity_declaration env symbol md None st
        /\ exists r st',
             update_commodity_metadata env symbol md st = (Py.Ok r, st')
             /\ fs st' !! t
                = Some (mkFile (content f +:+ Py.nl
                                +:+ declaration_text
                                      (declaration_date env st None) symbol
                                      (as_dict md))
                               (clock st))
             /\ match load_file env (fs st') (beancount_file env) with
                | Py.Ok es =>
                    success r = true /\ target_file r = Some t
                    /\ entries st' = es
                | Py.Raised msg =>
                    r = failure msg /\ entries st' = entries st
                end)
    /\ (forall (k : UpdateKind) (entry_id : string)
               (data : list (string * pyval)) (e : Directive) (m : Meta),
          lookup_for_update k (entries st) entry_id = Some e ->
          meta e = Some m ->
          dict_get "lineno" m = None ->
          exists r st',
            update_in_file env k entry_id data st = (Py.Ok r, st')
            /\ success r = false
            /\ entries st' = entries st
            /\ fs st' !! beancount_file env = fs st !! beancount_file env
            /\ (is_Some (fs st !! beancount_file env) ->
                r = failure ("Could not locate " +:+ kind_label k
                             +:+ " in file"))).
Proof.
  intros env st. split.
  - intros symbol md c t f Hfind Hno Hpick Ht Hf.
    pose proof (update_commodity_falls_back env symbol md st c Hfind Hno)
      as Hfb.
    split; [exact Hfb|]. rewrite Hfb.
    destruct (create_commodity_run env symbol md None st t f Hpick Ht Hf)
      as (bk & st1 & _ & Hrun).
    cbv zeta in Hrun.
    set (written := <[t := _]> (fs st1)) in Hrun.
    destruct (load_file env written (beancount_file env)) as [es|msg]
      eqn:Hload;
      eexists _, _; (split; [exact Hrun|]); cbn [fs entries];
      (split; [apply lookup_insert_eq|]); rewrite Hload;
      repeat split; reflexivity.
  - intros k entry_id data e m Hlook Hm Hl.
    destruct (update_in_file_unlocated env k entry_id data st e m Hlook Hm Hl)
      as (r & st' & Hr & Hs & He & Hfile & Hmsg).
    exists r, st'. repeat split; auto.
Qed.

(** Witness of C2 amended: a ledger whose commodity declaration lacks
    [lineno], and the ledger of the counterexample, whose transaction lacks
    it. *)
Lemma missing_lineno_policy_witness :
  (exists r st',
      update_commodity_metadata Sample.env "BTC"
        (MetaDict [("name", MStr "Bitcoin")])
        (Sample.state_with [Sample.lost_btc]) = (Py.Ok r, st')
      /\ fs st' !! Sample.ledger_path
         = Some (mkFile (Sample.ledger_text +:+ Py.nl
                         +:+ declaration_text (mkdate 2024 1 1) "BTC"
                               [("name", MStr "Bitcoin")]) 120000))
  /\ (exists r st',
        update_in_file Sample.env UTransaction
          (generate_entry_id Sample.lost_coffee) []
          (Sample.state_with [Sample.lost_coffee]) = (Py.Ok r, st')
        /\ success r = false
        /\ entries st' = [Sample.lost_coffee]
        /\ r = failure "Could not locate transaction in file").
Proof.
  split.
  - destruct (proj1 (missing_lineno_policy Sample.env
                       (Sample.state_with [Sample.lost_btc]))
                "BTC" (MetaDict [("name", MStr "Bitcoin")]) Sample.lost_btc
                Sample.ledger_path (mkFile Sample.ledger_text 100))
      as [_ (r & st' & Hr & Hfile & _)];
      try (vm_compute; reflexivity).
    exists r, st'. split; [exact Hr|exact Hfile].
  - destruct (proj2 (missing_lineno_policy Sample.env
                       (Sample.state_with [Sample.lost_coffee]))
                UTransaction (generate_entry_id Sample.lost_coffee) []
                Sample.lost_coffee [("filename", MStr Sample.ledger_path)])
      as (r & st' & Hr & Hs & He & _ & Hmsg);
      try (vm_compute; reflexivity).
    exists r, st'. split; [exact Hr|]. split; [exact Hs|].
    split; [exact He|]. apply Hmsg. vm_compute. eauto.
Defined.

Example sample_commodity_fallback :
  let st := Sample.state_with [Sample.lost_coffee; Sample.lost_btc] in
  let run := update_commodity_metadata Sample.env "BTC"
               (MetaDict [("name", MStr "Bitcoin")]) st in
  option_map content (fs (snd run) !! Sample.ledger_path)
  = Some (Sample.ledger_text +:+ Py.nl +:+ "2024-01-01 commodity BTC" +:+ Py.nl
          +:+ "  name: " +:+ Sample.q "Bitcoin" +:+ Py.nl).
Proof. vm_compute. reflexivity. Qed.

(** ** Lines of a text *)

Lemma prefix_app (s r : string) : String.prefix s (s +:+ r) = true.
Proof.
  induction s as [|c s IH]; [destruct r; reflexivity|].
  rewrite app_cons. simpl. destruct (ascii_dec c c); [exact IH|contradiction].
Qed.

Lemma prefix_empty (s : string) : String.prefix EmptyString s = true.
Proof. destruct s; reflexivity. Qed.

Lemma split_nonempty (sep : string) (skip : nat) (s : string) :
  exists h t, Py.split_aux sep skip s = h :: t.
Proof.
  revert skip. induction s as [|c s IH]; intros skip; cbn [Py.split_aux];
    [do 2 eexists; reflexivity|].
  destruct skip as [|k]; [|apply IH].
  destruct (String.prefix sep (String c s)); [do 2 eexists; reflexivity|].
  destruct (IH O) as (h & t & ->). do 2 eexists; reflexivity.
Qed.

Lemma prefix_cons (a b : ascii) (s1 s2 : string) :
  String.prefix (String a s1) (String b s2)
  = Ascii.eqb a b && String.prefix s1 s2.
Proof.
  simpl. destruct (ascii_dec a b) as [->|E].
  - rewrite Ascii.eqb_refl. reflexivity.
  - apply Ascii.eqb_neq in E. rewrite E. reflexivity.
Qed.

Lemma split_nl_feed (r : string) :
  Py.split Py.nl (Py.nl +:+ r) = EmptyString :: Py.split Py.nl r.
Proof.
  unfold Py.split, Py.nl. rewrite app_cons, app_nil_l. cbn [Py.split_aux].
  rewrite prefix_cons, Ascii.eqb_refl, prefix_empty. reflexivity.
Qed.

Lemma split_nl_other (c : ascii) (r : string) :
  Ascii.eqb c (ascii_of_nat 10) = false ->
  exists h t, Py.split Py.nl r = h :: t
              /\ Py.split Py.nl (String c r) = String c h :: t.
Proof.
  intros Hc. destruct (split_nonempty Py.nl O r) as (h & t & Hr).
  exists h, t. split; [exact Hr|].
  unfold Py.split, Py.nl in *. cbn [Py.split_aux].
  rewrite prefix_cons, Ascii.eqb_sym, Hc, Hr. reflexivity.
Qed.

(** Splitting at line feeds distributes over a line feed. *)
Lemma split_app_nl (x r : string) :
  Py.split Py.nl (x +:+ Py.nl +:+ r) = Py.split Py.nl x ++ Py.split Py.nl r.
Proof.
  induction x as [|c x IH].
  - rewrite app_nil_l, split_nl_feed. reflexivity.
  - rewrite app_cons.
    destruct (Ascii.eqb c (ascii_of_nat 10)) eqn:Hc.
    + apply Ascii.eqb_eq in Hc. subst c.
      change (String (ascii_of_nat 10) ?s) with (Py.nl +:+ s).
      rewrite !split_nl_feed, IH. reflexivity.
    + destruct (split_nl_other c (x +:+ Py.nl +:+ r) Hc) as (h & t & H1 & H2).
      destruct (split_nl_other c x Hc) as (h' & t' & H1' & H2').
      rewrite H2, H2'. rewrite IH, H1' in H1. simpl in H1.
      injection H1 as <- <-. reflexivity.
Qed.

Lemma split_one_line (x : string) :
  Py.one_line x = true -> Py.split Py.nl x = [x].
Proof.
  induction x as [|c x IH]; [reflexivity|].
  unfold Py.one_line. simpl. intros H. apply andb_prop in H.
  destruct H as [Hc Hx]. apply negb_true_iff in Hc.
  destruct (split_nl_other c x Hc) as (h & t & H1 & H2).
  rewrite H2. rewrite (IH Hx) in H1. injection H1 as <- <-. reflexivity.
Qed.

Lemma split_lines_one_line (s : string) :
  Forall (fun x => Py.one_line x = true) (Py.split Py.nl s).
Proof.
  induction s as [|c s IH]; [repeat constructor|].
  destruct (Ascii.eqb c (ascii_of_nat 10)) eqn:Hc.
  - apply Ascii.eqb_eq in Hc. subst c.
    change (String (ascii_of_nat 10) s) with (Py.nl +:+ s).
    rewrite split_nl_feed. constructor; [reflexivity | exact IH].
  - destruct (split_nl_other c s Hc) as (h & t & H1 & H2).
    rewrite H2. rewrite H1 in IH. inversion IH as [|? ? Hh Ht]; subst.
    constructor; [|exact Ht].
    unfold Py.one_line in *. simpl. rewrite Hc. exact Hh.
Qed.

Lemma join_cons (x y : string) (l : list string) :
  Py.join Py.nl (x :: y :: l) = x +:+ Py.nl +:+ Py.join Py.nl (y :: l).
Proof. reflexivity. Qed.

(** The lines of a joined text are the lines of its parts. *)
Lemma split_join_flat (ls : list string) :
  ls <> [] ->
  Py.split Py.nl (Py.join Py.nl ls) = flat_map (Py.split Py.nl) ls.
Proof.
  induction ls as [|x ls IH]; [congruence|]. intros _.
  destruct ls as [|y ls].
  - simpl. rewrite app_nil_r. reflexivity.
  - rewrite join_cons, split_app_nl, IH by congruence. reflexivity.
Qed.

Lemma flat_map_split_lines (ls : list string) :
  Forall (fun x => Py.one_line x = true) ls ->
  flat_map (Py.split Py.nl) ls = ls.
Proof.
  induction 1 as [|x ls Hx _ IH]; [reflexivity|].
  simpl. rewrite (split_one_line x Hx), IH. reflexivity.
Qed.

(** The header prefix: a token without a space before [' commodity '] is
    what [split] returns first. *)
Lemma split_token (sep' d rest : string) (c0 : ascii) :
  Py.lacks c0 d = true ->
  exists t, Py.split (String c0 sep') (d +:+ String c0 sep' +:+ rest) = d :: t.
Proof.
  intros Hd. induction d as [|c d IH].
  - rewrite app_nil_l. unfold Py.split.
    rewrite app_cons. cbn [Py.split_aux].
    rewrite prefix_cons, Ascii.eqb_refl, prefix_app. eauto.
  - simpl in Hd. apply andb_prop in Hd. destruct Hd as [Hc Hd].
    apply negb_true_iff in Hc.
    destruct (IH Hd) as [t Ht].
    rewrite app_cons. unfold Py.split in *. cbn [Py.split_aux].
    rewrite prefix_cons, Ascii.eqb_sym, Hc, Ht. eauto.
Qed.

(** What [split] returns first is a prefix of the text. *)
Lemma split_head_prefix (sep s : string) :
  exists h t tail, Py.split sep s = h :: t /\ s = h +:+ tail.
Proof.
  unfold Py.split. induction s as [|c s IH]; cbn [Py.split_aux].
  - exists EmptyString, [], EmptyString. auto.
  - destruct (String.prefix sep (String c s)).
    + exists EmptyString. eexists. exists (String c s). auto.
    + destruct IH as (h & t & tail & -> & Hs).
      exists (String c h), t, tail. split; [reflexivity|].
      rewrite app_cons, <- Hs. reflexivity.
Qed.

(** ** In-place edit of a commodity declaration *)

Lemma in_skipn {A : Type} (n : nat) (l : list A) (x : A) :
  In x (skipn n l) -> In x l.
Proof.
  intros H. rewrite <- (firstn_skipn n l). apply in_or_app. right. exact H.
Qed.

(** The inner block of [update_commodity_metadata] on a line number inside
    the file: the region, the declaration lines and the spliced lines. *)
Lemma prepare_edit_spec (lines : list string) (z : Z) (symbol : string)
  (metadata : Meta) :
  1 <= z <= Z.of_nat (List.length lines) ->
  exists header end_,
    Py.getitem lines (z - 1) = Some header
    /\ find_end continues_decl lines (z - 1) = Py.Ok end_
    /\ z - 1 <= end_ < Z.of_nat (List.length lines)
    /\ (forall i, z - 1 < i <= end_ ->
          exists ln, Py.getitem lines i = Some ln /\ indented ln = true)
    /\ (end_ + 1 < Z.of_nat (List.length lines) ->
          exists ln, Py.getitem lines (end_ + 1) = Some ln
                     /\ indented ln = false)
    /\ let decl :=
         (hd header (Py.split " commodity " header) +:+ " commodity "
          +:+ symbol) :: metadata_lines metadata in
       prepare_edit lines z symbol metadata
       = Py.Ok (mkEdit (z - 1) end_ decl
                  (firstn (Z.to_nat (z - 1)) lines ++ decl
                   ++ skipn (Z.to_nat (end_ + 1)) lines)).
Proof.
  intros Hz.
  destruct (getitem_in_range lines (z - 1)) as (header & Hh & _); [lia|].
  destruct (scan_end_spec continues_decl lines
              (Z.to_nat (Z.of_nat (List.length lines) - 1 - (z - 1))) (z - 1))
    as (e & He & Hr & Hall & Hstop); [lia|lia|].
  exists header, e. split; [exact Hh|]. split; [exact He|].
  split; [exact Hr|]. split; [exact Hall|]. split; [exact Hstop|].
  unfold prepare_edit. fold (find_end continues_decl lines (z - 1)) in He.
  rewrite He, Hh. unfold Py.slice_to, Py.slice_from.
  rewrite !clamp_nonneg by lia.
  replace (Nat.min (Z.to_nat (z - 1)) (List.length lines))
    with (Z.to_nat (z - 1)) by lia.
  replace (Nat.min (Z.to_nat (e + 1)) (List.length lines))
    with (Z.to_nat (e + 1)) by lia.
  reflexivity.
Qed.

(** The in-place path: the backup is copied, the spliced lines are written
    to the target, and the write stays whatever the reparse does. *)
Lemma update_commodity_in_place_run (env : Env) (symbol : string)
  (md : MetaArg) (st : State) (c : Directive) (m : Meta) (z : Z)
  (target : string) (f : File) (edit : Edit) :
  List.find (declares symbol) (entries st) = Some c ->
  meta c = Some m ->
  dict_get "lineno" m = Some (MInt z) ->
  Z.abs z <= 2 ^ 53 ->
  filename_or m (Py.Ok (beancount_file env)) = Py.Ok target ->
  fs st !! target = Some f ->
  prepare_edit (Py.split Py.nl (content f)) z symbol (as_dict md)
  = Py.Ok edit ->
  exists r st',
    update_commodity_metadata env symbol md st = (Py.Ok r, st')
    /\ fs st'
       = <[target := mkFile (Py.join Py.nl (e_new_lines edit)) (clock st)]>
           (<[target +:+ ".backup." +:+ strftime env (clock st) := f]> (fs st)).
Proof.
  intros Hfind Hm Hl Hz Ht Hf Hedit.
  unfold update_commodity_metadata, catch.
  unfold bind at 1. unfold get_state at 1. rewrite Hfind, Hm.
  cbn [default as_dict]. unfold id. rewrite Hl.
  unfold int_float. destruct (Z.leb_spec (Z.abs z) (2 ^ 53)); [|lia].
  unfold bind at 1. rewrite Ht. unfold of_outcome at 1.
  unfold bind at 1. unfold read_text, bind at 1, get_state at 1.
  rewrite Hf. unfold ret at 1. rewrite Hedit.
  unfold bind at 1. unfold copy2, bind at 1, get_state at 1.
  rewrite Hf. unfold put_fs at 1.
  unfold bind at 1. unfold write_text, bind at 1, get_state at 1.
  unfold put_fs at 1. cbn [fs entries clock].
  unfold bind at 1. unfold reload_data, bind at 1, get_state at 1.
  cbn [fs entries clock].
  unfold bind at 1.
  destruct (load_file env _ (beancount_file env)) as [es|msg];
    unfold of_outcome, put_entries, ret; cbn [fs entries clock];
    eexists _, _; split; reflexivity.
Qed.

Lemma lines_after_splice (lines decl : list string) (a b : nat) :
  Forall (fun x => Py.one_line x = true) lines ->
  decl <> [] ->
  Py.split Py.nl (Py.join Py.nl (firstn a lines ++ decl ++ skipn b lines))
  = firstn a lines ++ Py.split Py.nl (Py.join Py.nl decl) ++ skipn b lines.
Proof.
  intros Hl Hd.
  assert (Ha : Forall (fun x => Py.one_line x = true) (firstn a lines)).
  { rewrite List.Forall_forall in *. intros x Hx. apply Hl.
    eapply in_firstn. exact Hx. }
  assert (Hb : Forall (fun x => Py.one_line x = true) (skipn b lines)).
  { rewrite List.Forall_forall in *. intros x Hx. apply Hl.
    eapply in_skipn. exact Hx. }
  rewrite split_join_flat.
  - rewrite !flat_map_app, (flat_map_split_lines _ Ha),
      (flat_map_split_lines _ Hb), (split_join_flat decl Hd). reflexivity.
  - destruct decl; [congruence|]. destruct (firstn a lines); discriminate.
Qed.

(** C6: an in-place edit of a commodity declaration found at line [z] of
    its file rewrites the header as the text before [' commodity '] of the
    old header followed by [' commodity ' + symbol], so a date token (a
    text without a space) before [' commodity '] is kept verbatim; the
    lines of the file before the declaration and after its last indented
    line are the old ones, unchanged and in the same order. *)
Theorem commodity_edit_in_place :
  forall (env : Env) (st : State) (symbol : string) (md : MetaArg)
         (c : Directive) (m : Meta) (z : Z) (target : string) (f : File),
    List.find (declares symbol) (entries st) = Some c ->
    meta c = Some m ->
    dict_get "lineno" m = Some (MInt z) ->
    filename_or m (Py.Ok (beancount_file env)) = Py.Ok target ->
    fs st !! target = Some f ->
    1 <= z <= Z.of_nat (List.length (Py.split Py.nl (content f))) ->
    z <= 2 ^ 53 ->
    let lines := Py.split Py.nl (content f) in
    exists (header : string) (end_ : Z) (r : Result) (st' : State)
           (written : string),
      let prefix := hd header (Py.split " commodity " header) in
      let decl :=
        (prefix +:+ " commodity " +:+ symbol) :: metadata_lines (as_dict md) in
      update_commodity_metadata env symbol md st = (Py.Ok r, st')
      /\ Py.getitem lines (z - 1) = Some header
      /\ find_end continues_decl lines (z - 1) = Py.Ok end_
      /\ z - 1 <= end_ < Z.of_nat (List.length lines)
      /\ fs st' !! target = Some (mkFile written (clock st))
      /\ Py.split Py.nl written
         = firstn (Z.to_nat (z - 1)) lines
           ++ Py.split Py.nl (Py.join Py.nl decl)
           ++ skipn (Z.to_nat (end_ + 1)) lines
      /\ (exists tail, header = prefix +:+ tail)
      /\ (forall d rest,
            header = d +:+ " commodity " +:+ rest ->
            Py.lacks " " d = true -> prefix = d).
Proof.
  intros env st symbol md c m z target f Hfind Hm Hl Ht Hf Hz Hbig lines.
  destruct (prepare_edit_spec lines z symbol (as_dict md) Hz)
    as (header & end_ & Hh & He & Hr & _ & _ & Hedit).
  cbv zeta in Hedit.
  destruct (update_commodity_in_place_run env symbol md st c m z target f _
              Hfind Hm Hl ltac:(lia) Ht Hf Hedit) as (r & st' & Hrun & Hfs).
  exists header, end_, r, st'. eexists. cbv zeta.
  split; [exact Hrun|]. split; [exact Hh|]. split; [exact He|].
  split; [exact Hr|]. split; [rewrite Hfs; apply lookup_insert_eq|].
  cbn [e_new_lines]. split; [|split].
  - apply lines_after_splice; [apply split_lines_one_line | discriminate].
  - destruct (split_head_prefix " commodity " header)
      as (h & t & tail & Hs & Htail).
    rewrite Hs. simpl. eauto.
  - intros d rest Hd Hlacks.
    destruct (split_token "commodity " d rest " " Hlacks) as [t Hs].
    rewrite Hd.
    change (String " " "commodity ") with " commodity " in Hs.
    rewrite Hs. reflexivity.
Qed.

(** Witness of C6: new metadata for the declaration of BTC at line 9 of
    the sample ledger. *)
Lemma commodity_edit_in_place_witness :
  let lines := Py.split Py.nl Sample.ledger_text in
  let md := MetaDict [("name", MStr "Bitcoin"); ("precision", MInt 8)] in
  exists (header : string) (end_ : Z) (r : Result) (st' : State)
         (written : string),
    let prefix := hd header (Py.split " commodity " header) in
    let decl :=
      (prefix +:+ " commodity " +:+ "BTC") :: metadata_lines (as_dict md) in
    update_commodity_metadata Sample.env "BTC" md Sample.state = (Py.Ok r, st')
    /\ Py.getitem lines (9 - 1) = Some header
    /\ find_end continues_decl lines (9 - 1) = Py.Ok end_
    /\ 9 - 1 <= end_ < Z.of_nat (List.length lines)
    /\ fs st' !! Sample.ledger_path = Some (mkFile written 120000)
    /\ Py.split Py.nl written
       = firstn (Z.to_nat (9 - 1)) lines
         ++ Py.split Py.nl (Py.join Py.nl decl)
         ++ skipn (Z.to_nat (end_ + 1)) lines
    /\ (exists tail, header = prefix +:+ tail)
    /\ (forall d rest,
          header = d +:+ " commodity " +:+ rest ->
          Py.lacks " " d = true -> prefix = d).
Proof.
  apply (commodity_edit_in_place Sample.env Sample.state "BTC"
           (MetaDict [("name", MStr "Bitcoin"); ("precision", MInt 8)])
           Sample.btc
           [("filename", MStr Sample.ledger_path); ("lineno", MInt 9)]
           9 Sample.ledger_path (mkFile Sample.ledger_text 100));
    try (vm_compute; reflexivity);
    try (vm_compute; split; discriminate);
    vm_compute; discriminate.
Defined.

Example sample_commodity_edit :
  let md := MetaDict [("name", MStr "Bitcoin"); ("precision", MInt 8)] in
  let run := update_commodity_metadata Sample.env "BTC" md Sample.state in
  option_map (fun x => Py.split Py.nl (content x))
             (fs (snd run) !! Sample.ledger_path)
  = Some (firstn 8 Sample.ledger_lines
          ++ ["2024-01-01 commodity BTC";
              "  name: " +:+ Sample.q "Bitcoin";
              "  precision: 8";
              EmptyString])
  /\ option_map success
       (match fst run with Py.Ok r => Some r | Py.Raised _ => None end)
     = Some true.
Proof. vm_compute. split; reflexivity. Qed.

Example sample_delete_transaction :
  let run := delete_entry_from_file Sample.env
               (generate_entry_id Sample.coffee) Sample.state in
  option_map (fun x => Py.split Py.nl (content x))
             (fs (snd run) !! Sample.ledger_path)
  = Some (firstn 2 Sample.ledger_lines ++ skipn 5 Sample.ledger_lines)
  /\ is_Some (fs (snd run) !! Sample.new_backup).
Proof. vm_compute. split; eauto. Qed.

(** C8 on the in-place edit of [update_commodity_metadata]: this path
    copies its backup itself and never runs [cleanup_old_backups].  With a
    cap of two and two backups already beside the ledger, the edit succeeds
    and leaves three backups, the oldest one still there; it makes its
    backup even when backups are switched off.  The same state under
    [create_backup_if_enabled] keeps two. *)
Lemma in_place_edit_exceeds_backup_cap :
  let md := MetaDict [("name", MStr "Bitcoin")] in
  let st := Sample.state_with_backups in
  let run := update_commodity_metadata Sample.env "BTC" md st in
  let off := update_commodity_metadata
               (Sample.env_with false 2 Sample.ledger) "BTC" md Sample.state in
  max_backup_files Sample.env = 2
  /\ List.length (glob_backups (fs st) Sample.ledger_path) = 2%nat
  /\ option_map success
       (match fst run with Py.Ok r => Some r | Py.Raised _ => None end)
     = Some true
  /\ List.length (glob_backups (fs (snd run)) Sample.ledger_path) = 3%nat
  /\ is_Some (fs (snd run) !! Sample.old_backup)
  /\ List.length
       (glob_backups
          (fs (snd (create_backup_if_enabled Sample.env None st)))
          Sample.ledger_path) = 2%nat
  /\ List.length (glob_backups (fs (snd off)) Sample.ledger_path) = 1%nat.
Proof. vm_compute. repeat split; eauto. Qed.

(** ** The region in the delete and update operations *)

(** The end of the region of a line inside the file, and the splice at
    it. *)
Lemma region_splice (lines : list string) (L : Z) :
  1 <= L <= Z.of_nat (List.length lines) ->
  exists e : Z,
    find_end continues_entry lines (L - 1) = Py.Ok e
    /\ L - 1 <= e < Z.of_nat (List.length lines)
    /\ (forall repl : list string,
          Py.slice_assign lines (L - 1) (e + 1) repl
          = firstn (Z.to_nat (L - 1)) lines ++ repl
            ++ skipn (Z.to_nat (e + 1)) lines).
Proof.
  intros HL.
  destruct (scan_end_spec continues_entry lines
              (Z.to_nat (Z.of_nat (List.length lines) - 1 - (L - 1))) (L - 1))
    as (e & He & Hr & _ & _); [lia|lia|].
  exists e. split; [exact He|]. split; [exact Hr|].
  intros repl.
  rewrite <- (Z2Nat.id (L - 1)) at 1 by lia.
  rewrite <- (Z2Nat.id (e + 1)) at 1 by lia.
  apply slice_assign_in_range. lia.
Qed.

(** A delete of a directive found at line [L] of the ledger writes the
    ledger without the lines of its region, whatever the reparse does. *)
Lemma delete_entry_removes_region (env : Env) (st : State)
  (entry_id : string) (e : Directive) (m : Meta) (L : Z) (f : File) :
  find_entry_by_id (entries st) entry_id = Some e ->
  meta e = Some m ->
  dict_get "lineno" m = Some (MInt L) ->
  fs st !! beancount_file env = Some f ->
  1 <= L <= Z.of_nat (List.length (Py.split Py.nl (content f))) ->
  let lines := Py.split Py.nl (content f) in
  exists (end_ : Z) (r : Result) (st' : State),
    delete_entry_from_file env entry_id st = (Py.Ok r, st')
    /\ find_end continues_entry lines (L - 1) = Py.Ok end_
    /\ fs st' !! beancount_file env
       = Some (mkFile (Py.join Py.nl (firstn (Z.to_nat (L - 1)) lines
                                      ++ skipn (Z.to_nat (end_ + 1)) lines))
                      (clock st)).
Proof.
  intros Hfind Hm Hl Hf HL lines.
  destruct (region_splice lines L HL) as (end_ & He & _ & Hsplice).
  destruct (create_backup_keeps_target env None st)
    as (o & st1 & Hrun & Hes & Hc & Hfile & Hok).
  change (or_default env None) with (beancount_file env) in *.
  destruct Hok as [b ->]; [right; eauto|].
  rewrite Hf in Hfile.
  exists end_. unfold delete_entry_from_file, catch.
  unfold bind at 1. unfold get_state at 1. rewrite Hfind.
  unfold bind at 1. rewrite Hrun.
  unfold bind at 1. unfold read_text, bind at 1, get_state at 1.
  rewrite Hfile. unfold ret at 1.
  unfold bind at 1. rewrite Hm. cbn [of_option]. unfold ret at 1.
  rewrite Hl. cbn [as_int].
  unfold bind at 1. unfold of_outcome at 1. cbn [content].
  fold lines. unfold bind at 1. rewrite He. unfold of_outcome at 1.
  rewrite (Hsplice []). cbn [app].
  unfold bind at 1. unfold write_text, bind at 1, get_state at 1.
  unfold put_fs at 1. cbn [fs entries clock].
  unfold bind at 1. unfold reload_data, bind at 1, get_state at 1.
  cbn [fs entries clock]. unfold bind at 1.
  destruct (load_file env _ (beancount_file env)) as [es|msg];
    unfold of_outcome, put_entries, ret; cbn [fs entries clock];
    eexists _, _; (split; [reflexivity|]); (split; [reflexivity|]);
    cbn [fs]; rewrite lookup_insert_eq, Hc; reflexivity.
Qed.

(** An update of a directive found at line [L] of the ledger writes the
    ledger with the lines of its region replaced by the rendered lines. *)
Lemma update_in_file_replaces_region (env : Env) (k : UpdateKind)
  (st : State) (entry_id : string) (data : list (string * pyval))
  (e : Directive) (m : Meta) (L : Z) (f : File) (new_lines : list string) :
  lookup_for_update k (entries st) entry_id = Some e ->
  meta e = Some m ->
  dict_get "lineno" m = Some (MInt L) ->
  fs st !! beancount_file env = Some f ->
  render_for_update env k data = Py.Ok new_lines ->
  1 <= L <= Z.of_nat (List.length (Py.split Py.nl (content f))) ->
  let lines := Py.split Py.nl (content f) in
  exists (end_ : Z) (r : Result) (st' : State),
    update_in_file env k entry_id data st = (Py.Ok r, st')
    /\ find_end continues_entry lines (L - 1) = Py.Ok end_
    /\ fs st' !! beancount_file env
       = Some (mkFile (Py.join Py.nl (firstn (Z.to_nat (L - 1)) lines
                                      ++ new_lines
                                      ++ skipn (Z.to_nat (end_ + 1)) lines))
                      (clock st)).
Proof.
  intros Hfind Hm Hl Hf Hrender HL lines.
  destruct (region_splice lines L HL) as (end_ & He & _ & Hsplice).
  destruct (create_backup_keeps_target env None st)
    as (o & st1 & Hrun & Hes & Hc & Hfile & Hok).
  change (or_default env None) with (beancount_file env) in *.
  destruct Hok as [b ->]; [right; eauto|].
  rewrite Hf in Hfile.
  exists end_. unfold update_in_file, catch.
  unfold bind at 1. unfold get_state at 1. rewrite Hfind.
  unfold bind at 1. rewrite Hrun.
  unfold bind at 1. unfold read_text, bind at 1, get_state at 1.
  rewrite Hfile. unfold ret at 1.
  unfold bind at 1. rewrite Hm. cbn [of_option]. unfold ret at 1.
  rewrite Hl.
  unfold bind at 1. rewrite Hrender. unfold of_outcome at 1.
  cbn [as_int]. unfold bind at 1. unfold of_outcome at 1. cbn [content].
  fold lines. unfold bind at 1. rewrite He. unfold of_outcome at 1.
  rewrite (Hsplice new_lines).
  unfold bind at 1. unfold write_text, bind at 1, get_state at 1.
  unfold put_fs at 1. cbn [fs entries clock].
  unfold bind at 1. unfold reload_data, bind at 1, get_state at 1.
  cbn [fs entries clock]. unfold bind at 1.
  destruct (load_file env _ (beancount_file env)) as [es|msg];
    unfold of_outcome, put_entries, ret; cbn [fs entries clock];
    eexists _, _; (split; [reflexivity|]); (split; [reflexivity|]);
    cbn [fs]; rewrite lookup_insert_eq, Hc; reflexivity.
Qed.

Example sample_update_transaction :
  let run := update_entry_in_file Sample.env
               (generate_entry_id Sample.coffee) [] Sample.state in
  option_map (fun x => Py.split Py.nl (content x))
             (fs (snd run) !! Sample.ledger_path)
  = Some (firstn 2 Sample.ledger_lines
          ++ Py.split Py.nl Sample.new_coffee_text
          ++ skipn 5 Sample.ledger_lines).
Proof. vm_compute. reflexivity. Qed.

(* ===================================================================== *)
(** * Part III.  Further properties of the code                           *)
(* ===================================================================== *)

(** ** What a query returns *)

Lemma slice_incl {A : Type} (l : list A) (start stop : Z) (x : A) :
  In x (Py.slice l start stop) -> In x l.
Proof.
  unfold Py.slice. intros H. apply in_firstn in H. apply in_skipn in H.
  exact H.
Qed.

(** Every entry of a page comes from a directive of the snapshot that the
    loop kept. *)
Lemma page_entry_selected (es : list Directive) (q : Query) (d : EntryDict) :
  In d (pg_entries (get_entries es q)) ->
  exists e, In e es
            /\ selects q (default_entry_types (entry_types q)) e = true
            /\ d = entry_to_dict e.
Proof.
  unfold get_entries. cbn [pg_entries]. intros H.
  apply slice_incl in H.
  eapply Permutation_in in H; [|symmetry; apply sort_reverse_perm].
  rewrite collect_filter in H. apply in_map_iff in H.
  destruct H as (e & <- & He). apply filter_In in He.
  exists e. tauto.
Qed.

Lemma skip_if_next (c : bool) : skip_if c = Next tt -> c = false.
Proof. destruct c; simpl; congruence. Qed.

(** The passes of the loop body, one filter after the other. *)
Lemma selects_steps (q : Query) (types : list string) (e : Directive) :
  selects q types e = true ->
  existsb (String.eqb (get_entry_type e)) types = true
  /\ when_set (start_date q) (fun s =>
       start_dt <- lift (strptime s) ;;
       skip_if (date_ltb (edate e) start_dt)) = Next tt
  /\ when_set (end_date q) (fun s =>
       end_dt <- lift (strptime s) ;;
       skip_if (date_ltb end_dt (edate e))) = Next tt
  /\ when_set (account_filter q) (fun f =>
       skip_if (negb (entry_matches_account e f))) = Next tt
  /\ when_set (payee_filter q) (fun f =>
       match body e with
       | Transaction _ payee _ _ _ _ =>
           skip_if (negb (Py.truthy_opt payee)
                    || negb (Py.contains (Py.lower f)
                               (Py.lower (default EmptyString payee))))
       | _ => Continue
       end) = Next tt
  /\ when_set (tag_filter q) (fun f =>
       match body e with
       | Transaction _ _ _ tags _ _ =>
           skip_if (match tags with
                    | [] => true
                    | _ => negb (existsb (String.eqb (Py.lower f))
                                   (map Py.lower tags))
                    end)
       | _ => Continue
       end) = Next tt
  /\ when_set (search_term q) (fun t =>
       skip_if (negb (entry_matches_search e t))) = Next tt.
Proof.
  unfold selects, select_entry. intros H.
  destruct (skip_if (negb _)) as [[]| |] eqn:E0; cbn [flow_bind] in H;
    try discriminate.
  apply skip_if_next, negb_false_iff in E0.
  destruct (when_set (start_date q) _) as [[]| |] eqn:E1;
    cbn [flow_bind] in H; try discriminate.
  destruct (when_set (end_date q) _) as [[]| |] eqn:E2;
    cbn [flow_bind] in H; try discriminate.
  destruct (when_set (account_filter q) _) as [[]| |] eqn:E3;
    cbn [flow_bind] in H; try discriminate.
  destruct (when_set (payee_filter q) _) as [[]| |] eqn:E4;
    cbn [flow_bind] in H; try discriminate.
  destruct (when_set (tag_filter q) _) as [[]| |] eqn:E5;
    cbn [flow_bind] in H; try discriminate.
  destruct (when_set (search_term q) _) as [[]| |] eqn:E6;
    cbn [flow_bind] in H; try discriminate.
  repeat split; assumption || reflexivity.
Qed.

Lemma existsb_eqb_In (x : string) (l : list string) :
  existsb (String.eqb x) l = true <-> In x l.
Proof.
  rewrite existsb_exists. split.
  - intros (y & Hy & E). apply String.eqb_eq in E. subst. exact Hy.
  - intros H. exists x. split; [exact H | apply String.eqb_refl].
Qed.

(** X1: the kind allow-list: every entry that [get_entries] returns has a type
    of the requested list, or of the four default kinds when none was
    requested. *)
Theorem get_entries_only_requested_types :
  forall (es : list Directive) (q : Query) (d : EntryDict),
    In d (pg_entries (get_entries es q)) ->
    In (ed_type d) (default_entry_types (entry_types q)).
Proof.
  intros es q d H.
  destruct (page_entry_selected es q d H) as (e & _ & Hs & ->).
  apply selects_steps in Hs. destruct Hs as [Ht _].
  apply existsb_eqb_In. exact Ht.
Qed.

(** Witness: the sample query lists three entries. *)
Lemma get_entries_only_requested_types_witness :
  In (ed_type (entry_to_dict Sample.coffee))
     (default_entry_types (entry_types Sample.all_entries)).
Proof.
  apply (get_entries_only_requested_types Sample.ledger Sample.all_entries).
  vm_compute. left. reflexivity.
Defined.

Lemma date_ltb_false_leb (a b : date) :
  date_ltb a b = false -> date_leb b a = true.
Proof.
  unfold date_ltb, date_leb. rewrite (date_compare_antisym a b).
  destruct (date_compare a b); simpl; congruence.
Qed.

Lemma date_leb_ltb_false (a b : date) :
  date_leb b a = true -> date_ltb a b = false.
Proof.
  unfold date_ltb, date_leb. rewrite (date_compare_antisym a b).
  destruct (date_compare a b); simpl; congruence.
Qed.

Lemma when_set_some (s : string) (k : string -> flow unit) :
  s <> EmptyString -> when_set (Some s) k = k s.
Proof. intros H. unfold when_set. rewrite truthy_nonempty by exact H. reflexivity. Qed.

(** X2: the date range is inclusive on both ends: with both bounds set and
    parsed, every returned entry comes from a directive dated from the
    start date to the end date. *)
Theorem get_entries_within_date_range :
  forall (es : list Directive) (q : Query) (s1 s2 : string) (d1 d2 : date)
         (d : EntryDict),
    start_date q = Some s1 -> s1 <> EmptyString -> strptime s1 = Py.Ok d1 ->
    end_date q = Some s2 -> s2 <> EmptyString -> strptime s2 = Py.Ok d2 ->
    In d (pg_entries (get_entries es q)) ->
    exists e, In e es /\ d = entry_to_dict e
              /\ date_leb d1 (edate e) = true
              /\ date_leb (edate e) d2 = true.
Proof.
  intros es q s1 s2 d1 d2 d H1 N1 P1 H2 N2 P2 Hd.
  destruct (page_entry_selected es q d Hd) as (e & He & Hs & ->).
  exists e. split; [exact He|]. split; [reflexivity|].
  apply selects_steps in Hs. destruct Hs as (_ & Hstart & Hend & _).
  rewrite H1, when_set_some, P1 in Hstart by exact N1.
  rewrite H2, when_set_some, P2 in Hend by exact N2.
  cbn [lift flow_bind] in Hstart, Hend.
  apply skip_if_next in Hstart. apply skip_if_next in Hend.
  split; apply date_ltb_false_leb; assumption.
Qed.

Lemma get_entries_within_date_range_witness :
  let q := mkQuery (Some "2024-01-15") (Some "2024-02-01") None None None None
             None 100 0 in
  exists e, In e Sample.ledger
            /\ entry_to_dict (Sample.note_at 1) = entry_to_dict e
            /\ date_leb (mkdate 2024 1 15) (edate e) = true
            /\ date_leb (edate e) (mkdate 2024 2 1) = true.
Proof.
  apply (get_entries_within_date_range Sample.ledger
           (mkQuery (Some "2024-01-15") (Some "2024-02-01") None None None
              None None 100 0)
           "2024-01-15" "2024-02-01");
    try reflexivity; try discriminate.
  vm_compute. right. right. left. reflexivity.
Defined.

(** X3: a query with date bounds only counts exactly the transactions,
    balances, pads and notes dated within the bounds, the bounds
    included. *)
Theorem get_entries_date_only_count :
  forall (es : list Directive) (s1 s2 : string) (d1 d2 : date) (lim off : Z),
    s1 <> EmptyString -> strptime s1 = Py.Ok d1 ->
    s2 <> EmptyString -> strptime s2 = Py.Ok d2 ->
    total_count
      (get_entries es
         (mkQuery (Some s1) (Some s2) None None None None None lim off))
    = Z.of_nat
        (List.length
           (List.filter
              (fun e => is_supported e && date_leb d1 (edate e)
                        && date_leb (edate e) d2) es)).
Proof.
  intros es s1 s2 d1 d2 lim off N1 P1 N2 P2.
  unfold get_entries. cbn [total_count]. rewrite sort_reverse_length.
  rewrite collect_filter, length_map. do 2 f_equal.
  apply filter_ext. intros e.
  unfold selects, select_entry.
  cbn [start_date end_date account_filter payee_filter tag_filter search_term
       entry_types default_entry_types].
  rewrite !when_set_some by assumption. rewrite P1, P2.
  cbn [lift flow_bind when_set].
  assert (Hsup : existsb (String.eqb (get_entry_type e))
                   ["transaction"; "balance"; "pad"; "note"]
                 = is_supported e).
  { unfold get_entry_type, is_supported. destruct (body e); reflexivity. }
  rewrite Hsup.
  destruct (is_supported e); cbn [negb skip_if flow_bind andb];
    [|reflexivity].
  destruct (date_leb d1 (edate e)) eqn:L1.
  - rewrite (date_leb_ltb_false _ _ L1). cbn [skip_if flow_bind andb].
    destruct (date_leb (edate e) d2) eqn:L2.
    + rewrite (date_leb_ltb_false _ _ L2). reflexivity.
    + destruct (date_ltb d2 (edate e)) eqn:T2; [reflexivity|].
      apply date_ltb_false_leb in T2. congruence.
  - destruct (date_ltb (edate e) d1) eqn:T1; [reflexivity|].
    apply date_ltb_false_leb in T1. congruence.
Qed.

Lemma get_entries_date_only_count_witness :
  total_count
    (get_entries Sample.ledger
       (mkQuery (Some "2024-02-01") (Some "2024-02-01") None None None None
          None 100 0))
  = Z.of_nat
      (List.length
         (List.filter
            (fun e => is_supported e && date_leb (mkdate 2024 2 1) (edate e)
                      && date_leb (edate e) (mkdate 2024 2 1))
            Sample.ledger)).
Proof.
  apply (get_entries_date_only_count Sample.ledger "2024-02-01" "2024-02-01");
    try reflexivity; discriminate.
Defined.

(** X4: a payee filter or a tag filter leaves transactions only: no entry of
    another kind is returned once one of them is set. *)
Theorem get_entries_payee_or_tag_transactions_only :
  forall (es : list Directive) (q : Query) (f : string) (d : EntryDict),
    payee_filter q = Some f \/ tag_filter q = Some f ->
    f <> EmptyString ->
    In d (pg_entries (get_entries es q)) ->
    ed_type d = "transaction".
Proof.
  intros es q f d Hf Hn Hd.
  destruct (page_entry_selected es q d Hd) as (e & _ & Hs & ->).
  apply selects_steps in Hs.
  destruct Hs as (_ & _ & _ & _ & Hp & Ht & _).
  unfold entry_to_dict, get_entry_type. cbn [ed_type].
  destruct Hf as [Hf|Hf]; rewrite Hf, when_set_some in * by exact Hn.
  - destruct (body e); try discriminate; reflexivity.
  - destruct (body e); try discriminate; reflexivity.
Qed.

Lemma get_entries_payee_or_tag_transactions_only_witness :
  ed_type (entry_to_dict Sample.coffee) = "transaction".
Proof.
  apply (get_entries_payee_or_tag_transactions_only Sample.ledger
           (mkQuery None None None (Some "sto") None None None 100 0) "sto").
  - left. reflexivity.
  - discriminate.
  - vm_compute. left. reflexivity.
Defined.

(** X5: an account filter or a search term never lets through a directive of
    another kind than transaction, note, balance and pad, even when the
    type [unknown] is requested. *)
Theorem get_entries_account_or_search_supported_only :
  forall (es : list Directive) (q : Query) (f : string) (d : EntryDict),
    account_filter q = Some f \/ search_term q = Some f ->
    f <> EmptyString ->
    In d (pg_entries (get_entries es q)) ->
    ed_type d <> "unknown".
Proof.
  intros es q f d Hf Hn Hd.
  destruct (page_entry_selected es q d Hd) as (e & _ & Hs & ->).
  apply selects_steps in Hs.
  destruct Hs as (_ & _ & _ & Ha & _ & _ & Hse).
  unfold entry_to_dict, get_entry_type. cbn [ed_type].
  destruct Hf as [Hf|Hf]; rewrite Hf, when_set_some in * by exact Hn.
  - apply skip_if_next, negb_false_iff in Ha.
    unfold entry_matches_account in Ha.
    destruct (body e); try discriminate.
  - apply skip_if_next, negb_false_iff in Hse.
    unfold entry_matches_search in Hse.
    destruct (body e); try discriminate.
Qed.

Lemma get_entries_account_or_search_supported_only_witness :
  ed_type (entry_to_dict Sample.cash_balance) <> "unknown".
Proof.
  apply (get_entries_account_or_search_supported_only Sample.ledger
           (mkQuery None None (Some "cash") None None None
              (Some ["unknown"; "balance"]) 100 0) "cash").
  - left. reflexivity.
  - discriminate.
  - vm_compute. left. reflexivity.
Defined.

(** X6: [get_transactions] returns transactions only. *)
Theorem get_transactions_only_transactions :
  forall (es : list Directive) (q : Query) (d : EntryDict),
    In d (pg_entries (get_transactions es q)) ->
    ed_type d = "transaction".
Proof.
  intros es q d H. unfold get_transactions in H.
  destruct (page_entry_selected es _ d H) as (e & _ & Hs & ->).
  apply selects_steps in Hs. destruct Hs as [Ht _].
  apply existsb_eqb_In in Ht. cbn in Ht. destruct Ht as [Ht|[]].
  symmetry. exact Ht.
Qed.

Lemma get_transactions_only_transactions_witness :
  ed_type (entry_to_dict Sample.coffee) = "transaction".
Proof.
  apply (get_transactions_only_transactions Sample.ledger Sample.all_entries).
  vm_compute. left. reflexivity.
Defined.

(** ** Pages side by side *)

Lemma firstn_add_skipn {A : Type} (x y : nat) (m : list A) :
  firstn x m ++ firstn y (skipn x m) = firstn (x + y) m.
Proof.
  revert m. induction x as [|x IH]; intros m; [reflexivity|].
  destruct m as [|a m]; simpl.
  - rewrite firstn_nil. reflexivity.
  - rewrite IH. reflexivity.
Qed.

Lemma slice_tile {A : Type} (l : list A) (o a b : Z) :
  0 <= o -> 0 <= a -> 0 <= b ->
  Py.slice l o (o + a) ++ Py.slice l (o + a) (o + a + b)
  = Py.slice l o (o + a + b).
Proof.
  intros Ho Ha Hb. unfold Py.slice. rewrite !clamp_nonneg by lia.
  set (n := List.length l).
  set (lo := Nat.min (Z.to_nat o) n).
  set (mid := Nat.min (Z.to_nat (o + a)) n).
  set (hi := Nat.min (Z.to_nat (o + a + b)) n).
  assert (Hlm : (lo <= mid)%nat) by (subst lo mid; lia).
  assert (Hmh : (mid <= hi)%nat) by (subst mid hi; lia).
  replace (skipn mid l) with (skipn (mid - lo) (skipn lo l))
    by (rewrite skipn_skipn; f_equal; lia).
  rewrite firstn_add_skipn. f_equal. lia.
Qed.

(** X7: consecutive pages tile the result: the page of [a] entries at offset
    [o] followed by the page of [b] entries at offset [o + a] is the page of
    [a + b] entries at offset [o]; nothing is lost or repeated between
    pages, and the three pages report the same [total_count]. *)
Theorem get_entries_pages_tile :
  forall (es : list Directive) (sd ed af pf tf st : option string)
         (ts : option (list string)) (o a b : Z),
    0 <= o -> 0 <= a -> 0 <= b ->
    let first := get_entries es (mkQuery sd ed af pf tf st ts a o) in
    let second := get_entries es (mkQuery sd ed af pf tf st ts b (o + a)) in
    let both := get_entries es (mkQuery sd ed af pf tf st ts (a + b) o) in
    pg_entries first ++ pg_entries second = pg_entries both
    /\ total_count first = total_count both
    /\ total_count second = total_count both
    /\ returned_count first + returned_count second = returned_count both.
Proof.
  intros es sd ed af pf tf st ts o a b Ho Ha Hb first second both.
  assert (Htile : pg_entries first ++ pg_entries second = pg_entries both).
  { unfold first, second, both, get_entries.
    cbn [pg_entries offset limit entry_types].
    change (collect (mkQuery sd ed af pf tf st ts b (o + a)))
      with (collect (mkQuery sd ed af pf tf st ts a o)).
    change (collect (mkQuery sd ed af pf tf st ts (a + b) o))
      with (collect (mkQuery sd ed af pf tf st ts a o)).
    rewrite (Z.add_assoc o a b). apply slice_tile; assumption. }
  split; [exact Htile|]. split; [reflexivity|]. split; [reflexivity|].
  assert (Hcount : forall q, returned_count (get_entries es q)
                             = Z.of_nat (List.length
                                           (pg_entries (get_entries es q))))
    by reflexivity.
  unfold first, second, both in *.
  rewrite !Hcount, <- Htile, length_app. lia.
Qed.

Lemma get_entries_pages_tile_witness :
  let first := get_entries Sample.ledger
                 (mkQuery None None None None None None None 1 0) in
  let second := get_entries Sample.ledger
                  (mkQuery None None None None None None None 2 (0 + 1)) in
  let both := get_entries Sample.ledger
                (mkQuery None None None None None None None (1 + 2) 0) in
  pg_entries first ++ pg_entries second = pg_entries both
  /\ total_count first = total_count both
  /\ total_count second = total_count both
  /\ returned_count first + returned_count second = returned_count both.
Proof.
  apply (get_entries_pages_tile Sample.ledger None None None None None None
           None 0 1 2); lia.
Defined.

(** ** Looking an entry up by its identity *)

Lemma find_entry_by_id_some (es : list Directive) (entry_id : string)
  (e : Directive) :
  find_entry_by_id es entry_id = Some e ->
  In e es /\ is_supported e = true /\ generate_entry_id e = entry_id.
Proof.
  unfold find_entry_by_id. intros H. apply find_some in H.
  destruct H as [Hin H]. apply andb_prop in H. destruct H as [Hs Hid].
  apply String.eqb_eq in Hid. auto.
Qed.

Lemma find_entry_by_id_exists (es : list Directive) (e : Directive) :
  In e es -> is_supported e = true ->
  exists e', find_entry_by_id es (generate_entry_id e) = Some e'.
Proof.
  intros Hin Hs. unfold find_entry_by_id.
  destruct (List.find _ es) as [e'|] eqn:F; [eauto|].
  eapply find_none in F; [|exact Hin].
  cbv beta in F. rewrite Hs, String.eqb_refl in F. discriminate.
Qed.

(** X8: every listed entry that is a transaction, note, balance or pad can be
    fetched by the id it is listed with: the lookup returns a directive of
    the snapshot with that very id.  The lookup never returns a directive
    of another kind. *)
Theorem listed_ids_resolve :
  forall (es : list Directive) (q : Query) (d : EntryDict),
    In d (pg_entries (get_entries es q)) ->
    ed_type d <> "unknown" ->
    exists e,
      find_entry_by_id es (ed_id d) = Some e
      /\ In e es
      /\ ed_id (entry_to_dict e) = ed_id d
      /\ ed_type (entry_to_dict e) <> "unknown".
Proof.
  intros es q d Hd Ht.
  destruct (page_entry_selected es q d Hd) as (e & He & _ & ->).
  assert (Hs : is_supported e = true).
  { unfold entry_to_dict, get_entry_type in Ht. cbn [ed_type] in Ht.
    unfold is_supported. destruct (body e); try reflexivity; congruence. }
  destruct (find_entry_by_id_exists es e He Hs) as [e' Hf].
  exists e'. cbn [ed_id entry_to_dict]. split; [exact Hf|].
  apply find_entry_by_id_some in Hf. destruct Hf as (Hin & Hs' & Hid).
  split; [exact Hin|]. split; [exact Hid|].
  unfold entry_to_dict, get_entry_type. cbn [ed_type].
  unfold is_supported in Hs'.
  destruct (body e'); discriminate.
Qed.

Lemma listed_ids_resolve_witness :
  exists e,
    find_entry_by_id Sample.ledger (ed_id (entry_to_dict Sample.coffee))
    = Some e
    /\ In e Sample.ledger
    /\ ed_id (entry_to_dict e) = ed_id (entry_to_dict Sample.coffee)
    /\ ed_type (entry_to_dict e) <> "unknown".
Proof.
  apply (listed_ids_resolve Sample.ledger Sample.all_entries).
  - vm_compute. left. reflexivity.
  - discriminate.
Defined.

(** X9: a directive of another kind than the four supported ones is listed when
    the type [unknown] is requested, but no id finds it: update, delete and
    fetch by id cannot reach it.  [find_entry_by_id] returns directives of
    the four supported kinds only, and [find_transaction_by_id] returns
    transactions only. *)
Theorem unknown_kinds_listed_but_not_found :
  forall (es : list Directive) (e : Directive) (entry_id : string),
    In e es -> is_supported e = false ->
    In (entry_to_dict e)
       (pg_entries
          (get_entries es
             (mkQuery None None None None None None (Some ["unknown"])
                (Z.of_nat (List.length es)) 0)))
    /\ find_entry_by_id es entry_id <> Some e
    /\ find_transaction_by_id es entry_id <> Some e
    /\ (forall found, find_entry_by_id es entry_id = Some found ->
                      is_supported found = true
                      /\ generate_entry_id found = entry_id)
    /\ (forall found, find_transaction_by_id es entry_id = Some found ->
                      is_transaction found = true
                      /\ generate_entry_id found = entry_id).
Proof.
  intros es e entry_id Hin Hs.
  assert (Hnf : find_entry_by_id es entry_id <> Some e).
  { intros F. apply find_entry_by_id_some in F. destruct F as (_ & F & _).
    congruence. }
  assert (Hkinds : forall found, find_entry_by_id es entry_id = Some found ->
                                 is_supported found = true
                                 /\ generate_entry_id found = entry_id).
  { intros found F. apply find_entry_by_id_some in F. tauto. }
  assert (Htxn : forall found,
             find_transaction_by_id es entry_id = Some found ->
             is_transaction found = true
             /\ generate_entry_id found = entry_id).
  { intros found F. unfold find_transaction_by_id in F.
    destruct (find_entry_by_id es entry_id) as [x|] eqn:Fx; [|discriminate].
    destruct (is_transaction x) eqn:Hx; [|discriminate].
    injection F as <-. split; [exact Hx|]. apply (Hkinds x eq_refl). }
  split; [|split; [exact Hnf|split; [|split; [exact Hkinds|exact Htxn]]]].
  - unfold get_entries. cbn [pg_entries offset limit entry_types].
    set (q := mkQuery None None None None None None (Some ["unknown"])
                (Z.of_nat (List.length es)) 0).
    assert (Hsel : In (entry_to_dict e)
                     (collect q (default_entry_types (Some ["unknown"])) es)).
    { rewrite collect_filter. apply in_map, filter_In. split; [exact Hin|].
      unfold selects, select_entry, get_entry_type. subst q.
      unfold is_supported in Hs. destruct (body e); try discriminate;
        reflexivity. }
    set (found := collect q (default_entry_types (Some ["unknown"])) es)
      in *.
    assert (Hlen : (List.length found <= List.length es)%nat).
    { subst found. rewrite collect_filter, length_map.
      apply filter_length_le. }
    unfold Py.slice. rewrite !clamp_nonneg by lia.
    rewrite sort_reverse_length.
    replace (Nat.min (Z.to_nat 0) (List.length found)) with 0%nat by lia.
    change (skipn 0 (Py.sort_reverse ed_date found))
      with (Py.sort_reverse ed_date found).
    rewrite firstn_all2 by (rewrite sort_reverse_length; lia).
    eapply Permutation_in; [apply sort_reverse_perm | exact Hsel].
  - unfold find_transaction_by_id.
    destruct (find_entry_by_id es entry_id) as [e'|] eqn:F; [|discriminate].
    destruct (is_transaction e'); [|discriminate].
    intros E. injection E as ->. contradiction.
Qed.

Lemma unknown_kinds_listed_but_not_found_witness :
  In (entry_to_dict Sample.btc)
     (pg_entries
        (get_entries Sample.ledger
           (mkQuery None None None None None None (Some ["unknown"])
              (Z.of_nat (List.length Sample.ledger)) 0)))
  /\ find_entry_by_id Sample.ledger (generate_entry_id Sample.btc)
     <> Some Sample.btc
  /\ find_transaction_by_id Sample.ledger (generate_entry_id Sample.btc)
     <> Some Sample.btc
  /\ (forall found,
        find_entry_by_id Sample.ledger (generate_entry_id Sample.btc)
        = Some found ->
        is_supported found = true
        /\ generate_entry_id found = generate_entry_id Sample.btc)
  /\ (forall found,
        find_transaction_by_id Sample.ledger (generate_entry_id Sample.btc)
        = Some found ->
        is_transaction found = true
        /\ generate_entry_id found = generate_entry_id Sample.btc).
Proof.
  apply (unknown_kinds_listed_but_not_found Sample.ledger Sample.btc).
  - right. right. right. left. reflexivity.
  - reflexivity.
Defined.

(** ** Metadata *)

Lemma dict_get_filter_keys (keep : string -> bool) (d : Meta) (k : string) :
  dict_get k (List.filter (fun kv => keep (fst kv)) d)
  = if keep k then dict_get k d else None.
Proof.
  induction d as [|[k' v] d IH]; simpl.
  - destruct (keep k); reflexivity.
  - destruct (keep k') eqn:Hk'; simpl.
    + destruct (String.eqb_spec k k') as [->|Hne].
      * rewrite Hk'. reflexivity.
      * exact IH.
    + rewrite IH. destruct (String.eqb_spec k k') as [->|Hne];
        [rewrite Hk'|]; reflexivity.
Qed.

(** X10: [filter_user_metadata] drops exactly the keys [lineno] and [filename]:
    these two are absent from the result, every other key has the value it
    has in the metadata, and filtering again changes nothing. *)
Theorem filter_user_metadata_lookup :
  forall (m : option Meta) (k : string),
    dict_get k (filter_user_metadata m)
    = (if String.eqb k "lineno" || String.eqb k "filename" then None
       else dict_get k (default [] m))
    /\ filter_user_metadata (Some (filter_user_metadata m))
       = filter_user_metadata m.
Proof.
  intros m k. split.
  - destruct m as [d|]; cbn [filter_user_metadata default].
    + rewrite (dict_get_filter_keys
                 (fun x => negb (String.eqb x "lineno"
                                 || String.eqb x "filename"))).
      destruct (String.eqb k "lineno" || String.eqb k "filename");
        reflexivity.
    + destruct (_ || _); reflexivity.
  - destruct m as [d|]; cbn [filter_user_metadata]; [|reflexivity].
    induction d as [|[k' v] d IH]; [reflexivity|].
    cbn [List.filter fst].
    destruct (negb _) eqn:E; cbn [List.filter fst]; [rewrite E, IH|];
      [reflexivity | exact IH].
Qed.

(** X11: the posting metadata of a listed transaction never shows the parser's
    [filename] and [lineno] and holds strings only, while the metadata of
    the entry itself keeps every key of the directive, these two
    included. *)
Theorem listed_metadata_keys :
  forall (e : Directive) (p : Posting),
    (forall k v, In (k, v) (posting_metadata (p_meta p)) ->
                 k <> "filename" /\ k <> "lineno" /\ exists s, v = PStr s)
    /\ map fst (ed_metadata (entry_to_dict e)) = map fst (default [] (meta e)).
Proof.
  intros e p. split.
  - intros k v H. unfold posting_metadata in H.
    destruct (p_meta p) as [d|]; [|contradiction].
    apply in_flat_map in H. destruct H as ([k' v'] & _ & H).
    cbn [fst snd] in H.
    destruct (String.eqb_spec k' "filename") as [E1|E1];
      cbn [orb] in H; [contradiction|].
    destruct (String.eqb_spec k' "lineno") as [E2|E2]; [contradiction|].
    destruct v'; cbn [In] in H; try contradiction;
      destruct H as [H|[]]; injection H as <- <-; eauto.
  - unfold entry_to_dict, safe_metadata. cbn [ed_metadata].
    destruct (meta e) as [d|]; [|reflexivity]. cbn [default].
    rewrite map_map. reflexivity.
Qed.

(** ** The first date of the ledger *)

Lemma date_leb_iff (a b : date) :
  date_leb a b = true
  <-> year a < year b
      \/ (year a = year b
          /\ (month a < month b \/ (month a = month b /\ day a <= day b))).
Proof.
  unfold date_leb, date_compare.
  destruct (Z.compare_spec (year a) (year b));
    destruct (Z.compare_spec (month a) (month b));
    destruct (Z.compare_spec (day a) (day b));
    split; intros Hx; try reflexivity; try discriminate; lia.
Qed.

Lemma date_leb_refl (a : date) : date_leb a a = true.
Proof. apply date_leb_iff. lia. Qed.

Lemma date_leb_trans (a b c : date) :
  date_leb a b = true -> date_leb b c = true -> date_leb a c = true.
Proof. rewrite !date_leb_iff. lia. Qed.

Lemma date_ltb_leb (a b : date) : date_ltb a b = true -> date_leb a b = true.
Proof. unfold date_ltb, date_leb. destruct (date_compare a b); congruence. Qed.

(** The loop of [find_first_directive_date], started at any [first]. *)
Lemma first_date_fold (es : list Directive) (d0 : date) :
  exists d,
    fold_left (fun first entry =>
                 match first with
                 | None => Some (edate entry)
                 | Some f => if date_ltb (edate entry) f
                             then Some (edate entry) else first
                 end) es (Some d0) = Some d
    /\ date_leb d d0 = true
    /\ (d = d0 \/ exists e, In e es /\ edate e = d)
    /\ (forall e, In e es -> date_leb d (edate e) = true).
Proof.
  revert d0. induction es as [|x es IH]; intros d0; cbn [fold_left].
  - exists d0. split; [reflexivity|]. split; [apply date_leb_refl|].
    split; [left; reflexivity|]. intros e [].
  - destruct (date_ltb (edate x) d0) eqn:Hlt.
    + destruct (IH (edate x)) as (d & Hd & Hle & Hin & Hmin).
      exists d. split; [exact Hd|].
      split; [eapply date_leb_trans; [exact Hle|apply date_ltb_leb, Hlt]|].
      split.
      * right. destruct Hin as [->|(e & He & Hed)];
          [exists x; split; [left; reflexivity|reflexivity]
          |exists e; split; [right; exact He|exact Hed]].
      * intros e [<-|He]; [exact Hle | apply Hmin, He].
    + destruct (IH d0) as (d & Hd & Hle & Hin & Hmin).
      exists d. split; [exact Hd|]. split; [exact Hle|]. split.
      * destruct Hin as [->|(e & He & Hed)]; [left; reflexivity|].
        right. exists e. split; [right; exact He|exact Hed].
      * intros e [<-|He]; [|apply Hmin, He].
        eapply date_leb_trans; [exact Hle|].
        apply date_ltb_false_leb, Hlt.
Qed.

(** X12: [find_first_directive_date] returns [None] on an empty ledger only;
    otherwise it returns the date of one of the directives, and no
    directive of the ledger has an earlier date. *)
Theorem find_first_directive_date_earliest :
  forall es : list Directive,
    match find_first_directive_date es with
    | None => es = []
    | Some d =>
        (exists e, In e es /\ edate e = d)
        /\ (forall e, In e es -> date_leb d (edate e) = true)
    end.
Proof.
  intros [|x es]; [reflexivity|].
  unfold find_first_directive_date. cbn [fold_left].
  destruct (first_date_fold es (edate x)) as (d & -> & Hle & Hin & Hmin).
  split.
  - destruct Hin as [->|(e & He & Hed)];
      [exists x; split; [left; reflexivity|reflexivity]
      |exists e; split; [right; exact He|exact Hed]].
  - intros e [<-|He]; [exact Hle | apply Hmin, He].
Qed.

(** ** A new commodity declaration *)

Lemma pick_target_unreferenced (symbol : string) (es : list Directive)
  (t : Py.outcome string) :
  (forall e, In e es -> refers_to symbol e && has_filename e = false) ->
  pick_target symbol es t = t.
Proof.
  induction es as [|x es IH]; intros H; cbn [pick_target]; [reflexivity|].
  assert (Hx := H x (or_introl eq_refl)). unfold refers_to in Hx.
  assert (Hes : pick_target symbol es t = t)
    by (apply IH; intros e He; apply H; right; exact He).
  destruct (body x); try exact Hes; rewrite Hx; exact Hes.
Qed.

(** X13: a declaration for a symbol that no price and no posting of a located
    directive refers to is appended to the ledger file itself: the text
    that was there is kept in front, and the new header carries the
    earliest date of the loaded directives (today's date when there is
    none).  The append stays when the reparse fails; the call then reports
    the parser's error and keeps the entries loaded before. *)
Theorem create_commodity_declaration_appends :
  forall (env : Env) (st : State) (symbol : string) (md : MetaArg) (f : File),
    (forall e, In e (entries st) ->
               refers_to symbol e && has_filename e = false) ->
    beancount_file env <> EmptyString ->
    fs st !! beancount_file env = Some f ->
    exists (r : Result) (st' : State) (d0 : date),
      create_commodity_declaration env symbol md None st = (Py.Ok r, st')
      /\ fs st' !! beancount_file env
         = Some (mkFile (content f +:+ Py.nl
                         +:+ declaration_text d0 symbol (as_dict md))
                        (clock st))
      /\ (forall e, In e (entries st) -> date_leb d0 (edate e) = true)
      /\ (entries st <> [] -> exists e, In e (entries st) /\ edate e = d0)
      /\ (entries st = [] -> d0 = today env (clock st))
      /\ match load_file env (fs st') (beancount_file env) with
         | Py.Ok es =>
             success r = true /\ entries st' = es
             /\ target_file r = Some (beancount_file env)
         | Py.Raised msg => r = failure msg /\ entries st' = entries st
         end.
Proof.
  intros env st symbol md f Href Hne Hf.
  destruct (create_commodity_run env symbol md None st (beancount_file env) f)
    as (bk & st1 & _ & Hrun);
    [apply pick_target_unreferenced, Href
    |apply truthy_nonempty, Hne | exact Hf |].
  cbv zeta in Hrun.
  set (written := <[beancount_file env := _]> (fs st1)) in Hrun.
  assert (Hd : (forall e, In e (entries st) ->
                  date_leb (declaration_date env st None) (edate e) = true)
               /\ (entries st <> [] ->
                   exists e, In e (entries st)
                             /\ edate e = declaration_date env st None)
               /\ (entries st = [] ->
                   declaration_date env st None = today env (clock st))).
  { unfold declaration_date, find_first_directive_date.
    destruct (entries st) as [|x es];
      [split; [intros e []|split; [congruence|reflexivity]]|].
    cbn [fold_left].
    destruct (first_date_fold es (edate x)) as (d0 & -> & Hle & Hin & Hmin).
    cbn [default]. unfold id. split; [|split; [|discriminate]].
    - intros e [<-|He]; [exact Hle | apply Hmin, He].
    - intros _. destruct Hin as [->|(e & He & Hed)];
        [exists x; split; [left; reflexivity|reflexivity]
        |exists e; split; [right; exact He|exact Hed]]. }
  destruct (load_file env written (beancount_file env)) as [es|msg] eqn:Hload;
    eexists _, _, (declaration_date env st None);
    (split; [exact Hrun|]); cbn [fs entries];
    (split; [unfold written; apply lookup_insert_eq|]);
    (split; [apply Hd|]); (split; [apply Hd|]); (split; [apply Hd|]);
    rewrite Hload; repeat split; reflexivity.
Qed.

Lemma create_commodity_declaration_appends_witness :
  exists (r : Result) (st' : State) (d0 : date),
    create_commodity_declaration Sample.env "ETH" MetaOther None Sample.state
    = (Py.Ok r, st')
    /\ fs st' !! Sample.ledger_path
       = Some (mkFile (Sample.ledger_text +:+ Py.nl
                       +:+ declaration_text d0 "ETH" [])
                      120000)
    /\ (forall e, In e Sample.ledger -> date_leb d0 (edate e) = true)
    /\ (exists e, In e Sample.ledger /\ edate e = d0).
Proof.
  destruct (create_commodity_declaration_appends Sample.env Sample.state "ETH"
              MetaOther (mkFile Sample.ledger_text 100))
    as (r & st' & d0 & Hrun & Hfile & Hmin & Hdate & _).
  - intros e He. vm_compute in He.
    repeat (destruct He as [<-|He]; [reflexivity|]). destruct He.
  - discriminate.
  - reflexivity.
  - exists r, st', d0. split; [exact Hrun|]. split; [exact Hfile|].
    split; [exact Hmin|]. apply Hdate. discriminate.
Defined.

(** ** The newest backup *)




(** ** What a delete and an update leave behind *)

Lemma prefix_app_app (a b c : string) :
  String.prefix (a +:+ b) (a +:+ b +:+ c) = true.
Proof.
  induction a as [|x a IH]; [rewrite !app_nil_l; apply prefix_app|].
  rewrite !app_cons, prefix_cons, Ascii.eqb_refl. exact IH.
Qed.

(** A backup run touches backups of its target only. *)
Lemma create_backup_frame (env : Env) (target : option string) (st : State)
  (p : string) :
  String.prefix (or_default env target +:+ ".backup.") p = false ->
  fs (snd (create_backup_if_enabled env target st)) !! p = fs st !! p.
Proof.
  intros Hp. destruct (create_backups env) eqn:Hen.
  - destruct (fs st !! or_default env target) as [f|] eqn:Hf.
    + rewrite (create_backup_run env target st f Hen Hf). cbn [snd fs].
      set (file := or_default env target) in *.
      set (path := file +:+ ".backup." +:+ strftime env (clock st)).
      assert (Hne : path <> p).
      { intros <-. unfold path in Hp.
        rewrite prefix_app_app in Hp. discriminate. }
      assert (Hc : <[path := f]> (fs st) !! p = fs st !! p)
        by (apply lookup_insert_ne; exact Hne).
      destruct (0 <? max_backup_files env); [|exact Hc].
      rewrite lookup_delete_all_notin; [exact Hc|].
      intros HR. apply files_to_remove_backups, glob_backups_In in HR.
      destruct HR as [_ HR]. unfold is_backup_of in HR.
      apply andb_prop in HR. destruct HR as [HR _]. congruence.
    + unfold create_backup_if_enabled. rewrite Hen. cbn [negb].
      unfold bind, get_state, copy2, bind, get_state. rewrite Hf.
      reflexivity.
  - unfold create_backup_if_enabled. rewrite Hen. reflexivity.
Qed.

(** The path that a backup run returns. *)
Lemma create_backup_path (env : Env) (target : option string) (st : State)
  (f : File) :
  fs st !! or_default env target = Some f ->
  fst (create_backup_if_enabled env target st)
  = Py.Ok (if create_backups env
           then Some (or_default env target +:+ ".backup."
                      +:+ strftime env (clock st))
           else None).
Proof.
  intros Hf. destruct (create_backups env) eqn:Hen.
  - rewrite (create_backup_run env target st f Hen Hf). reflexivity.
  - unfold create_backup_if_enabled. rewrite Hen. reflexivity.
Qed.

(** The state after the backup step of a mutation of the ledger. *)
Lemma backup_step (env : Env) (st : State) (f : File) :
  fs st !! beancount_file env = Some f ->
  exists st1,
    create_backup_if_enabled env None st
    = (Py.Ok (if create_backups env
              then Some (beancount_file env +:+ ".backup."
                         +:+ strftime env (clock st))
              else None), st1)
    /\ entries st1 = entries st
    /\ clock st1 = clock st
    /\ fs st1 !! beancount_file env = Some f
    /\ (forall p, String.prefix (beancount_file env +:+ ".backup.") p = false ->
                  fs st1 !! p = fs st !! p).
Proof.
  intros Hf.
  destruct (create_backup_keeps_target env None st)
    as (o & st1 & Hrun & He & Hc & Hfile & _).
  pose proof (create_backup_path env None st f Hf) as Hpath.
  change (or_default env None) with (beancount_file env) in *.
  rewrite Hrun in Hpath. cbn [fst] in Hpath. subst o.
  exists st1. split; [exact Hrun|]. split; [exact He|]. split; [exact Hc|].
  split; [congruence|].
  intros p Hp. pose proof (create_backup_frame env None st p Hp) as Hfr.
  rewrite Hrun in Hfr. exact Hfr.
Qed.

(** [delete_entry_from_file] step by step, for a directive that is found
    and has an int [lineno]. *)
Lemma delete_entry_run (env : Env) (st : State) (entry_id : string)
  (e : Directive) (m : Meta) (L : Z) (f : File) :
  find_entry_by_id (entries st) entry_id = Some e ->
  meta e = Some m ->
  dict_get "lineno" m = Some (MInt L) ->
  fs st !! beancount_file env = Some f ->
  let lines := Py.split Py.nl (content f) in
  exists bk st1,
    create_backup_if_enabled env None st = (Py.Ok bk, st1)
    /\ delete_entry_from_file env entry_id st
       = match find_end continues_entry lines (L - 1) with
         | Py.Raised msg =>
             (Py.Ok (failure ("Failed to delete entry: " +:+ msg)), st1)
         | Py.Ok end_ =>
             let written :=
               <[beancount_file env :=
                   mkFile (Py.join Py.nl
                             (Py.slice_assign lines (L - 1) (end_ + 1) []))
                          (clock st)]> (fs st1) in
             match load_file env written (beancount_file env) with
             | Py.Ok es =>
                 (Py.Ok (succeeded "Entry deleted successfully" bk None),
                  mkState es written (clock st))
             | Py.Raised msg =>
                 (Py.Ok (failure ("Failed to delete entry: " +:+ msg)),
                  mkState (entries st) written (clock st))
             end
         end.
Proof.
  intros Hfind Hm Hl Hf lines.
  destruct (backup_step env st f Hf) as (st1 & Hrun & He & Hc & Hfile & _).
  eexists _, st1. split; [exact Hrun|].
  unfold delete_entry_from_file, catch.
  unfold bind at 1. unfold get_state at 1. rewrite Hfind.
  unfold bind at 1. rewrite Hrun.
  unfold bind at 1. unfold read_text, bind at 1, get_state at 1.
  rewrite Hfile. unfold ret at 1.
  unfold bind at 1. rewrite Hm. cbn [of_option]. unfold ret at 1.
  rewrite Hl. cbn [as_int].
  unfold bind at 1. unfold of_outcome at 1. cbn [content].
  fold lines. unfold bind at 1. unfold of_outcome at 1.
  destruct (find_end continues_entry lines (L - 1)) as [end_|msg];
    [|reflexivity].
  unfold bind at 1. unfold write_text, bind at 1, get_state at 1.
  unfold put_fs at 1. cbn [fs entries clock].
  unfold bind at 1. unfold reload_data, bind at 1, get_state at 1.
  cbn [fs entries clock]. unfold bind at 1. rewrite Hc, He. cbv zeta.
  destruct (load_file env _ (beancount_file env)) as [es|msg];
    unfold of_outcome, put_entries, ret; cbn [fs entries clock];
    reflexivity.
Qed.

(** The update methods step by step, for a directive that is found and has
    an int [lineno]. *)
Lemma update_in_file_run (env : Env) (k : UpdateKind) (st : State)
  (entry_id : string) (data : list (string * pyval))
  (e : Directive) (m : Meta) (L : Z) (f : File) :
  lookup_for_update k (entries st) entry_id = Some e ->
  meta e = Some m ->
  dict_get "lineno" m = Some (MInt L) ->
  fs st !! beancount_file env = Some f ->
  let lines := Py.split Py.nl (content f) in
  let failed msg :=
    failure ("Failed to update " +:+ kind_label k +:+ ": " +:+ msg) in
  exists bk st1,
    create_backup_if_enabled env None st = (Py.Ok bk, st1)
    /\ update_in_file env k entry_id data st
       = match render_for_update env k data with
         | Py.Raised msg => (Py.Ok (failed msg), st1)
         | Py.Ok new_lines =>
             match find_end continues_entry lines (L - 1) with
             | Py.Raised msg => (Py.Ok (failed msg), st1)
             | Py.Ok end_ =>
                 let written :=
                   <[beancount_file env :=
                       mkFile (Py.join Py.nl
                                 (Py.slice_assign lines (L - 1) (end_ + 1)
                                    new_lines))
                              (clock st)]> (fs st1) in
                 match load_file env written (beancount_file env) with
                 | Py.Ok es =>
                     (Py.Ok (succeeded (kind_Label k
                                        +:+ " updated successfully") bk None),
                      mkState es written (clock st))
                 | Py.Raised msg =>
                     (Py.Ok (failed msg),
                      mkState (entries st) written (clock st))
                 end
             end
         end.
Proof.
  intros Hfind Hm Hl Hf lines failed.
  destruct (backup_step env st f Hf) as (st1 & Hrun & He & Hc & Hfile & _).
  eexists _, st1. split; [exact Hrun|].
  unfold update_in_file, catch.
  unfold bind at 1. unfold get_state at 1. rewrite Hfind.
  unfold bind at 1. rewrite Hrun.
  unfold bind at 1. unfold read_text, bind at 1, get_state at 1.
  rewrite Hfile. unfold ret at 1.
  unfold bind at 1. rewrite Hm. cbn [of_option]. unfold ret at 1.
  rewrite Hl.
  unfold bind at 1. unfold of_outcome at 1.
  destruct (render_for_update env k data) as [new_lines|msg];
    [|reflexivity].
  cbn [as_int]. unfold bind at 1. unfold of_outcome at 1. cbn [content].
  fold lines. unfold bind at 1. unfold of_outcome at 1.
  destruct (find_end continues_entry lines (L - 1)) as [end_|msg];
    [|reflexivity].
  unfold bind at 1. unfold write_text, bind at 1, get_state at 1.
  unfold put_fs at 1. cbn [fs entries clock].
  unfold bind at 1. unfold reload_data, bind at 1, get_state at 1.
  cbn [fs entries clock]. unfold bind at 1. rewrite Hc, He. cbv zeta.
  destruct (load_file env _ (beancount_file env)) as [es|msg];
    unfold of_outcome, put_entries, ret; cbn [fs entries clock];
    reflexivity.
Qed.





(** X17: a payload that the renderer rejects costs a backup and nothing else:
    the update fails with the renderer's error, the state it leaves is the
    one that the backup step alone leaves, and the ledger file and the
    loaded entries are the old ones. *)
Theorem update_rejected_payload :
  forall (env : Env) (k : UpdateKind) (st : State) (entry_id : string)
         (data : list (string * pyval)) (e : Directive) (m : Meta) (L : Z)
         (f : File) (msg : string),
    lookup_for_update k (entries st) entry_id = Some e ->
    meta e = Some m ->
    dict_get "lineno" m = Some (MInt L) ->
    fs st !! beancount_file env = Some f ->
    render_for_update env k data = Py.Raised msg ->
    let st' := snd (create_backup_if_enabled env None st) in
    update_in_file env k entry_id data st
    = (Py.Ok (failure ("Failed to update " +:+ kind_label k +:+ ": "
                       +:+ msg)), st')
    /\ fs st' !! beancount_file env = Some f
    /\ entries st' = entries st.
Proof.
  intros env k st entry_id data e m L f msg Hfind Hm Hl Hf Hrender.
  destruct (update_in_file_run env k st entry_id data e m L f Hfind Hm Hl Hf)
    as (bk & st1 & Hbk & Hrun).
  destruct (backup_step env st f Hf) as (st1' & Hbk' & He & _ & Hfile & _).
  rewrite Hbk in Hbk'. injection Hbk' as -> <-.
  rewrite Hrender in Hrun. rewrite Hbk. cbn [snd]. auto.
Qed.

Lemma update_rejected_payload_witness :
  let env :=
    mkEnv Sample.ledger_path true 2 (fun _ _ => Py.Ok Sample.ledger)
      (fun t => "20240301_" +:+ str_Z t) (fun _ => mkdate 2024 3 1)
      (fun _ => None) (fun _ => Py.Raised "'date'")
      (fun _ => Py.Raised "'date'") (fun _ => Py.Raised "'date'") in
  let st' := snd (create_backup_if_enabled env None Sample.state) in
  update_in_file env UTransaction (generate_entry_id Sample.coffee) []
    Sample.state
  = (Py.Ok (failure "Failed to update transaction: 'date'"), st')
  /\ fs st' !! Sample.ledger_path = Some (mkFile Sample.ledger_text 100)
  /\ entries st' = Sample.ledger.
Proof.
  apply (update_rejected_payload
           (mkEnv Sample.ledger_path true 2 (fun _ _ => Py.Ok Sample.ledger)
              (fun t => "20240301_" +:+ str_Z t) (fun _ => mkdate 2024 3 1)
              (fun _ => None) (fun _ => Py.Raised "'date'")
              (fun _ => Py.Raised "'date'") (fun _ => Py.Raised "'date'"))
           UTransaction Sample.state (generate_entry_id Sample.coffee) []
           Sample.coffee
           [("filename", MStr Sample.ledger_path); ("lineno", MInt 3)] 3
           (mkFile Sample.ledger_text 100) "'date'");
    vm_compute; reflexivity.
Defined.

Lemma glob_backups_insert (f : gmap string File) (target p : string)
  (x : File) :
  is_Some (f !! p) ->
  glob_backups (<[p := x]> f) target = glob_backups f target.
Proof.
  intros Hp. unfold glob_backups.
  rewrite (dom_insert_lookup_L f p x Hp). reflexivity.
Qed.

Lemma lookup_for_update_found (k : UpdateKind) (es : list Directive)
  (entry_id : string) (e : Directive) :
  lookup_for_update k es entry_id = Some e ->
  find_entry_by_id es entry_id = Some e.
Proof.
  unfold lookup_for_update, find_transaction_by_id.
  destruct (find_entry_by_id es entry_id) as [x|]; [|destruct k; discriminate].
  destruct k; [destruct (is_transaction x)|destruct (body x)..];
    congruence.
Qed.

(** X18: the backup cap holds after a delete and after an update of a located
    directive: with backups on and a positive cap, no more than
    [max_backup_files] backups of the ledger are left when the call
    returns, whatever the renderer and the parser do.  The path of the
    ledger holds no pattern character, so that the backups that [glob]
    lists are the files named after the ledger. *)
Theorem mutations_keep_backup_cap :
  forall (env : Env) (k : UpdateKind) (st : State) (entry_id : string)
         (data : list (string * pyval)) (e : Directive) (m : Meta) (L : Z)
         (f : File),
    Py.has_magic (beancount_file env) = false ->
    create_backups env = true ->
    0 < max_backup_files env ->
    fs st !! beancount_file env = Some f ->
    find_entry_by_id (entries st) entry_id = Some e ->
    meta e = Some m ->
    dict_get "lineno" m = Some (MInt L) ->
    Z.of_nat (List.length
                (glob_backups
                   (fs (snd (delete_entry_from_file env entry_id st)))
                   (beancount_file env)))
    <= max_backup_files env
    /\ (lookup_for_update k (entries st) entry_id = Some e ->
        Z.of_nat (List.length
                    (glob_backups
                       (fs (snd (update_in_file env k entry_id data st)))
                       (beancount_file env)))
        <= max_backup_files env).
Proof.
  intros env k st entry_id data e m L f _ Hen Hcap Hf Hfind Hm Hl.
  destruct (backup_retention env None st f Hen Hf)
    as (st1 & Hbk & _ & Hkeep & _).
  change (or_default env None) with (beancount_file env) in *.
  destruct (Hkeep Hcap) as [Hle _].
  destruct (backup_step env st f Hf) as (st1' & Hbk' & _ & _ & Hfile & _).
  rewrite Hbk in Hbk'. injection Hbk' as _ <-.
  assert (Hins : forall x,
            glob_backups (<[beancount_file env := x]> (fs st1))
              (beancount_file env)
            = glob_backups (fs st1) (beancount_file env)).
  { intros x. apply glob_backups_insert. eauto. }
  split.
  - destruct (delete_entry_run env st entry_id e m L f Hfind Hm Hl Hf)
      as (bk & st1' & Hbk' & Hrun).
    rewrite Hbk in Hbk'. injection Hbk' as _ <-.
    rewrite Hrun.
    destruct (find_end _ _ _); [|exact Hle]. cbv zeta.
    destruct (load_file env _ _); cbn [snd fs]; rewrite Hins; exact Hle.
  - intros Hlook.
    destruct (update_in_file_run env k st entry_id data e m L f
                Hlook Hm Hl Hf) as (bk & st1' & Hbk' & Hrun).
    rewrite Hbk in Hbk'. injection Hbk' as _ <-.
    rewrite Hrun.
    destruct (render_for_update env k data); [|exact Hle].
    destruct (find_end _ _ _); [|exact Hle]. cbv zeta.
    destruct (load_file env _ _); cbn [snd fs]; rewrite Hins; exact Hle.
Qed.

Lemma mutations_keep_backup_cap_witness :
  Z.of_nat (List.length
              (glob_backups
                 (fs (snd (delete_entry_from_file Sample.env
                             (generate_entry_id Sample.coffee)
                             Sample.state_with_backups)))
                 Sample.ledger_path))
  <= 2.
Proof.
  apply (mutations_keep_backup_cap Sample.env UTransaction
           Sample.state_with_backups (generate_entry_id Sample.coffee) []
           Sample.coffee
           [("filename", MStr Sample.ledger_path); ("lineno", MInt 3)] 3
           (mkFile Sample.ledger_text 100));
    try (vm_compute; reflexivity).
Defined.

(** ** A line number past the end of the file *)

Lemma join_cons_char (c : ascii) (h : string) (t : list string) :
  Py.join Py.nl (String c h :: t) = String c (Py.join Py.nl (h :: t)).
Proof. destruct t; reflexivity. Qed.

(** Joining the lines of a text gives the text back. *)
Lemma join_split_nl (s : string) : Py.join Py.nl (Py.split Py.nl s) = s.
Proof.
  induction s as [|c s IH]; [reflexivity|].
  destruct (Ascii.eqb c (ascii_of_nat 10)) eqn:Hc.
  - apply Ascii.eqb_eq in Hc. subst c.
    change (String (ascii_of_nat 10) s) with (Py.nl +:+ s).
    rewrite split_nl_feed.
    destruct (split_nonempty Py.nl O s) as (h & t & Hs).
    unfold Py.split in *. rewrite Hs in *. rewrite join_cons, IH.
    reflexivity.
  - destruct (split_nl_other c s Hc) as (h & t & H1 & H2).
    rewrite H2, join_cons_char. rewrite H1 in IH. rewrite IH. reflexivity.
Qed.

Lemma append_assoc (a b c : string) : (a +:+ b) +:+ c = a +:+ b +:+ c.
Proof.
  induction a as [|x a IH]; [reflexivity|].
  rewrite !app_cons, IH. reflexivity.
Qed.

Lemma join_app_nl (a b : list string) :
  a <> [] -> b <> [] ->
  Py.join Py.nl (a ++ b) = Py.join Py.nl a +:+ Py.nl +:+ Py.join Py.nl b.
Proof.
  intros Ha Hb. induction a as [|x a IH]; [congruence|].
  destruct a as [|y a].
  - destruct b as [|z b]; [congruence|]. reflexivity.
  - change ((x :: y :: a) ++ b) with (x :: y :: (a ++ b)).
    rewrite !join_cons. change (y :: a ++ b) with ((y :: a) ++ b).
    rewrite IH by congruence.
    rewrite append_assoc. reflexivity.
Qed.

Lemma render_for_update_nonempty (env : Env) (k : UpdateKind)
  (data : list (string * pyval)) (new_lines : list string) :
  render_for_update env k data = Py.Ok new_lines -> new_lines <> [].
Proof.
  unfold render_for_update.
  destruct k;
    [destruct (generate_transaction_text env data) as [t|]
    |destruct (generate_balance_text env data)
    |destruct (generate_note_text env data)];
    intros H; try discriminate; injection H as <-; try discriminate.
  destruct (split_nonempty Py.nl O t) as (h & tl & Hs).
  unfold Py.split. rewrite Hs. discriminate.
Qed.

(** X19: a directive whose recorded line number lies past the last line of the
    ledger (the file was cut since it was parsed): a delete rewrites the
    ledger with the text it has, an update appends the rendered text after
    a line feed; each reports success exactly when the parser accepts the
    file so written. *)
Theorem lineno_past_end_of_file :
  forall (env : Env) (k : UpdateKind) (st : State) (entry_id : string)
         (data : list (string * pyval)) (e : Directive) (m : Meta) (L : Z)
         (f : File) (new_lines : list string),
    find_entry_by_id (entries st) entry_id = Some e ->
    meta e = Some m ->
    dict_get "lineno" m = Some (MInt L) ->
    fs st !! beancount_file env = Some f ->
    Z.of_nat (List.length (Py.split Py.nl (content f))) < L ->
    (exists r st',
        delete_entry_from_file env entry_id st = (Py.Ok r, st')
        /\ fs st' !! beancount_file env
           = Some (mkFile (content f) (clock st))
        /\ (success r = true
            <-> exists es,
                  load_file env (fs st') (beancount_file env) = Py.Ok es))
    /\ (lookup_for_update k (entries st) entry_id = Some e ->
        render_for_update env k data = Py.Ok new_lines ->
        exists r st',
          update_in_file env k entry_id data st = (Py.Ok r, st')
          /\ fs st' !! beancount_file env
             = Some (mkFile (content f +:+ Py.nl +:+ Py.join Py.nl new_lines)
                            (clock st))
          /\ (success r = true
              <-> exists es,
                    load_file env (fs st') (beancount_file env) = Py.Ok es)).
Proof.
  intros env k st entry_id data e m L f new_lines Hfind Hm Hl Hf HL.
  set (lines := Py.split Py.nl (content f)) in *.
  assert (Hend : find_end continues_entry lines (L - 1) = Py.Ok (L - 1)).
  { unfold find_end.
    replace (Z.to_nat (Z.of_nat (List.length lines) - 1 - (L - 1)))
      with O by lia. reflexivity. }
  assert (Hsplice : forall repl,
            Py.slice_assign lines (L - 1) (L - 1 + 1) repl = lines ++ repl).
  { intros repl. unfold Py.slice_assign, Py.clamp.
    destruct (Z.ltb_spec (L - 1) 0); [lia|].
    destruct (Z.ltb_spec (L - 1 + 1) 0); [lia|].
    replace (Z.to_nat (Z.min (Z.max (L - 1) 0) (Z.of_nat (List.length lines))))
      with (List.length lines) by lia.
    replace (Z.to_nat (Z.min (Z.max (L - 1 + 1) 0)
                         (Z.of_nat (List.length lines))))
      with (List.length lines) by lia.
    rewrite Nat.max_id, firstn_all, skipn_all, app_nil_r. reflexivity. }
  assert (Hne : lines <> []).
  { unfold lines. destruct (split_nonempty Py.nl O (content f)) as (h & t & Hs).
    unfold Py.split. rewrite Hs. discriminate. }
  split.
  - destruct (delete_entry_run env st entry_id e m L f Hfind Hm Hl Hf)
      as (bk & st1 & _ & Hrun).
    fold lines in Hrun. rewrite Hend in Hrun. cbv zeta in Hrun.
    rewrite Hsplice, app_nil_r in Hrun.
    unfold lines in Hrun. rewrite join_split_nl in Hrun.
    set (written := <[beancount_file env := _]> (fs st1)) in Hrun.
    destruct (load_file env written (beancount_file env)) as [es|msg]
      eqn:Hload;
      eexists _, _; (split; [exact Hrun|]); cbn [fs];
      (split; [apply lookup_insert_eq|]); rewrite Hload; cbn [success];
      split; intros H; try reflexivity; eauto; try discriminate.
    destruct H as [es H]. discriminate.
  - intros Hlook Hrender.
    destruct (update_in_file_run env k st entry_id data e m L f
                Hlook Hm Hl Hf) as (bk & st1 & _ & Hrun).
    fold lines in Hrun. rewrite Hrender, Hend in Hrun. cbv zeta in Hrun.
    rewrite Hsplice in Hrun.
    rewrite join_app_nl in Hrun
      by (assumption || eapply render_for_update_nonempty; eassumption).
    unfold lines in Hrun. rewrite join_split_nl in Hrun.
    set (written := <[beancount_file env := _]> (fs st1)) in Hrun.
    destruct (load_file env written (beancount_file env)) as [es|msg]
      eqn:Hload;
      eexists _, _; (split; [exact Hrun|]); cbn [fs];
      (split; [apply lookup_insert_eq|]); rewrite Hload; cbn [success];
      split; intros H; try reflexivity; eauto; try discriminate.
    destruct H as [es H]. discriminate.
Qed.

Lemma lineno_past_end_of_file_witness :
  exists r st',
    delete_entry_from_file Sample.env (generate_entry_id (Sample.note_at 40))
      (Sample.state_with [Sample.note_at 40]) = (Py.Ok r, st')
    /\ fs st' !! Sample.ledger_path
       = Some (mkFile Sample.ledger_text 120000)
    /\ (success r = true
        <-> exists es,
              load_file Sample.env (fs st') Sample.ledger_path = Py.Ok es).
Proof.
  apply (lineno_past_end_of_file Sample.env UNote
           (Sample.state_with [Sample.note_at 40])
           (generate_entry_id (Sample.note_at 40)) [] (Sample.note_at 40)
           [("filename", MStr Sample.ledger_path); ("lineno", MInt 40)] 40
           (mkFile Sample.ledger_text 100) []);
    vm_compute; reflexivity.
Defined.

(** ** Rendered transactions *)















Example sample_renderers :
  Render.transaction_lines Payload.espresso = Py.Ok Payload.espresso_lines
  /\ Render.generate_open_text Payload.opening
     = Py.Ok "2024-01-01 open Assets:Cash USD"
  /\ Render.generate_balance_text
       [("date", PStr "2024-02-01"); ("account", PStr "Assets:Cash");
        ("amount", PInt 96); ("currency", PStr "USD"); ("tolerance", PInt 0)]
     = Py.Ok "2024-02-01 balance Assets:Cash 96 USD"
  /\ Render.generate_note_text [("date", PStr "2024-02-01")]
     = Py.Raised "'account'"
  /\ Render.generate_close_text
       [("date", PStr "2024-02-01"); ("account", PList [PStr "a"; PNone])]
     = Py.Ok "2024-02-01 close ['a', None]".
Proof. vm_compute. repeat split; reflexivity. Qed.


(** ** Tags *)

Lemma tag_parts_hash (ts : list string) :
  Render.tag_parts (map (fun t => PStr ("#" +:+ t)) ts)
  = Render.tag_parts (map PStr ts).
Proof.
  induction ts as [|t ts IH]; [reflexivity|].
  cbn [map Render.tag_parts]. rewrite IH. reflexivity.
Qed.

Lemma lstrip_char_done (c : ascii) (s : string) :
  Py.startswith (Py.lstrip_char c s) (str1 c) = false.
Proof.
  induction s as [|x s IH]; [reflexivity|]. cbn [Py.lstrip_char].
  destruct (Ascii.eqb x c) eqn:E; [exact IH|].
  unfold Py.startswith, str1. rewrite prefix_cons, Ascii.eqb_sym, E.
  reflexivity.
Qed.

Lemma dict_get_set_eq {V : Type} (k : string) (v : V)
  (d : list (string * V)) :
  dict_get k (dict_set k v d) = Some v.
Proof.
  induction d as [|[k' v'] d IH]; cbn [dict_set dict_get].
  - rewrite String.eqb_refl. reflexivity.
  - destruct (String.eqb k k') eqn:E; cbn [dict_get].
    + rewrite String.eqb_refl. reflexivity.
    + rewrite E. exact IH.
Qed.

Lemma dict_get_set_ne {V : Type} (k k0 : string) (v : V)
  (d : list (string * V)) :
  k0 <> k -> dict_get k0 (dict_set k v d) = dict_get k0 d.
Proof.
  intros Hne. induction d as [|[k' v'] d IH]; cbn [dict_set dict_get].
  - apply String.eqb_neq in Hne. rewrite Hne. reflexivity.
  - destruct (String.eqb_spec k k') as [<-|E]; cbn [dict_get].
    + apply String.eqb_neq in Hne. rewrite Hne. reflexivity.
    + rewrite IH. reflexivity.
Qed.

(** X21: tags are written with exactly one [#]: a tag given with leading [#]
    characters renders as the tag without them, an empty one is left out,
    and every token written for a tag is [#] followed by a non-empty text
    that does not start with [#]. *)
Theorem tags_get_one_hash :
  forall (d : list (string * pyval)) (ts : list string),
    Render.generate_transaction_text
      (dict_set "tags" (PList (map (fun t => PStr ("#" +:+ t)) ts)) d)
    = Render.generate_transaction_text
        (dict_set "tags" (PList (map PStr ts)) d)
    /\ exists tokens,
         Render.tag_parts (map PStr ts) = Py.Ok tokens
         /\ Forall (fun tok =>
                      exists s, tok = "#" +:+ s /\ s <> EmptyString
                                /\ Py.startswith s "#" = false) tokens.
Proof.
  intros d ts. split.
  - unfold Render.generate_transaction_text, Render.transaction_lines,
      Render.header_line, Render.item, Render.get.
    rewrite !dict_get_set_eq.
    rewrite !(dict_get_set_ne "tags") by discriminate.
    destruct (dict_get "date" d) as [date_str|]; [|reflexivity].
    cbn [Render.obind default].
    assert (Ht : py_truthy (PList (map (fun t => PStr ("#" +:+ t)) ts))
                 = py_truthy (PList (map PStr ts)))
      by (destruct ts; reflexivity).
    unfold id. rewrite Ht.
    destruct (py_truthy (PList (map PStr ts))); [|reflexivity].
    unfold py_iter at 1 3. cbn [Render.obind].
    rewrite tag_parts_hash. reflexivity.
  - induction ts as [|t ts (tokens & Htok & Hall)];
      [exists []; split; [reflexivity|constructor]|].
    cbn [map Render.tag_parts]. rewrite Htok. cbn [Render.obind].
    destruct (Py.truthy (Py.lstrip_char "#" t)) eqn:E.
    + eexists. split; [reflexivity|]. constructor; [|exact Hall].
      eexists. split; [reflexivity|]. split.
      * intros E'. rewrite E' in E. discriminate.
      * apply (lstrip_char_done "#").
    + exists tokens. split; [reflexivity|exact Hall].
Qed.

(** ** Adding an entry *)

(** [add_entry_to_file] step by step, on a ledger that exists. *)
Lemma add_entry_run (env : Env) (d : list (string * pyval)) (st : State)
  (f : File) :
  fs st !! beancount_file env = Some f ->
  let failed msg :=
    failure ("Failed to add "
             +:+ py_str (Render.get d "type" (PStr "entry")) +:+ ": " +:+ msg) in
  exists bk st1,
    create_backup_if_enabled env None st = (Py.Ok bk, st1)
    /\ add_entry_to_file env d st
       = match Render.render_entry d with
         | Py.Raised msg => (Py.Ok (failed msg), st1)
         | Py.Ok rendered =>
             let written :=
               <[beancount_file env :=
                   mkFile (content f +:+ Py.nl +:+ snd rendered +:+ Py.nl)
                          (clock st)]> (fs st1) in
             match load_file env written (beancount_file env) with
             | Py.Ok es =>
                 (Py.Ok (succeeded (fst rendered +:+ " added successfully")
                           bk None),
                  mkState es written (clock st))
             | Py.Raised msg =>
                 (Py.Ok (failed msg), mkState (entries st) written (clock st))
             end
         end.
Proof.
  intros Hf failed.
  destruct (backup_step env st f Hf) as (st1 & Hrun & He & Hc & Hfile & _).
  eexists _, st1. split; [exact Hrun|].
  unfold add_entry_to_file, catch.
  unfold bind at 1. rewrite Hrun.
  unfold bind at 1. unfold of_outcome at 1.
  destruct (Render.render_entry d) as [rendered|msg]; [|reflexivity].
  unfold bind at 1. unfold append_text, bind at 1, get_state at 1.
  rewrite Hfile. unfold put_fs at 1.
  unfold bind at 1. unfold reload_data, bind at 1, get_state at 1.
  cbn [fs entries clock]. unfold bind at 1. rewrite Hc, He. cbv zeta.
  destruct (load_file env _ (beancount_file env)) as [es|msg];
    unfold of_outcome, put_entries, ret; cbn [fs entries clock];
    reflexivity.
Qed.

(** [add_entry_to_file] never raises. *)
Lemma add_entry_returns (env : Env) (d : list (string * pyval)) (st : State) :
  exists r st', add_entry_to_file env d st = (Py.Ok r, st').
Proof.
  unfold add_entry_to_file, catch.
  match goal with
  | |- context [match ?m st with _ => _ end] =>
      destruct (m st) as [[r|msg] st']
  end; unfold ret; eauto.
Qed.

(** X22: an add only ever appends: when the payload renders, the ledger becomes
    its old text, a line feed, the rendered text and a line feed, and
    stays so when the reparse fails (the failure is reported and the old
    entries are kept); when the payload does not render, the ledger text
    and the entries are the old ones and the error is reported. *)
Theorem add_entry_effect :
  forall (env : Env) (d : list (string * pyval)) (st : State) (f : File),
    fs st !! beancount_file env = Some f ->
    exists (r : Result) (st' : State),
      add_entry_to_file env d st = (Py.Ok r, st')
      /\ match Render.render_entry d with
         | Py.Raised msg =>
             r = failure ("Failed to add "
                          +:+ py_str (Render.get d "type" (PStr "entry"))
                          +:+ ": " +:+ msg)
             /\ fs st' !! beancount_file env = Some f
             /\ entries st' = entries st
         | Py.Ok (label, text) =>
             fs st' !! beancount_file env
             = Some (mkFile (content f +:+ Py.nl +:+ text +:+ Py.nl) (clock st))
             /\ match load_file env (fs st') (beancount_file env) with
                | Py.Ok es =>
                    r = succeeded (label +:+ " added successfully")
                          (if create_backups env
                           then Some (beancount_file env +:+ ".backup."
                                      +:+ strftime env (clock st))
                           else None) None
                    /\ entries st' = es
                | Py.Raised msg =>
                    r = failure ("Failed to add "
                                 +:+ py_str (Render.get d "type" (PStr "entry"))
                                 +:+ ": " +:+ msg)
                    /\ entries st' = entries st
                end
         end.
Proof.
  intros env d st f Hf.
  destruct (add_entry_run env d st f Hf) as (bk & st1 & Hbk & Hrun).
  destruct (backup_step env st f Hf) as (st1' & Hbk' & He & _ & Hfile & _).
  rewrite Hbk in Hbk'. injection Hbk' as -> <-.
  cbv zeta in Hrun.
  destruct (Render.render_entry d) as [[label text]|msg].
  - cbn [fst snd] in Hrun.
    set (written := <[beancount_file env := _]> (fs st1)) in Hrun.
    destruct (load_file env written (beancount_file env)) as [es|msg]
      eqn:Hload;
      eexists _, _; (split; [exact Hrun|]); cbn [fs entries];
      (split; [apply lookup_insert_eq|]); rewrite Hload; split; reflexivity.
  - eexists _, _. split; [exact Hrun|]. auto.
Qed.

Lemma add_entry_effect_witness :
  exists (r : Result) (st' : State),
    add_entry_to_file Sample.env Payload.espresso Sample.state = (Py.Ok r, st')
    /\ fs st' !! Sample.ledger_path
       = Some (mkFile (Sample.ledger_text +:+ Py.nl
                       +:+ Py.join Py.nl Payload.espresso_lines +:+ Py.nl)
                      120000).
Proof.
  destruct (add_entry_effect Sample.env Payload.espresso Sample.state
              (mkFile Sample.ledger_text 100) eq_refl)
    as (r & st' & Hrun & Heff).
  exists r, st'. split; [exact Hrun|].
  change (Render.render_entry Payload.espresso)
    with (Py.Ok (A := string * string)
            ("Transaction", Py.join Py.nl Payload.espresso_lines)) in Heff.
  apply Heff.
Defined.

(** X23: a type that [add_entry_to_file] does not know is refused only after
    the backup step: the call fails with "Unsupported entry type", the
    ledger is not written, and the state left is the one that
    [create_backup_if_enabled] alone leaves. *)
Theorem add_entry_unsupported_type :
  forall (env : Env) (d : list (string * pyval)) (st : State) (f : File)
         (t : string),
    fs st !! beancount_file env = Some f ->
    dict_get "type" d = Some (PStr t) ->
    ~ In t ["transaction"; "balance"; "note"; "open"; "close"] ->
    add_entry_to_file env d st
    = (Py.Ok (failure ("Failed to add " +:+ t
                       +:+ ": Unsupported entry type: " +:+ t)),
       snd (create_backup_if_enabled env None st))
    /\ fs (snd (create_backup_if_enabled env None st)) !! beancount_file env
       = Some f.
Proof.
  intros env d st f t Hf Ht Hno.
  destruct (add_entry_run env d st f Hf) as (bk & st1 & Hbk & Hrun).
  destruct (backup_step env st f Hf) as (st1' & Hbk' & _ & _ & Hfile & _).
  rewrite Hbk in Hbk'. injection Hbk' as -> <-.
  rewrite Hbk. cbn [snd]. split; [|exact Hfile].
  rewrite Hrun. unfold Render.render_entry, Render.get. rewrite Ht.
  cbn [default]. unfold id. cbn [py_str].
  repeat match goal with
         | |- context [String.eqb t ?k] =>
             destruct (String.eqb_spec t k) as [E|_];
             [exfalso; apply Hno; rewrite E; simpl; tauto|]
         end.
  reflexivity.
Qed.

Lemma add_entry_unsupported_type_witness :
  add_entry_to_file Sample.env [("type", PStr "pad")] Sample.state
  = (Py.Ok (failure "Failed to add pad: Unsupported entry type: pad"),
     snd (create_backup_if_enabled Sample.env None Sample.state))
  /\ fs (snd (create_backup_if_enabled Sample.env None Sample.state))
     !! Sample.ledger_path
     = Some (mkFile Sample.ledger_text 100).
Proof.
  apply (add_entry_unsupported_type Sample.env [("type", PStr "pad")]
           Sample.state (mkFile Sample.ledger_text 100) "pad");
    try reflexivity.
  simpl. intros [H|[H|[H|[H|[H|[]]]]]]; discriminate.
Defined.

(** ** Add, then delete *)





(** ** The HTTP handlers *)

Lemma update_in_file_returns (env : Env) (k : UpdateKind) (entry_id : string)
  (d : list (string * pyval)) (st : State) :
  exists r st', update_in_file env k entry_id d st = (Py.Ok r, st').
Proof.
  unfold update_in_file, catch.
  match goal with
  | |- context [match ?m st with _ => _ end] =>
      destruct (m st) as [[r|msg] st']
  end; unfold ret; eauto.
Qed.

Lemma update_entry_returns (env : Env) (entry_id : string)
  (d : list (string * pyval)) (st : State) :
  exists r st', update_entry_in_file env entry_id d st = (Py.Ok r, st').
Proof.
  unfold update_entry_in_file, update_transaction_in_file,
    update_balance_in_file, update_note_in_file.
  destruct (default (PStr "transaction") (dict_get "type" d));
    try (unfold ret; eauto; fail).
  repeat match goal with
         | |- context [if ?b then _ else _] => destruct b
         end;
    try apply update_in_file_returns; unfold ret; eauto.
Qed.

Lemma delete_entry_returns (env : Env) (entry_id : string) (st : State) :
  exists r st', delete_entry_from_file env entry_id st = (Py.Ok r, st').
Proof.
  unfold delete_entry_from_file, catch.
  match goal with
  | |- context [match ?m st with _ => _ end] =>
      destruct (m st) as [[r|msg] st']
  end; unfold ret; eauto.
Qed.

(** The shape shared by the POST and the PUT handler, around a mutation
    that returns a result. *)
Lemma validated_reply (fields : list string) (ok : Z)
  (run : list (string * pyval) -> M Result) (json : pyval) (st : State) :
  (forall d s, exists r s', run d s = (Py.Ok r, s')) ->
  exists code reply st',
    Route.validated fields ok run json st = (Py.Ok (code, reply), st')
    /\ match reply with
       | ReplyError _ => st' = st /\ (code = 400 \/ code = 500)
       | ReplyResult r =>
           code = (if success r then ok else 400)
           /\ exists d, json = PDict d
                        /\ Route.validate fields d = Py.Ok None
                        /\ run d st = (Py.Ok r, st')
       | ReplyEntry _ => False
       end.
Proof.
  intros Hrun. unfold Route.validated, catch.
  destruct (py_truthy json) eqn:Ht; cbn [negb];
    [|unfold ret; eexists _, _, _; split; [reflexivity|];
      cbv beta iota; auto].
  destruct json as [| | | | | |d];
    try (unfold raise, ret; eexists _, _, _; (split; [reflexivity|]);
         cbv beta iota; auto; fail).
  unfold bind at 1. unfold of_outcome at 1.
  destruct (Route.validate fields d) as [[err|]|msg] eqn:Hv;
    try (unfold ret; eexists _, _, _; (split; [reflexivity|]);
         cbv beta iota; auto; fail).
  unfold bind. destruct (Hrun d st) as (r & s' & Hr). rewrite Hr.
  unfold ret. destruct (success r) eqn:Hs;
    eexists _, _, _; (split; [reflexivity|]); cbn beta iota;
    rewrite Hs; eauto.
Qed.

(** X25: the POST, PUT and DELETE handlers always reply.  A reply that carries
    an error (a payload that fails the validation, or an exception inside
    it) has status 400 or 500 and nothing was done: the state is the one
    before the request.  A reply that carries the result of the mutation
    has the success status (201 for POST, 200 for PUT and DELETE) exactly
    when the result says success, and 400 otherwise; DELETE always carries
    the result. *)
Theorem error_replies_leave_state :
  forall (env : Env) (transaction_id : string) (json : pyval) (st : State),
    (exists code reply st',
        Route.create_entry env json st = (Py.Ok (code, reply), st')
        /\ match reply with
           | ReplyError _ => st' = st /\ (code = 400 \/ code = 500)
           | ReplyResult r => code = (if success r then 201 else 400)
           | ReplyEntry _ => False
           end)
    /\ (exists code reply st',
           Route.update_transaction env transaction_id json st
           = (Py.Ok (code, reply), st')
           /\ match reply with
              | ReplyError _ => st' = st /\ (code = 400 \/ code = 500)
              | ReplyResult r => code = (if success r then 200 else 400)
              | ReplyEntry _ => False
              end)
    /\ (exists r st',
           Route.delete_transaction env transaction_id st
           = (Py.Ok (if success r then 200 else 400, ReplyResult r), st')
           /\ delete_entry_from_file env transaction_id st = (Py.Ok r, st')).
Proof.
  intros env transaction_id json st. split; [|split].
  - destruct (validated_reply ["date"; "narration"; "postings"] 201
                (add_entry_to_file env) json st)
      as (code & reply & st' & Hrun & Hspec);
      [intros d s; apply add_entry_returns|].
    exists code, reply, st'. split; [exact Hrun|].
    destruct reply; tauto.
  - destruct (validated_reply ["date"; "postings"] 200
                (update_entry_in_file env transaction_id) json st)
      as (code & reply & st' & Hrun & Hspec);
      [intros d s; apply update_entry_returns|].
    exists code, reply, st'. split; [exact Hrun|].
    destruct reply; tauto.
  - destruct (delete_entry_returns env transaction_id st) as (r & st' & Hr).
    exists r, st'. split; [|exact Hr].
    unfold Route.delete_transaction, delete_transaction_from_file, catch, bind.
    rewrite Hr. unfold ret. destruct (success r); reflexivity.
Qed.

Example sample_validation :
  fst (Route.create_entry Sample.env (PDict [("narration", PStr "x")])
         Sample.state)
  = Py.Ok (400, ReplyError "Missing required field: date")
  /\ fst (Route.create_entry Sample.env
            (PDict [("date", PStr "2024-02-01"); ("narration", PStr "x");
                    ("postings", PList [PStr "nothing here"; PInt 3])])
            Sample.state)
     = Py.Ok (400, ReplyError "Posting 1 missing account")
  /\ fst (Route.create_entry Sample.env
            (PDict [("date", PStr "2024-02-01"); ("narration", PStr "x");
                    ("postings", PList [PStr "my account"; PInt 3])])
            Sample.state)
     = Py.Ok (500, ReplyError "TypeError")
  /\ fst (Route.create_entry Sample.env (PList [PInt 1]) Sample.state)
     = Py.Ok (500, ReplyError "AttributeError")
  /\ fst (Route.create_entry Sample.env (PDict []) Sample.state)
     = Py.Ok (400, ReplyError "No JSON data provided")
  /\ option_map fst
       (match fst (Route.create_entry Sample.env (PDict Payload.espresso)
                     Sample.state) with
        | Py.Ok x => Some x
        | Py.Raised _ => None
        end)
     = Some 201.
Proof. vm_compute. repeat split; reflexivity. Qed.

(** X26: the types [open] and [close] are not served: POST answers 400
    "Unsupported entry type" and does nothing, although
    [add_entry_to_file] has a renderer for both and, called with the same
    payload, appends the directive to the ledger. *)
Theorem open_close_not_served :
  forall (env : Env) (d : list (string * pyval)) (st : State) (t : string)
         (f : File) (text : string),
    dict_get "type" d = Some (PStr t) ->
    t = "open" \/ t = "close" ->
    fs st !! beancount_file env = Some f ->
    (if String.eqb t "open" then Render.generate_open_text d
     else Render.generate_close_text d) = Py.Ok text ->
    Route.create_entry env (PDict d) st
    = (Py.Ok (400, ReplyError ("Unsupported entry type: " +:+ t)), st)
    /\ fs (snd (add_entry_to_file env d st)) !! beancount_file env
       = Some (mkFile (content f +:+ Py.nl +:+ text +:+ Py.nl) (clock st)).
Proof.
  intros env d st t f text Ht Hoc Hf Htext. split.
  - unfold Route.create_entry, Route.validated, catch.
    assert (py_truthy (PDict d) = true) as ->
      by (destruct d; [discriminate|reflexivity]).
    cbn [negb]. unfold bind at 1. unfold of_outcome at 1.
    unfold Route.validate, Render.get. rewrite Ht. cbn [default]. unfold id.
    destruct Hoc as [-> | ->]; reflexivity.
  - destruct (add_entry_run env d st f Hf) as (bk & st1 & _ & Hrun).
    assert (Hr : exists label, Render.render_entry d = Py.Ok (label, text)).
    { unfold Render.render_entry, Render.get. rewrite Ht. cbn [default].
      unfold id. destruct Hoc as [-> | ->];
        cbn [String.eqb Ascii.eqb Bool.eqb] in *; rewrite Htext;
        eexists; reflexivity. }
    destruct Hr as [label Hr]. rewrite Hr in Hrun. cbv zeta in Hrun.
    cbn [snd] in Hrun. rewrite Hrun.
    destruct (load_file env _ _); cbn [snd fs]; apply lookup_insert_eq.
Qed.

Lemma open_close_not_served_witness :
  Route.create_entry Sample.env (PDict Payload.opening) Sample.state
  = (Py.Ok (400, ReplyError "Unsupported entry type: open"), Sample.state)
  /\ fs (snd (add_entry_to_file Sample.env Payload.opening Sample.state))
     !! Sample.ledger_path
     = Some (mkFile (Sample.ledger_text +:+ Py.nl
                     +:+ "2024-01-01 open Assets:Cash USD" +:+ Py.nl) 120000).
Proof.
  apply (open_close_not_served Sample.env Payload.opening Sample.state "open"
           (mkFile Sample.ledger_text 100) "2024-01-01 open Assets:Cash USD");
    try reflexivity.
  left. reflexivity.
Defined.

(** X27: [GET /transactions/<id>] changes nothing and answers 200 with an entry
    of the snapshot that has the requested id and the type [transaction],
    or 404 when the lookup finds no transaction. *)
Theorem get_transaction_by_id_reply :
  forall (transaction_id : string) (st : State),
    exists code reply,
      Route.get_transaction_by_id transaction_id st
      = (Py.Ok (code, reply), st)
      /\ match reply with
         | ReplyEntry d =>
             code = 200 /\ ed_id d = transaction_id
             /\ ed_type d = "transaction"
             /\ exists e, In e (entries st) /\ d = entry_to_dict e
         | ReplyError _ =>
             code = 404
             /\ find_transaction_by_id (entries st) transaction_id = None
         | ReplyResult _ => False
         end.
Proof.
  intros transaction_id st. unfold Route.get_transaction_by_id.
  unfold bind, get_state.
  destruct (find_transaction_by_id (entries st) transaction_id) as [e|] eqn:F;
    unfold ret; eexists _, _; (split; [reflexivity|]);
    [|cbv beta iota; auto].
  unfold find_transaction_by_id in F.
  destruct (find_entry_by_id (entries st) transaction_id) as [x|] eqn:Fx;
    [|discriminate].
  destruct (is_transaction x) eqn:Hx; [|discriminate]. injection F as <-.
  apply find_entry_by_id_some in Fx. destruct Fx as (Hin & _ & Hid).
  split; [reflexivity|]. split; [exact Hid|]. split; [|eauto].
  unfold entry_to_dict, get_entry_type, is_transaction in *. cbn [ed_type].
  destruct (body x); try discriminate. reflexivity.
Qed.

(** X28: a balance or a note that passes the validation of the handlers always
    renders: every key that the renderer reads is there, so such a request
    can only fail in the file operations. *)
Theorem validated_balance_note_renders :
  forall (fields : list string) (d : list (string * pyval)) (t : string),
    dict_get "type" d = Some (PStr t) ->
    t = "balance" \/ t = "note" ->
    Route.validate fields d = Py.Ok None ->
    exists label text, Render.render_entry d = Py.Ok (label, text).
Proof.
  intros fields d t Ht Hbn Hv.
  unfold Route.validate, Render.get in Hv. rewrite Ht in Hv.
  cbn [default] in Hv. unfold id in Hv.
  unfold Render.render_entry, Render.get. rewrite Ht. cbn [default]. unfold id.
  assert (Hitem : forall k, dict_has k d = true ->
                            exists v, Render.item d k = Py.Ok v).
  { intros k Hk. unfold dict_has in Hk. unfold Render.item.
    destruct (dict_get k d); [eauto|discriminate]. }
  destruct Hbn as [-> | ->]; cbn [String.eqb Ascii.eqb Bool.eqb] in *;
    unfold Route.check_required, Route.missing_field in Hv;
    cbn [List.find] in Hv.
  - destruct (dict_has "date" d) eqn:H1; cbn [negb] in Hv; [|discriminate].
    destruct (dict_has "account" d) eqn:H2; cbn [negb] in Hv; [|discriminate].
    destruct (dict_has "amount" d) eqn:H3; cbn [negb] in Hv; [|discriminate].
    destruct (dict_has "currency" d) eqn:H4; cbn [negb] in Hv; [|discriminate].
    unfold Render.generate_balance_text.
    destruct (Hitem _ H1) as [v1 ->]. destruct (Hitem _ H2) as [v2 ->].
    destruct (Hitem _ H3) as [v3 ->]. destruct (Hitem _ H4) as [v4 ->].
    cbn [Render.obind].
    destruct (py_truthy _); cbn [Render.obind]; eauto.
  - destruct (dict_has "date" d) eqn:H1; cbn [negb] in Hv; [|discriminate].
    destruct (dict_has "account" d) eqn:H2; cbn [negb] in Hv; [|discriminate].
    destruct (dict_has "comment" d) eqn:H3; cbn [negb] in Hv; [|discriminate].
    unfold Render.generate_note_text.
    destruct (Hitem _ H1) as [v1 ->]. destruct (Hitem _ H2) as [v2 ->].
    destruct (Hitem _ H3) as [v3 ->].
    cbn [Render.obind]. eauto.
Qed.

Lemma validated_balance_note_renders_witness :
  exists label text,
    Render.render_entry
      [("type", PStr "note"); ("date", PStr "2024-02-01");
       ("account", PStr "Assets:Cash"); ("comment", PInt 7)]
    = Py.Ok (label, text).
Proof.
  apply (validated_balance_note_renders ["date"; "postings"]
           [("type", PStr "note"); ("date", PStr "2024-02-01");
            ("account", PStr "Assets:Cash"); ("comment", PInt 7)] "note");
    [reflexivity | right; reflexivity | reflexivity].
Defined.

(** ** Cleanup called on its own *)

Lemma lookup_delete_all_some (paths : list string) (f : gmap string File)
  (p : string) :
  is_Some (delete_all paths f !! p) -> ~ In p paths /\ is_Some (f !! p).
Proof.
  intros H. destruct (List.in_dec string_dec p paths) as [Hin|Hnin].
  - rewrite lookup_delete_all_in in H by exact Hin. destruct H. discriminate.
  - rewrite lookup_delete_all_notin in H by exact Hnin. auto.
Qed.

(** X29: the reading "0 = unlimited" of the cap is the caller's:
    [cleanup_old_backups] itself, called with a cap of zero or below on a
    target whose path holds no pattern character, removes every backup of
    the target; files that are no backup of the target are left alone. *)
Theorem cleanup_without_cap_removes_all :
  forall (env : Env) (target : option string) (st : State),
    Py.has_magic (or_default env target) = false ->
    max_backup_files env <= 0 ->
    let file := or_default env target in
    let st' := snd (cleanup_old_backups env target st) in
    glob_backups (fs st') file = []
    /\ (forall p, is_backup_of file p = false -> fs st' !! p = fs st !! p)
    /\ entries st' = entries st.
Proof.
  intros env target st _ Hcap file st'.
  unfold st', cleanup_old_backups, bind, get_state.
  rewrite remove_all_spec. cbn [snd fs entries]. fold file.
  set (R := files_to_remove env (fs st) file).
  assert (HR : forall p, In p (glob_backups (fs st) file) -> In p R).
  { intros p Hp. unfold R, files_to_remove.
    set (B := glob_backups (fs st) file) in *.
    assert (Hlen : List.length (Py.sort_asc (getmtime (fs st)) B)
                   = List.length B)
      by (symmetry; apply Permutation_length, sort_asc_perm).
    destruct (Z.ltb_spec (max_backup_files env) (Z.of_nat (List.length B)))
      as [_|Hge].
    - unfold Py.slice_to. rewrite clamp_nonneg by lia.
      rewrite firstn_all2 by lia.
      eapply Permutation_in; [apply sort_asc_perm | exact Hp].
    - destruct B; [destruct Hp|]. cbn [List.length] in Hge. lia. }
  split; [|split; [|reflexivity]].
  - destruct (glob_backups (delete_all R (fs st)) file) as [|p l] eqn:E;
      [reflexivity|]. exfalso.
    assert (Hp : In p (glob_backups (delete_all R (fs st)) file))
      by (rewrite E; left; reflexivity).
    apply glob_backups_In in Hp. destruct Hp as [Hsome Hb].
    apply lookup_delete_all_some in Hsome. destruct Hsome as [Hnin Hsome].
    apply Hnin, HR, glob_backups_In. auto.
  - intros p Hp. apply lookup_delete_all_notin. intros Hin.
    apply files_to_remove_backups, glob_backups_In in Hin.
    destruct Hin as [_ Hin]. congruence.
Qed.

Lemma cleanup_without_cap_removes_all_witness :
  let env := Sample.env_with true 0 Sample.ledger in
  let st' := snd (cleanup_old_backups env None Sample.state_with_backups) in
  glob_backups (fs st') Sample.ledger_path = []
  /\ (forall p, is_backup_of Sample.ledger_path p = false ->
                fs st' !! p = Sample.files_with_backups !! p)
  /\ entries st' = Sample.ledger.
Proof.
  apply (cleanup_without_cap_removes_all
           (Sample.env_with true 0 Sample.ledger) None
           Sample.state_with_backups).
  - reflexivity.
  - simpl. lia.
Defined.

(** ** A listed entry sent back *)

Lemma cost_text_of_cost (c : Cost) :
  exists s, Render.cost_text (cost_dict c) = Py.Ok s.
Proof.
  unfold Render.cost_text, cost_dict. cbn [py_truthy].
  repeat match goal with
         | |- context [if ?b then _ else _] => destruct b
         end; eauto.
Qed.

Lemma price_text_of_amount (a : Amount) :
  exists s, Render.price_text (amount_dict a) = Py.Ok s.
Proof.
  unfold Render.price_text, amount_dict. cbn [py_truthy].
  repeat match goal with
         | |- context [if ?b then _ else _] => destruct b
         end; eauto.
Qed.

(** The posting dict of a listing always renders. *)
Lemma posting_lines_of_posting (p : Posting) :
  exists ls, Render.posting_lines (posting_data p) = Py.Ok ls.
Proof.
  unfold Render.posting_lines, posting_data, Render.item, Render.get.
  cbn [dict_get String.eqb Ascii.eqb Bool.eqb default]. unfold id.
  cbn [Render.obind Render.as_str].
  assert (Hc : exists s,
             Render.cost_text (match p_cost p with
                               | Some c => cost_dict c
                               | None => PNone
                               end) = Py.Ok s)
    by (destruct (p_cost p); [apply cost_text_of_cost|eexists; reflexivity]).
  assert (Hp : exists s,
             Render.price_text (match p_price p with
                                | Some a => amount_dict a
                                | None => PNone
                                end) = Py.Ok s)
    by (destruct (p_price p); [apply price_text_of_amount
                              |eexists; reflexivity]).
  destruct Hc as [cs ->]. destruct Hp as [ps ->]. cbn [Render.obind].
  assert (Hm : exists ml,
             Render.meta_lines "    " (PDict (posting_metadata (p_meta p)))
             = Py.Ok ml).
  { unfold Render.meta_lines.
    destruct (py_truthy _); eexists; reflexivity. }
  destruct Hm as [ml ->].
  destruct (py_truthy _ && py_truthy _); cbn [Render.obind]; eauto.
Qed.

Lemma postings_lines_of_postings (ps : list Posting) :
  exists ls, Render.postings_lines (map posting_data ps) = Py.Ok ls.
Proof.
  induction ps as [|p ps (more & IH)]; [eexists; reflexivity|].
  cbn [map Render.postings_lines].
  destruct (posting_lines_of_posting p) as [ls ->].
  rewrite IH. cbn [Render.obind]. eauto.
Qed.

Lemma tag_parts_of_strings (ts : list string) :
  exists toks, Render.tag_parts (map PStr ts) = Py.Ok toks.
Proof.
  induction ts as [|t ts (toks & IH)]; [eexists; reflexivity|].
  cbn [map Render.tag_parts]. rewrite IH. cbn [Render.obind]. eauto.
Qed.

(** X30: the round trip of a listed transaction is not the identity: sent back
    as it was listed, the dict of a transaction always renders, and every
    key of the directive's metadata, the parser's [filename] and [lineno]
    included, comes out as a metadata line right under the header. *)
Theorem listed_transaction_renders_location :
  forall (e : Directive) (m : Meta),
    is_transaction e = true ->
    meta e = Some m ->
    exists header rest,
      Render.transaction_lines (entry_json (entry_to_dict e))
      = Py.Ok (header
               :: map (fun kv => "  " +:+ fst kv +:+ ": "
                                 +:+ Render.quoted
                                       (py_str (safe_value (snd kv)))) m
               ++ rest).
Proof.
  intros e m He Hm. unfold is_transaction in He.
  destruct (body e) as [flag payee narration tags links postings| | | | | | |]
    eqn:Hb; try discriminate.
  unfold Render.transaction_lines, Render.header_line, Render.item,
    Render.get, entry_json, entry_to_dict.
  cbn [ed_id ed_type ed_date ed_metadata ed_data]. rewrite Hb, Hm.
  cbn [body_to_dict_data safe_metadata app dict_get String.eqb Ascii.eqb
       Bool.eqb default]. unfold id.
  cbn [Render.obind Render.as_str].
  destruct (tag_parts_of_strings tags) as [toks Htoks].
  destruct (postings_lines_of_postings postings) as [pl Hpl].
  assert (Htag : (if py_truthy (PList (map PStr tags))
                  then Render.obind (py_iter (PList (map PStr tags)))
                         Render.tag_parts
                  else Py.Ok [])
                 = Py.Ok (if py_truthy (PList (map PStr tags))
                          then toks else [])).
  { destruct tags as [|t tags']; [reflexivity|].
    cbn [map py_truthy]. unfold py_iter. cbn [Render.obind].
    exact Htoks. }
  change (fun ts => Render.tag_parts ts) with Render.tag_parts.
  rewrite Htag. cbn [Render.obind].
  assert (Hlink : exists lk,
             (if py_truthy (PList (map PStr links))
              then Render.obind (py_iter (PList (map PStr links)))
                     (fun ls => Py.Ok (map (fun link => "^" +:+ py_str link)
                                         ls))
              else Py.Ok [])
             = Py.Ok lk)
    by (destruct links; eexists; reflexivity).
  destruct Hlink as [lk ->]. cbn [Render.obind].
  assert (Hmeta : Render.meta_lines "  "
                    (PDict (map (fun kv => (fst kv, safe_value (snd kv))) m))
                  = Py.Ok (map (fun kv => "  " +:+ fst kv +:+ ": "
                                          +:+ Render.quoted
                                                (py_str (safe_value (snd kv))))
                             m)).
  { unfold Render.meta_lines.
    destruct m as [|kv m']; [reflexivity|].
    cbn [map py_truthy]. rewrite map_map. reflexivity. }
  rewrite Hmeta. cbn [Render.obind py_iter]. rewrite Hpl.
  cbn [Render.obind]. eauto.
Qed.

Lemma listed_transaction_renders_location_witness :
  exists header rest,
    Render.transaction_lines (entry_json (entry_to_dict Sample.coffee))
    = Py.Ok (header
             :: map (fun kv => "  " +:+ fst kv +:+ ": "
                               +:+ Render.quoted (py_str (safe_value (snd kv))))
                  [("filename", MStr Sample.ledger_path); ("lineno", MInt 3)]
             ++ rest).
Proof.
  apply (listed_transaction_renders_location Sample.coffee
           [("filename", MStr Sample.ledger_path); ("lineno", MInt 3)]);
    reflexivity.
Defined.

Lemma append_nil_r (s : string) : s +:+ EmptyString = s.
Proof.
  induction s as [|c s IH]; [reflexivity|]. rewrite app_cons, IH. reflexivity.
Qed.

(** The round trip of a listed note and of a listed balance: sent back as
    listed, a note renders as its date, account and quoted comment, and a
    balance as its date, account, number and currency, followed by the
    tolerance when it has one that is not zero. *)
Theorem listed_note_and_balance_render :
  forall (e : Directive),
    match body e with
    | Note account comment _ _ =>
        Render.render_entry (entry_json (entry_to_dict e))
        = Py.Ok ("Note",
                 isoformat (edate e) +:+ " note " +:+ account +:+ " "
                 +:+ Render.quoted comment)
    | Balance account amount tolerance _ =>
        Render.render_entry (entry_json (entry_to_dict e))
        = Py.Ok ("Balance",
                 isoformat (edate e) +:+ " balance " +:+ account +:+ " "
                 +:+ dec_text (number amount) +:+ " " +:+ currency amount
                 +:+ match tolerance with
                     | Some t =>
                         if dec_nonzero t && Py.truthy (dec_text t)
                         then " ~ " +:+ dec_text t +:+ " " +:+ currency amount
                         else EmptyString
                     | None => EmptyString
                     end)
    | _ => True
    end.
Proof.
  intros e.
  destruct (body e) as [| account comment | account amount tolerance diff
                        | | | | |] eqn:Hb; try exact I.
  - unfold Render.render_entry, Render.generate_note_text, Render.item,
      Render.get, entry_json, entry_to_dict, get_entry_type.
    cbn [ed_id ed_type ed_date ed_metadata ed_data]. rewrite Hb.
    reflexivity.
  - unfold Render.render_entry, Render.generate_balance_text, Render.item,
      Render.get, entry_json, entry_to_dict, get_entry_type.
    cbn [ed_id ed_type ed_date ed_metadata ed_data]. rewrite Hb.
    cbn [body_to_dict_data app dict_get String.eqb Ascii.eqb Bool.eqb default
         Render.obind].
    unfold id. cbn [py_str].
    destruct tolerance as [t|]; cbn [py_truthy];
      [|rewrite append_nil_r; reflexivity].
    destruct (dec_nonzero t); cbn [py_truthy andb];
      [|rewrite append_nil_r; reflexivity].
    destruct (Py.truthy (dec_text t)); cbn [Render.obind py_str];
      [|rewrite append_nil_r; reflexivity].
    reflexivity.
Qed.
